(** * The data access service of the news site, and its route handler

    A shallow embedding of [utils/db-service] (class [DatabaseService]), of
    the handler of [/api/news] and of the switches of [pages/api/mock-mode],
    followed by the properties the specification states about them.

    The service owns a cache, a JavaScript object used as a map from string
    keys to [{data, timestamp}]; it reaches the relational store only through
    [executeQuery], and it reads the wall clock through [Date.now()].  All of
    this is threaded through one [world] value by a small state-and-exception
    monad. *)

From Stdlib Require Import ZArith String Ascii List Bool Lia.
From Stdlib Require QArith Qround Qpower Qfield Lqa.
From Stdlib Require Import Sorted Permutation.
From stdpp Require Import gmap strings list pretty.

Local Open Scope Z_scope.

(* ===================================================================== *)
(** * Tables of the relational store *)
(* ===================================================================== *)

(** Modelled from the spec: the schema of the store is not among the sources.
    A row of table [news] has the attributes the specification gives an
    article, under the column names the statements of the service use;
    timestamps are milliseconds, the featured flag is 0 or 1. *)
Record news_row := {
  n_id : Z;
  n_title : string;
  n_slug : string;
  n_content : string;
  n_excerpt : string;
  n_image_url : string;
  n_category_id : Z;
  n_author_id : Z;
  n_status : string;
  n_is_featured : Z;
  n_view_count : Z;
  n_created_at : Z;
  n_updated_at : Z
}.

(** Modelled from the spec: a row of table [categories] (identifier, name,
    slug, optional description). *)
Record category_row := {
  c_id : Z;
  c_name : string;
  c_slug : string;
  c_description : option string
}.

(** Modelled from the spec: a row of table [users], as far as the statements
    of the service look into it. *)
Record user_row := {
  u_id : Z;
  u_name : string
}.

(** [auto_increment] is the identifier the next INSERT into [news] gets. *)
Record database := {
  news : list news_row;
  categories : list category_row;
  users : list user_row;
  auto_increment : Z
}.

(** Modelled from the spec: [NewsArticle] is declared in [utils/db], which is
    not among the sources.  It is what the SELECT of the service returns, a
    row of [news] with the two joined names
    ([SELECT n.*, c.name as category_name, u.name as author_name]). *)
Record NewsArticle := {
  row : news_row;
  category_name : string;
  author_name : string
}.

(** [CategoryWithCount]: [SELECT c.*, COUNT(n.id) as news_count]. *)
Record CategoryWithCount := {
  category : category_row;
  news_count : Z
}.

(** Modelled from the spec: [NewsData] is declared in [utils/db] as well; its
    fields are those the write operations read. *)
Record NewsData := {
  title : string;
  slug : string;
  content : string;
  excerpt : string;
  imageUrl : string;
  categoryId : Z;
  authorId : Z;
  status : string;
  isFeatured : bool
}.

(* ===================================================================== *)
(** * The world: cache, store, clock and the environment's behaviour *)
(* ===================================================================== *)

(** What a cache entry holds.  The field is typed [unknown] in the source and
    a hit hands it back as it is, so the three shapes the service stores live
    in one type. *)
Inductive payload :=
  | PNews (article : option NewsArticle)
  | PList (items : list NewsArticle) (total : Z)
  | PCategories (cats : list CategoryWithCount).

Record entry := {
  data : payload;
  timestamp : Z
}.

(** What is thrown: the error of the query executor, with its message. *)
Inductive exn :=
  | StoreError (message : string)
  | TypeError (message : string).

Definition exn_message (e : exn) : string :=
  match e with StoreError m => m | TypeError m => m end.

(** - [cache] is [this.cache] of the one exported service instance;
    - [db] is the content of the backing store;
    - the [k]-th call of [Date.now()] (or of SQL's [NOW()]) reads
      [clock k], and [ticks] counts the readings made so far;
    - the [k]-th call of [executeQuery] is rejected with message [m] when
      [faults k = Some m] (connection lost, constraint violated, parameter
      refused), and [queries] counts the calls made so far;
    - the [k]-th call of [Math.random()] yields the double whose value is
      [random k]. *)
Record world := {
  cache : gmap string entry;
  db : database;
  clock : nat -> Z;
  ticks : nat;
  faults : nat -> option string;
  queries : nat;
  random : nat -> QArith_base.Q;
  draws : nat
}.

Definition set_cache (c : gmap string entry) (w : world) : world :=
  {| cache := c; db := db w; clock := clock w; ticks := ticks w;
     faults := faults w; queries := queries w;
     random := random w; draws := draws w |}.

Definition set_db (d : database) (w : world) : world :=
  {| cache := cache w; db := d; clock := clock w; ticks := ticks w;
     faults := faults w; queries := queries w;
     random := random w; draws := draws w |}.

Definition set_ticks (n : nat) (w : world) : world :=
  {| cache := cache w; db := db w; clock := clock w; ticks := n;
     faults := faults w; queries := queries w;
     random := random w; draws := draws w |}.

Definition set_queries (n : nat) (w : world) : world :=
  {| cache := cache w; db := db w; clock := clock w; ticks := ticks w;
     faults := faults w; queries := n;
     random := random w; draws := draws w |}.

Definition set_draws (n : nat) (w : world) : world :=
  {| cache := cache w; db := db w; clock := clock w; ticks := ticks w;
     faults := faults w; queries := queries w;
     random := random w; draws := n |}.

(* ===================================================================== *)
(** * Computations: state passing with exceptions *)
(* ===================================================================== *)

Inductive outcome (A : Type) :=
  | Returns (a : A)
  | Throws (e : exn).
Arguments Returns {A} a.
Arguments Throws {A} e.

Definition M (A : Type) : Type := world -> outcome A * world.

Definition ret {A} (a : A) : M A := fun w => (Returns a, w).

Definition bind {A B} (m : M A) (k : A -> M B) : M B :=
  fun w =>
    match m w with
    | (Returns a, w') => k a w'
    | (Throws e, w') => (Throws e, w')
    end.

Definition throw {A} (e : exn) : M A := fun w => (Throws e, w).

(** [try { m } catch (error) { h error }]: what [m] did to the world before
    it threw stays done. *)
Definition try_catch {A} (m : M A) (h : exn -> M A) : M A :=
  fun w =>
    match m w with
    | (Returns a, w') => (Returns a, w')
    | (Throws e, w') => h e w'
    end.

Declare Scope service_scope.
Delimit Scope service_scope with service.
Notation "'do' x <- m ; k" := (bind m (fun x => k))
  (at level 10, x name, m at level 100, k at level 200,
   format "'[v' 'do'  x  <-  m ; '/' k ']'") : service_scope.
Local Open Scope service_scope.

Definition get_cache : M (gmap string entry) := fun w => (Returns (cache w), w).

Definition put_cache (c : gmap string entry) : M unit :=
  fun w => (Returns tt, set_cache c w).

(** [console.error(...)] and [console.log(...)]: the log is not part of the
    world. *)
Definition console_error : M unit := ret tt.
Definition console_log : M unit := ret tt.

(** [Date.now()]. *)
Definition Date_now : M Z :=
  fun w => (Returns (clock w (ticks w)), set_ticks (S (ticks w)) w).

(** [Math.random()]. *)
Definition Math_random : M QArith_base.Q :=
  fun w => (Returns (random w (draws w)), set_draws (S (draws w)) w).

(** Modelled from the spec: [executeQuery(sql, params)] of [utils/db], the
    query executor, is not among the sources.  It accepts a parameterized
    statement with its bound parameters and returns rows or the result of a
    mutation; a failure raises an error.  Here the statement, bound to its
    parameters, is given by its effect [stmt] on the tables, which receives
    the reading of [NOW()]; a rejected call leaves the tables alone. *)
Definition executeQuery {A} (stmt : Z -> database -> A * database) : M A :=
  fun w =>
    let w1 := set_queries (S (queries w)) w in
    match faults w (queries w) with
    | Some m => (Throws (StoreError m), w1)
    | None =>
        let now := clock w1 (ticks w1) in
        let '(a, d) := stmt now (db w1) in
        (Returns a, set_db d (set_ticks (S (ticks w1)) w1))
    end.

(* ===================================================================== *)
(** * The statements the service sends, as functions on the tables *)
(* ===================================================================== *)

(** Modelled from the spec: the result of a mutation, an inserted identifier
    and an affected row count. *)
Record ResultSetHeader := {
  insertId : Z;
  affectedRows : Z
}.

Definition lower (c : ascii) : ascii :=
  let n := nat_of_ascii c in
  if (Nat.leb 65 n && Nat.leb n 90)%bool then ascii_of_nat (n + 32) else c.

(** [text LIKE pattern]: [%] stands for any run of characters, [_] for one
    character, a backslash takes the next character literally; letters
    compare without case, as under the default collation. *)
Fixpoint like (pattern : string) : string -> bool :=
  match pattern with
  | EmptyString =>
      fun text => match text with EmptyString => true | _ => false end
  | String c rest =>
      if Ascii.eqb c "%" then
        fix any (text : string) : bool :=
          like rest text
          || match text with
             | EmptyString => false
             | String _ text' => any text'
             end
      else if Ascii.eqb c "_" then
        fun text =>
          match text with
          | EmptyString => false
          | String _ text' => like rest text'
          end
      else if Ascii.eqb c "\" then
        match rest with
        | String e rest' =>
            fun text =>
              match text with
              | EmptyString => false
              | String d text' => Ascii.eqb (lower e) (lower d) && like rest' text'
              end
        | EmptyString =>
            fun text =>
              match text with
              | String d EmptyString => Ascii.eqb c d
              | _ => false
              end
        end
      else
        fun text =>
          match text with
          | EmptyString => false
          | String d text' => Ascii.eqb (lower c) (lower d) && like rest text'
          end
  end.

(** The conditions the service puts in a WHERE clause on [news n], each with
    the parameter bound to its [?].  [=] on strings is equality of strings. *)
Inductive condition :=
  | StatusPublished                 (* n.status = 'published' *)
  | SlugIs (s : string)             (* n.slug = ? *)
  | CategoryIs (c : Z)              (* n.category_id = ? *)
  | IsFeatured                      (* n.is_featured = 1 *)
  | TextLike (p1 p2 p3 : string).   (* (n.title LIKE ? OR n.content LIKE ? OR n.excerpt LIKE ?) *)

Definition holds (n : news_row) (c : condition) : bool :=
  match c with
  | StatusPublished => String.eqb (n_status n) "published"
  | SlugIs s => String.eqb (n_slug n) s
  | CategoryIs c => Z.eqb (n_category_id n) c
  | IsFeatured => Z.eqb (n_is_featured n) 1
  | TextLike p1 p2 p3 =>
      like p1 (n_title n) || like p2 (n_content n) || like p3 (n_excerpt n)
  end.

(** A WHERE clause is the conjunction of its conditions. *)
Definition where_ (conds : list condition) (n : news_row) : bool :=
  forallb (holds n) conds.

(** [FROM news n JOIN categories c ON n.category_id = c.id
     JOIN users u ON n.author_id = u.id], with the selected columns. *)
Definition news_join (d : database) : list NewsArticle :=
  flat_map (fun n =>
    flat_map (fun c =>
      flat_map (fun u =>
        if Z.eqb (n_category_id n) (c_id c) && Z.eqb (n_author_id n) (u_id u)
        then [ {| row := n; category_name := c_name c; author_name := u_name u |} ]
        else [])
        (users d))
      (categories d))
    (news d).

(** Stable insertion sort, for ORDER BY: [before y x] tells that [y] sorts
    strictly before [x]; rows that tie keep the order they had. *)
Fixpoint insert_sorted {A} (before : A -> A -> bool) (x : A) (l : list A) : list A :=
  match l with
  | [] => [x]
  | y :: l' =>
      if before y x then y :: insert_sorted before x l' else x :: y :: l'
  end.

Fixpoint order_by {A} (before : A -> A -> bool) (l : list A) : list A :=
  match l with
  | [] => []
  | x :: l' => insert_sorted before x (order_by before l')
  end.

(** [LIMIT ? OFFSET ?]. *)
Definition limit_offset {A} (limit offset : Z) (l : list A) : list A :=
  firstn (Z.to_nat limit) (skipn (Z.to_nat offset) l).

(** [SELECT n.*, c.name as category_name, u.name as author_name FROM news n
     JOIN ... WHERE conds]. *)
Definition sql_select_news (conds : list condition)
    (now : Z) (d : database) : list NewsArticle * database :=
  (List.filter (fun a => where_ conds (row a)) (news_join d), d).

(** The same, followed by [ORDER BY n.created_at DESC LIMIT ? OFFSET ?]. *)
Definition sql_select_news_page (conds : list condition) (limit offset : Z)
    (now : Z) (d : database) : list NewsArticle * database :=
  (limit_offset limit offset
     (order_by (fun a b => Z.ltb (n_created_at (row b)) (n_created_at (row a)))
        (List.filter (fun a => where_ conds (row a)) (news_join d))),
   d).

(** [SELECT COUNT( * ) as total FROM news n WHERE conds]: one row, with the
    count in its column [total]. *)
Definition sql_count_news (conds : list condition)
    (now : Z) (d : database) : list Z * database :=
  ([Z.of_nat (length (List.filter (where_ conds) (news d)))], d).

(** [UPDATE news SET view_count = view_count + 1 WHERE id = ?]. *)
Definition sql_increment_view_count (id : Z)
    (now : Z) (d : database) : ResultSetHeader * database :=
  ({| insertId := 0;
      affectedRows := Z.of_nat (length (List.filter (fun n => Z.eqb (n_id n) id) (news d))) |},
   {| news := map (fun n =>
                 if Z.eqb (n_id n) id then
                   {| n_id := n_id n; n_title := n_title n; n_slug := n_slug n;
                      n_content := n_content n; n_excerpt := n_excerpt n;
                      n_image_url := n_image_url n;
                      n_category_id := n_category_id n;
                      n_author_id := n_author_id n; n_status := n_status n;
                      n_is_featured := n_is_featured n;
                      n_view_count := n_view_count n + 1;
                      n_created_at := n_created_at n;
                      n_updated_at := n_updated_at n |}
                 else n) (news d);
      categories := categories d; users := users d;
      auto_increment := auto_increment d |}).

(** [FROM categories c LEFT JOIN news n
     ON c.id = n.category_id AND n.status = 'published']: a category without
    a matching article gives one row, with no article in it. *)
Definition categories_left_join (d : database) : list (category_row * option news_row) :=
  flat_map (fun c =>
    match List.filter (fun n => Z.eqb (c_id c) (n_category_id n)
                                && String.eqb (n_status n) "published") (news d) with
    | [] => [(c, None)]
    | ns => map (fun n => (c, Some n)) ns
    end)
    (categories d).

(** [GROUP BY c.id]: the identifiers of the groups, in order of appearance,
    each with the category columns of its first row. *)
Fixpoint group_heads (rows : list (category_row * option news_row)) : list category_row :=
  match rows with
  | [] => []
  | (c, _) :: rows' =>
      c :: List.filter (fun c' => negb (Z.eqb (c_id c') (c_id c))) (group_heads rows')
  end.

(** [COUNT(n.id)] of the group of [id]: its rows that have an article. *)
Definition count_n_id (id : Z) (rows : list (category_row * option news_row)) : Z :=
  Z.of_nat (length (List.filter (fun r =>
    Z.eqb (c_id (fst r)) id && match snd r with Some _ => true | None => false end) rows)).

(** [SELECT c.*, COUNT(n.id) as news_count FROM categories c LEFT JOIN ...
     GROUP BY c.id ORDER BY c.name]. *)
Definition sql_select_categories
    (now : Z) (d : database) : list CategoryWithCount * database :=
  let rows := categories_left_join d in
  (order_by (fun a b => String.ltb (c_name (category a)) (c_name (category b)))
     (map (fun c => {| category := c; news_count := count_n_id (c_id c) rows |})
        (group_heads rows)),
   d).

(** [INSERT INTO news (title, slug, content, excerpt, image_url, category_id,
     author_id, status, is_featured, created_at, updated_at)
     VALUES (?, ?, ?, ?, ?, ?, ?, ?, ?, NOW(), NOW())]; the identifier comes
    from the table's counter and the view count starts at its default, 0. *)
Definition sql_insert_news (p_title p_slug p_content p_excerpt p_image_url : string)
    (p_category_id p_author_id : Z) (p_status : string) (p_is_featured : Z)
    (now : Z) (d : database) : ResultSetHeader * database :=
  let id := auto_increment d in
  ({| insertId := id; affectedRows := 1 |},
   {| news := news d ++
        [ {| n_id := id; n_title := p_title; n_slug := p_slug;
             n_content := p_content; n_excerpt := p_excerpt;
             n_image_url := p_image_url; n_category_id := p_category_id;
             n_author_id := p_author_id; n_status := p_status;
             n_is_featured := p_is_featured; n_view_count := 0;
             n_created_at := now; n_updated_at := now |} ];
      categories := categories d; users := users d;
      auto_increment := id + 1 |}).

(** [UPDATE news SET title = ?, slug = ?, content = ?, excerpt = ?,
     image_url = ?, category_id = ?, status = ?, is_featured = ?,
     updated_at = NOW() WHERE id = ?]; [affectedRows] counts the rows the
    WHERE clause matched. *)
Definition sql_update_news (p_title p_slug p_content p_excerpt p_image_url : string)
    (p_category_id : Z) (p_status : string) (p_is_featured : Z) (id : Z)
    (now : Z) (d : database) : ResultSetHeader * database :=
  ({| insertId := 0;
      affectedRows := Z.of_nat (length (List.filter (fun n => Z.eqb (n_id n) id) (news d))) |},
   {| news := map (fun n =>
                 if Z.eqb (n_id n) id then
                   {| n_id := n_id n; n_title := p_title; n_slug := p_slug;
                      n_content := p_content; n_excerpt := p_excerpt;
                      n_image_url := p_image_url;
                      n_category_id := p_category_id;
                      n_author_id := n_author_id n; n_status := p_status;
                      n_is_featured := p_is_featured;
                      n_view_count := n_view_count n;
                      n_created_at := n_created_at n;
                      n_updated_at := now |}
                 else n) (news d);
      categories := categories d; users := users d;
      auto_increment := auto_increment d |}).

(** [DELETE FROM news WHERE id = ?]. *)
Definition sql_delete_news (id : Z)
    (now : Z) (d : database) : ResultSetHeader * database :=
  ({| insertId := 0;
      affectedRows := Z.of_nat (length (List.filter (fun n => Z.eqb (n_id n) id) (news d))) |},
   {| news := List.filter (fun n => negb (Z.eqb (n_id n) id)) (news d);
      categories := categories d; users := users d;
      auto_increment := auto_increment d |}).

(* ===================================================================== *)
(** * [DatabaseService] *)
(* ===================================================================== *)

(** [private CACHE_TTL = 1000 * 60 * 5], in milliseconds. *)
Definition CACHE_TTL : Z := 1000 * 60 * 5.

(** [isCacheValid(cacheKey)].  No key the service builds names a property
    that an empty object inherits, so [this.cache[cacheKey]] is a lookup in
    the map. *)
Definition isCacheValid (cacheKey : string) : M bool :=
  do c <- get_cache;
  match c !! cacheKey with
  | None => ret false
  | Some e =>
      do now <- Date_now;
      ret (now - timestamp e <? CACHE_TTL)
  end.

(** [this.cache[cacheKey].data]. *)
Definition cached_data (cacheKey : string) : M payload :=
  do c <- get_cache;
  match c !! cacheKey with
  | Some e => ret (data e)
  | None => throw (TypeError "Cannot read properties of undefined (reading 'data')")
  end.

(** [this.cache[cacheKey] = { data, timestamp: Date.now() }]. *)
Definition store_in_cache (cacheKey : string) (value : payload) : M unit :=
  do now <- Date_now;
  do c <- get_cache;
  put_cache (<[cacheKey := {| data := value; timestamp := now |}]> c).

(** [clearCache()]. *)
Definition clearCache : M unit := put_cache ∅.

(** [incrementViewCount(newsId)]. *)
Definition incrementViewCount (newsId : Z) : M unit :=
  try_catch
    (do _ <- executeQuery (sql_increment_view_count newsId);
     ret tt)
    (fun error => console_error).

(** [getNewsBySlug(slug)]. *)
Definition getNewsBySlug (slug : string) : M payload :=
  let cacheKey := "news_" +:+ slug in
  do valid <- isCacheValid cacheKey;
  if valid then cached_data cacheKey
  else
    try_catch
      (do result <- executeQuery (sql_select_news [SlugIs slug; StatusPublished]);
       let news := head result in
       do _ <- store_in_cache cacheKey (PNews news);
       do _ <- match news with
               | Some a => incrementViewCount (n_id (row a))
               | None => ret tt
               end;
       ret (PNews news))
      (fun error =>
         do _ <- console_error;
         ret (PNews None)).

(** The argument of [getNewsList]; every field may be left out. *)
Record ListOptions := {
  opt_limit : option Z;
  opt_offset : option Z;
  opt_categoryId : option Z;
  opt_featured : option bool;
  opt_searchQuery : option string
}.

(** What a template literal prints for a value that may be [undefined]. *)
Definition template_number (x : option Z) : string :=
  match x with Some n => pretty n | None => "undefined" end.

Definition template_string (x : option string) : string :=
  match x with Some s => s | None => "undefined" end.

Definition template_boolean (b : bool) : string :=
  if b then "true" else "false".

(** [`news_list_${limit}_${offset}_${categoryId}_${featured}_${searchQuery}`]. *)
Definition news_list_key (limit offset : Z) (categoryId : option Z)
    (featured : bool) (searchQuery : option string) : string :=
  "news_list_" +:+ pretty limit +:+ "_" +:+ pretty offset +:+ "_"
  +:+ template_number categoryId +:+ "_" +:+ template_boolean featured +:+ "_"
  +:+ template_string searchQuery.

(** The two WHERE clauses [getNewsList] builds side by side, for [query] and
    for [countQuery]. *)
Definition build_queries (categoryId : option Z) (featured : bool)
    (searchQuery : option string) : list condition * list condition :=
  let query := [StatusPublished] in
  let countQuery := [StatusPublished] in
  (* if (categoryId !== undefined && categoryId !== null) *)
  let '(query, countQuery) :=
    match categoryId with
    | Some c => (query ++ [CategoryIs c], countQuery ++ [CategoryIs c])
    | None => (query, countQuery)
    end in
  (* if (featured) *)
  let '(query, countQuery) :=
    if featured then (query ++ [IsFeatured], countQuery ++ [IsFeatured])
    else (query, countQuery) in
  (* if (searchQuery): neither undefined nor the empty string *)
  let '(query, countQuery) :=
    match searchQuery with
    | Some (String _ _ as s) =>
        let searchParam := "%" +:+ s +:+ "%" in
        (query ++ [TextLike searchParam searchParam searchParam],
         countQuery ++ [TextLike searchParam searchParam searchParam])
    | _ => (query, countQuery)
    end in
  (query, countQuery).

(** [getNewsList(options)]. *)
Definition getNewsList (options : ListOptions) : M payload :=
  let limit := default 10 (opt_limit options) in
  let offset := default 0 (opt_offset options) in
  let categoryId := opt_categoryId options in
  let featured := default false (opt_featured options) in
  let searchQuery := opt_searchQuery options in
  let cacheKey := news_list_key limit offset categoryId featured searchQuery in
  do valid <- isCacheValid cacheKey;
  if valid then cached_data cacheKey
  else
    try_catch
      (let '(query, countQuery) := build_queries categoryId featured searchQuery in
       do news <- executeQuery (sql_select_news_page query limit offset);
       do totalResult <- executeQuery (sql_count_news countQuery);
       (* totalResult[0]?.total || 0 *)
       let total := default 0 (head totalResult) in
       let result := PList news total in
       do _ <- store_in_cache cacheKey result;
       ret result)
      (fun error =>
         do _ <- console_error;
         ret (PList [] 0)).

(** [getCategories()]. *)
Definition getCategories : M payload :=
  let cacheKey := "categories" in
  do valid <- isCacheValid cacheKey;
  if valid then cached_data cacheKey
  else
    try_catch
      (do categories <- executeQuery sql_select_categories;
       do _ <- store_in_cache cacheKey (PCategories categories);
       ret (PCategories categories))
      (fun error =>
         do _ <- console_error;
         ret (PCategories [])).

(** [createNews(newsData)]. *)
Definition createNews (newsData : NewsData) : M Z :=
  try_catch
    (do result <- executeQuery
       (sql_insert_news (title newsData) (slug newsData) (content newsData)
          (excerpt newsData) (imageUrl newsData) (categoryId newsData)
          (authorId newsData) (status newsData)
          (if isFeatured newsData then 1 else 0));
     do _ <- clearCache;
     ret (insertId result))
    (fun error =>
       do _ <- console_error;
       throw error).

(** [updateNews(id, newsData)]. *)
Definition updateNews (id : Z) (newsData : NewsData) : M bool :=
  try_catch
    (do result <- executeQuery
       (sql_update_news (title newsData) (slug newsData) (content newsData)
          (excerpt newsData) (imageUrl newsData) (categoryId newsData)
          (status newsData) (if isFeatured newsData then 1 else 0) id);
     do _ <- clearCache;
     ret (0 <? affectedRows result))
    (fun error =>
       do _ <- console_error;
       throw error).

(** [deleteNews(id)]. *)
Definition deleteNews (id : Z) : M bool :=
  try_catch
    (do result <- executeQuery (sql_delete_news id);
     do _ <- clearCache;
     ret (0 <? affectedRows result))
    (fun error =>
       do _ <- console_error;
       throw error).

(** The three reads and the three writes of the service, as requests one
    can quantify over. *)
Inductive read :=
  | NewsBySlug (slug : string)
  | NewsList (options : ListOptions)
  | Categories.

Definition answer (r : read) : M payload :=
  match r with
  | NewsBySlug slug => getNewsBySlug slug
  | NewsList options => getNewsList options
  | Categories => getCategories
  end.

Inductive write :=
  | CreateNews (newsData : NewsData)
  | UpdateNews (id : Z) (newsData : NewsData)
  | DeleteNews (id : Z).

Inductive written :=
  | Inserted (id : Z)
  | Matched (found : bool).

Definition perform (op : write) : M written :=
  match op with
  | CreateNews newsData => do id <- createNews newsData; ret (Inserted id)
  | UpdateNews id newsData => do b <- updateNews id newsData; ret (Matched b)
  | DeleteNews id => do b <- deleteNews id; ret (Matched b)
  end.

(** The key of a call of [getNewsList], defaults applied. *)
Definition list_key (options : ListOptions) : string :=
  news_list_key (default 10 (opt_limit options)) (default 0 (opt_offset options))
    (opt_categoryId options) (default false (opt_featured options))
    (opt_searchQuery options).

(** The key under which a read looks. *)
Definition key_of (r : read) : string :=
  match r with
  | NewsBySlug slug => "news_" +:+ slug
  | NewsList options => list_key options
  | Categories => "categories"
  end.

(** What [isCacheValid key] answers in [w]: the key has an entry, and the
    next reading of the clock is less than [CACHE_TTL] after its timestamp. *)
Definition within_ttl (key : string) (w : world) : bool :=
  match cache w !! key with
  | Some e => clock w (ticks w) - timestamp e <? CACHE_TTL
  | None => false
  end.

(** The view count the store holds for the article [id]. *)
Definition view_count_of (id : Z) (d : database) : Z :=
  match List.find (fun n => Z.eqb (n_id n) id) (news d) with
  | Some n => n_view_count n
  | None => 0
  end.

(** The published articles a slug names: the rows the statement of
    [getNewsBySlug] selects. *)
Definition published_with_slug (slug : string) (d : database) : list NewsArticle :=
  List.filter (fun a => where_ [SlugIs slug; StatusPublished] (row a)) (news_join d).

(** The number of rows of [news] that the count statement of a call counts. *)
Definition counted (options : ListOptions) (d : database) : Z :=
  Z.of_nat (length (List.filter
    (where_ (snd (build_queries (opt_categoryId options)
                    (default false (opt_featured options))
                    (opt_searchQuery options))))
    (news d))).

(** A call of [getNewsList] is answered by the store when its key is not
    served by the cache and the store answers both of its statements. *)
Definition answered_by_store (options : ListOptions) (w : world) : Prop :=
  within_ttl (list_key options) w = false
  /\ faults w (queries w) = None
  /\ faults w (S (queries w)) = None.

(* ===================================================================== *)
(** * [pages/api/mock-mode]: the two switches *)
(* ===================================================================== *)

(** [process.env] is the map from the variables that are set to their
    values. *)
Module MockMode.

(** [process.env.NEXT_PUBLIC_MOCK_MODE === 'true' || true]. *)
Definition MOCK_MODE (env : gmap string string) : bool :=
  bool_decide (env !! "NEXT_PUBLIC_MOCK_MODE" = Some "true") || true.

(** [process.env.NEXT_PUBLIC_DEBUG_MOCK === 'true' || false]. *)
Definition DEBUG_MOCK (env : gmap string string) : bool :=
  bool_decide (env !! "NEXT_PUBLIC_DEBUG_MOCK" = Some "true") || false.

End MockMode.

(* ===================================================================== *)
(** * Numbers *)
(* ===================================================================== *)

(** A JavaScript number is an IEEE 754 double.  The integers of the handlers
    (identifiers, counts, times in milliseconds) are below 2^53 and their
    sums are exact; a product with a fraction, as in
    [Math.random() * 1000], is rounded to the nearest double.  A double is
    given here by its value, a rational. *)
Module Number.

(** [floor (log2 q)], for [0 < q]. *)
Definition exponent (q : QArith_base.Q) : Z :=
  let e := Z.log2 (QArith_base.Qnum q) - Z.log2 (Z.pos (QArith_base.Qden q)) in
  if QArith_base.Qle_bool (QArith_base.Qpower (QArith_base.inject_Z 2) e) q
  then e else e - 1.

(** The nearest integer, the even one of the two in a tie. *)
Definition nearest_even (q : QArith_base.Q) : Z :=
  let f := Qround.Qfloor q in
  match QArith_base.Qcompare
          (QArith_base.Qminus q (QArith_base.inject_Z f)) (QArith_base.Qmake 1 2) with
  | Lt => f
  | Gt => f + 1
  | Eq => if Z.even f then f else f + 1
  end.

(** The gap between the doubles around [q], for [0 < q]: 53 significant
    bits, and steps of 2^-1074 at the bottom of the range. *)
Definition ulp (q : QArith_base.Q) : QArith_base.Q :=
  QArith_base.Qpower (QArith_base.inject_Z 2) (Z.max (exponent q - 52) (-1074)).

(** Rounding to nearest, ties to even, of a value whose magnitude is within
    the range of the doubles (below 2^1024). *)
Definition round (q : QArith_base.Q) : QArith_base.Q :=
  match QArith_base.Qcompare q (QArith_base.inject_Z 0) with
  | Eq => QArith_base.inject_Z 0
  | Gt =>
      QArith_base.Qmult
        (QArith_base.inject_Z (nearest_even (QArith_base.Qdiv q (ulp q)))) (ulp q)
  | Lt =>
      let p := QArith_base.Qopp q in
      QArith_base.Qopp
        (QArith_base.Qmult
           (QArith_base.inject_Z (nearest_even (QArith_base.Qdiv p (ulp p)))) (ulp p))
  end.

(** [x * y] on doubles. *)
Definition mult (x y : QArith_base.Q) : QArith_base.Q :=
  round (QArith_base.Qmult x y).

End Number.

(* ===================================================================== *)
(** * The handler of [/api/news] *)
(* ===================================================================== *)

Module NewsRoute.

(** A value put on the wire by [res.json]. *)
#[local] Unset Elimination Schemes.
Inductive json :=
  | JNull
  | JBoolean (b : bool)
  | JNumber (n : Z)
  | JString (s : string)
  | JArray (items : list json)
  | JObject (fields : list (string * json)).
#[local] Set Elimination Schemes.

(** The envelope every answer has; a field left out is [None]. *)
Record envelope := {
  success : bool;
  data : option json;
  message : option string;
  meta : option json;
  error : option string
}.

(** [res.status(code).json(body)]. *)
Record response := {
  status_code : Z;
  body : envelope
}.

(** [session.user], as far as the handler looks into it. *)
Record User := { user_id : Z }.
Record Session := { user : option User }.

(** [req.body] of a POST: the fields the handler takes out of it, each
    absent ([undefined]) or present with the type [NewsData] gives it. *)
Record NewsBody := {
  b_title : option string;
  b_slug : option string;
  b_content : option string;
  b_excerpt : option string;
  b_imageUrl : option string;
  b_categoryId : option Z;
  b_status : option string;
  b_isFeatured : option bool
}.

(** The request: [req.method], [req.query] and [req.body] ([None] when the
    request carries no parsed body). *)
Record request := {
  method : string;
  query : gmap string string;
  req_body : option NewsBody
}.

(** Truthiness of a string and of a number that may be [undefined]. *)
Definition truthy_string (x : option string) : bool :=
  match x with Some (String _ _) => true | _ => false end.

Definition truthy_number (x : option Z) : bool :=
  match x with Some n => negb (Z.eqb n 0) | None => false end.

(** [x || fallback]. *)
Definition or_string (x : option string) (fallback : string) : string :=
  match x with Some (String _ _ as s) => s | _ => fallback end.

Definition or_boolean (x : option bool) (fallback : bool) : bool :=
  match x with Some true => true | _ => fallback end.

(** [Math.floor(Math.random() * 1000) + 100]: the product is a product of
    doubles; the floor of a double and the sum of two small integers are
    exact. *)
Definition mock_identifier : M Z :=
  do r <- Math_random;
  ret (Qround.Qfloor (Number.mult r (QArith_base.inject_Z 1000)) + 100).

(** What [Math.floor(Math.random() * 1000) + 100] gives for the next draw. *)
Definition next_identifier (w : world) : Z :=
  Qround.Qfloor (Number.mult (random w (draws w)) (QArith_base.inject_Z 1000)) + 100.

Definition id_object (id : Z) : json := JObject [("id", JNumber id)].

Definition send (code : Z) (e : envelope) : M response :=
  ret {| status_code := code; body := e |}.

(** [String(error)] for an [Error]: its name alone when the message is
    empty, else the name, a colon and the message. *)
Definition String_of_error (e : exn) : string :=
  let name := match e with StoreError _ => "Error" | TypeError _ => "TypeError" end in
  match exn_message e with
  | EmptyString => name
  | String _ _ as m => name +:+ ": " +:+ m
  end.

Section Handler.

(** The two imported switches and [process.env]. *)
Variable env : gmap string string.
Variable MOCK_MODE DEBUG_MOCK : bool.

(** [getSession({ req })], of the authentication library. *)
Variable getSession : request -> M (option Session).

(** The GET case of the switch, and the GET answer of the outer handler in
    mock mode.  They page through the arrays of [data/mockData], which is not
    among the sources, or through [getNewsList], with the numbers parsed
    from [req.query] before the switch; that parsing has no effect and
    cannot throw, so the other cases do not depend on it. *)
Variable GET_case : request -> option Session -> M response.
Variable GET_contingency : M response.

(** The POST case of the switch. *)
Definition POST_case (req : request) (session : option Session) : M response :=
  (* const { title, slug, ... } = req.body *)
  match req_body req with
  | None => throw (TypeError "Cannot destructure property 'title' of 'req.body' as it is undefined.")
  | Some b =>
      let catId := b_categoryId b in
      (* if (!session || !session.user) *)
      match session with
      | None | Some {| user := None |} =>
          send 401 {| success := false; data := None;
                      message := Some "Você precisa estar autenticado para criar uma notícia";
                      meta := None; error := None |}
      | Some {| user := Some u |} =>
          (* if (!title || !slug || !content || !catId) *)
          if negb (truthy_string (b_title b)) || negb (truthy_string (b_slug b))
             || negb (truthy_string (b_content b)) || negb (truthy_number catId)
          then
            send 400 {| success := false; data := None;
                        message := Some "Dados incompletos. Título, slug, conteúdo e categoria são obrigatórios";
                        meta := None; error := None |}
          else if MOCK_MODE then
            do _ <- (if DEBUG_MOCK then console_log else ret tt);
            do mockNewsId <- mock_identifier;
            send 201 {| success := true; data := Some (id_object mockNewsId);
                        message := Some "Notícia criada com sucesso (modo mockado)";
                        meta := None; error := None |}
          else
            try_catch
              (let userId := user_id u in
               do newsId <- createNews
                 {| title := default "" (b_title b);
                    slug := default "" (b_slug b);
                    content := default "" (b_content b);
                    excerpt := or_string (b_excerpt b) "";
                    imageUrl := or_string (b_imageUrl b) "";
                    categoryId := default 0 catId;
                    authorId := userId;
                    status := or_string (b_status b) "draft";
                    isFeatured := or_boolean (b_isFeatured b) false |};
               send 201 {| success := true; data := Some (id_object newsId);
                           message := Some "Notícia criada com sucesso";
                           meta := None; error := None |})
              (fun dbError =>
                 do _ <- console_error;
                 do fallbackId <- mock_identifier;
                 send 201 {| success := true; data := Some (id_object fallbackId);
                             message := Some "Notícia criada com sucesso (modo fallback)";
                             meta := None; error := None |})
      end
  end.

(** [handler(req, res)]; the answer sent through [res] is what it returns. *)
Definition handler (req : request) : M response :=
  try_catch
    (do session <- getSession req;
     if String.eqb (method req) "GET" then GET_case req session
     else if String.eqb (method req) "POST" then POST_case req session
     else
       send 405 {| success := false; data := None;
                   message := Some "Método não permitido";
                   meta := None; error := None |})
    (fun error =>
       let errorMessage := exn_message error in
       do _ <- console_error;
       let failure :=
         send 500 {| success := false; data := None;
                     message := Some errorMessage; meta := None;
                     error := if bool_decide (env !! "NODE_ENV" = Some "development")
                              then Some (String_of_error error) else None |} in
       if MOCK_MODE then
         if String.eqb (method req) "GET" then GET_contingency
         else if String.eqb (method req) "POST" then
           do id <- mock_identifier;
           send 201 {| success := true; data := Some (id_object id);
                       message := Some "Notícia criada com sucesso (modo contingência)";
                       meta := None; error := None |}
         else failure
       else failure).

End Handler.

(** The handler as the module exports it: the switches are the constants of
    [mock-mode], computed from the environment of the process. *)
Definition handler_of_process (env : gmap string string) :=
  handler env (MockMode.MOCK_MODE env) (MockMode.DEBUG_MOCK env).

End NewsRoute.

(* ===================================================================== *)
(** * The other routes: [/api/news/slug/[slug]], [/api/categories],
      [/api/news/[id]] *)
(* ===================================================================== *)

(** A value of [req.query]: a string, or an array of strings when the
    parameter is repeated; an absent parameter is [None]. *)
Inductive query_value :=
  | QString (s : string)
  | QArray (l : list string).

(** [!news] for what a read of the service returned: only null is falsy; an
    article, a listing and an array are objects. *)
Definition is_null (p : payload) : bool :=
  match p with PNews None => true | _ => false end.

(** [news.category_id] and [news.id]: [undefined] on anything that is not an
    article. *)
Definition category_id_of (p : payload) : option Z :=
  match p with PNews (Some a) => Some (n_category_id (row a)) | _ => None end.

Definition id_of (p : payload) : option Z :=
  match p with PNews (Some a) => Some (n_id (row a)) | _ => None end.

Module SlugRoute.

Record request := {
  method : string;
  query_slug : option query_value
}.

(** The body of an answer; a field left out is [None]. *)
Record envelope := {
  success : bool;
  data : option payload;
  relatedNews : option (list NewsArticle);
  message : option string
}.

Record response := {
  status_code : Z;
  body : envelope
}.

Definition send (code : Z) (e : envelope) : M response :=
  ret {| status_code := code; body := e |}.

(** [const { news: relatedNews } = await dbService.getNewsList(...)] followed
    by [relatedNews.filter]: null cannot be destructured, and a value without
    a [news] array has no [filter]. *)
Definition related_of (listed : payload) : M (list NewsArticle) :=
  match listed with
  | PList items _ => ret items
  | PNews None =>
      throw (TypeError "Cannot destructure property 'news' of null")
  | _ =>
      throw (TypeError "Cannot read properties of undefined (reading 'filter')")
  end.

(** [item.id !== news.id]. *)
Definition other_than (news : payload) (item : NewsArticle) : bool :=
  match id_of news with
  | Some id => negb (Z.eqb (n_id (row item)) id)
  | None => true
  end.

(** [handler(req, res)] of [pages/api/news/slug/[slug].ts]. *)
Definition handler (req : request) : M response :=
  try_catch
    (if negb (String.eqb (method req) "GET") then
       send 405 {| success := false; data := None; relatedNews := None;
                   message := Some "Método não permitido" |}
     else
       match query_slug req with
       | Some (QString (String _ _ as slug)) =>
           do news <- getNewsBySlug slug;
           if is_null news then
             send 404 {| success := false; data := None; relatedNews := None;
                         message := Some "Notícia não encontrada" |}
           else
             do listed <- getNewsList
                            {| opt_limit := Some 4; opt_offset := None;
                               opt_categoryId := category_id_of news;
                               opt_featured := None; opt_searchQuery := None |};
             do relatedNews <- related_of listed;
             let filteredRelatedNews := List.filter (other_than news) relatedNews in
             send 200 {| success := true; data := Some news;
                         relatedNews := Some (firstn 3 filteredRelatedNews);
                         message := None |}
       | _ =>
           send 400 {| success := false; data := None; relatedNews := None;
                       message := Some "Slug de notícia inválido" |}
       end)
    (fun error =>
       do _ <- console_error;
       send 500 {| success := false; data := None; relatedNews := None;
                   message := Some "Erro ao buscar notícia" |}).

End SlugRoute.

Module CategoriesRoute.

(** An element of [mockCategories], with the fields the handler reads;
    [description] and [count] may be missing. *)
Record MockCategory := {
  mock_id : Z;
  mock_name : string;
  mock_slug : string;
  mock_description : option string;
  mock_count : option Z
}.

(** An element of [formattedCategories]. *)
Record FormattedCategory := {
  id : Z;
  name : string;
  slug : string;
  description : string;
  news_count : Z
}.

(** What goes in [data]: the reshaped mock categories, or what
    [dbService.getCategories()] returned. *)
Inductive categories_data :=
  | Formatted (l : list FormattedCategory)
  | FromService (p : payload).

Record envelope := {
  success : bool;
  data : option categories_data;
  message : option string;
  error : option string
}.

Record response := {
  status_code : Z;
  body : envelope
}.

Definition send (code : Z) (e : envelope) : M response :=
  ret {| status_code := code; body := e |}.

(** [mockCategories.map(cat => ({ id: cat.id, name: cat.name, slug: cat.slug,
     description: cat.description || '', news_count: cat.count || 0 }))]. *)
Definition format (cat : MockCategory) : FormattedCategory :=
  {| id := mock_id cat; name := mock_name cat; slug := mock_slug cat;
     description := NewsRoute.or_string (mock_description cat) "";
     news_count := default 0 (mock_count cat) |}.

Section Handler.

Variable env : gmap string string.
Variable MOCK_MODE DEBUG_MOCK : bool.

(** [categories] of [data/mockData], which is not among the sources. *)
Variable mockCategories : list MockCategory.

Definition formattedCategories : list FormattedCategory := map format mockCategories.

Definition mocked : M response :=
  send 200 {| success := true; data := Some (Formatted formattedCategories);
              message := None; error := None |}.

(** [handler(req, res)] of [pages/api/categories/index.ts]; of the request
    it reads [req.method] only. *)
Definition handler (method : string) : M response :=
  try_catch
    (if negb (String.eqb method "GET") then
       send 405 {| success := false; data := None;
                   message := Some "Método não permitido"; error := None |}
     else if MOCK_MODE then
       do _ <- (if DEBUG_MOCK then console_log else ret tt);
       mocked
     else
       try_catch
         (do categories <- getCategories;
          send 200 {| success := true; data := Some (FromService categories);
                      message := None; error := None |})
         (fun dbError =>
            do _ <- console_error;
            mocked))
    (fun error =>
       do _ <- console_error;
       if MOCK_MODE then
         do _ <- console_log;
         mocked
       else
         send 500 {| success := false; data := None;
                     message := Some (exn_message error);
                     error := if bool_decide (env !! "NODE_ENV" = Some "development")
                              then Some (NewsRoute.String_of_error error) else None |}).

End Handler.

(** The handler as the module exports it: the switches are the constants of
    [mock-mode], computed from the environment of the process. *)
Definition handler_of_process (env : gmap string string) :=
  handler env (MockMode.MOCK_MODE env) (MockMode.DEBUG_MOCK env).

End CategoriesRoute.

Module NewsItemRoute.

(** [session.user], as the handler casts it to [SessionUser]; [role] may be
    missing. *)
Record User := {
  user_id : Z;
  role : option string
}.

Record Session := { user : option User }.

Record request := {
  method : string;
  query_id : option query_value;
  req_body : option NewsRoute.NewsBody
}.

Record envelope := {
  success : bool;
  data : option payload;
  message : option string;
  error : option string
}.

Record response := {
  status_code : Z;
  body : envelope
}.

Definition send (code : Z) (e : envelope) : M response :=
  ret {| status_code := code; body := e |}.

Definition is_digit (c : ascii) : bool :=
  let n := nat_of_ascii c in (Nat.leb 48 n && Nat.leb n 57)%bool.

Fixpoint all_digits (s : string) : bool :=
  match s with
  | EmptyString => true
  | String c s' => is_digit c && all_digits s'
  end.

(** [/^\d+$/.test(id)]. *)
Definition isNumeric (id : string) : bool :=
  match id with
  | EmptyString => false
  | _ => all_digits id
  end.

Fixpoint digits_value (acc : Z) (s : string) : Z :=
  match s with
  | EmptyString => acc
  | String c s' => digits_value (10 * acc + (Z.of_nat (nat_of_ascii c) - 48)) s'
  end.

(** [parseInt(id)] on a string of decimal digits: its value.  (JavaScript
    rounds a value of 2^53 or more to a double; the statements that depend
    on the value are made below that bound.) *)
Definition parseInt (id : string) : Z := digits_value 0 id.

(** [session.user.role !== 'admin']. *)
Definition not_admin (u : User) : bool :=
  match role u with
  | Some r => negb (String.eqb r "admin")
  | None => true
  end.

(** Whether the session carries a user, and whether that user is an
    administrator. *)
Definition has_user (session : option Session) : bool :=
  match session with
  | Some {| user := Some _ |} => true
  | _ => false
  end.

Definition is_admin (session : option Session) : bool :=
  match session with
  | Some {| user := Some u |} => negb (not_admin u)
  | _ => false
  end.

Section Handler.

Variable env : gmap string string.

(** [getSession({ req })], of the authentication library. *)
Variable getSession : request -> M (option Session).

Definition GET_case (id : string) : M response :=
  if isNumeric id then
    send 404 {| success := false; data := None;
                message := Some "Busca por ID numérico não implementada. Use o slug da notícia.";
                error := None |}
  else
    do news <- getNewsBySlug id;
    if is_null news then
      send 404 {| success := false; data := None;
                  message := Some "Notícia não encontrada"; error := None |}
    else
      send 200 {| success := true; data := Some news; message := None; error := None |}.

Definition PUT_case (req : request) (id : string) (session : option Session) : M response :=
  match session with
  | None | Some {| user := None |} =>
      send 401 {| success := false; data := None;
                  message := Some "Você precisa estar autenticado para atualizar uma notícia";
                  error := None |}
  | Some {| user := Some u |} =>
      if negb (isNumeric id) then
        send 400 {| success := false; data := None;
                    message := Some "ID inválido. É necessário fornecer um ID numérico para atualização.";
                    error := None |}
      else
        (* const { title, slug, ... } = req.body *)
        match req_body req with
        | None => throw (TypeError "Cannot destructure property 'title' of 'req.body' as it is undefined.")
        | Some b =>
            if negb (NewsRoute.truthy_string (NewsRoute.b_title b))
               || negb (NewsRoute.truthy_string (NewsRoute.b_slug b))
               || negb (NewsRoute.truthy_string (NewsRoute.b_content b))
               || negb (NewsRoute.truthy_number (NewsRoute.b_categoryId b))
            then
              send 400 {| success := false; data := None;
                          message := Some "Dados incompletos. Título, slug, conteúdo e categoria são obrigatórios";
                          error := None |}
            else
              do updated <- updateNews (parseInt id)
                {| title := default "" (NewsRoute.b_title b);
                   slug := default "" (NewsRoute.b_slug b);
                   content := default "" (NewsRoute.b_content b);
                   excerpt := NewsRoute.or_string (NewsRoute.b_excerpt b) "";
                   imageUrl := NewsRoute.or_string (NewsRoute.b_imageUrl b) "";
                   categoryId := default 0 (NewsRoute.b_categoryId b);
                   authorId := user_id u;
                   status := NewsRoute.or_string (NewsRoute.b_status b) "draft";
                   isFeatured := NewsRoute.or_boolean (NewsRoute.b_isFeatured b) false |};
              if negb updated then
                send 404 {| success := false; data := None;
                            message := Some "Notícia não encontrada ou não foi possível atualizá-la";
                            error := None |}
              else
                send 200 {| success := true; data := None;
                            message := Some "Notícia atualizada com sucesso";
                            error := None |}
        end
  end.

Definition DELETE_case (id : string) (session : option Session) : M response :=
  let unauthorized :=
    send 401 {| success := false; data := None;
                message := Some "Você precisa ser administrador para excluir uma notícia";
                error := None |} in
  match session with
  | None | Some {| user := None |} => unauthorized
  | Some {| user := Some u |} =>
      if not_admin u then unauthorized
      else if negb (isNumeric id) then
        send 400 {| success := false; data := None;
                    message := Some "ID inválido. É necessário fornecer um ID numérico para exclusão.";
                    error := None |}
      else
        do deleted <- deleteNews (parseInt id);
        if negb deleted then
          send 404 {| success := false; data := None;
                      message := Some "Notícia não encontrada ou não foi possível excluí-la";
                      error := None |}
        else
          send 200 {| success := true; data := None;
                      message := Some "Notícia excluída com sucesso";
                      error := None |}
  end.

(** [handler(req, res)] of [pages/api/news/[id].ts]. *)
Definition handler (req : request) : M response :=
  try_catch
    (match query_id req with
     | Some (QString (String _ _ as id)) =>
         do session <- getSession req;
         if String.eqb (method req) "GET" then GET_case id
         else if String.eqb (method req) "PUT" then PUT_case req id session
         else if String.eqb (method req) "DELETE" then DELETE_case id session
         else
           send 405 {| success := false; data := None;
                       message := Some "Método não permitido"; error := None |}
     | _ =>
         send 400 {| success := false; data := None;
                     message := Some "ID ou slug de notícia inválido";
                     error := None |}
     end)
    (fun error =>
       do _ <- console_error;
       send 500 {| success := false; data := None;
                   (* error.message || 'Erro interno do servidor' *)
                   message := Some (NewsRoute.or_string (Some (exn_message error))
                                      "Erro interno do servidor");
                   error := if bool_decide (env !! "NODE_ENV" = Some "development")
                            then Some (NewsRoute.String_of_error error) else None |}).

End Handler.

End NewsItemRoute.

(* ===================================================================== *)
(** * Notions used to state further properties *)
(* ===================================================================== *)

(** The foreign keys of [news] hold: the category and the author of every
    article are each the key of exactly one row. *)
Definition foreign_keys_hold (d : database) : bool :=
  forallb (fun n =>
    Nat.eqb (length (List.filter (fun c => Z.eqb (n_category_id n) (c_id c))
                       (categories d))) 1
    && Nat.eqb (length (List.filter (fun u => Z.eqb (n_author_id n) (u_id u))
                          (users d))) 1)
    (news d).

(** The rows the join gives for the article [n]. *)
Definition joined_with (d : database) (n : news_row) : list NewsArticle :=
  flat_map (fun c =>
    flat_map (fun u =>
      if Z.eqb (n_category_id n) (c_id c) && Z.eqb (n_author_id n) (u_id u)
      then [ {| row := n; category_name := c_name c; author_name := u_name u |} ]
      else [])
      (users d))
    (categories d).

(** The rows the left join gives for the category [c]. *)
Definition rows_of (d : database) (c : category_row) : list (category_row * option news_row) :=
  match List.filter (fun n => Z.eqb (c_id c) (n_category_id n)
                              && String.eqb (n_status n) "published") (news d) with
  | [] => [(c, None)]
  | ns => map (fun n => (c, Some n)) ns
  end.

(** The characters of a printed integer: digits and the minus sign. *)
Definition numeric_char (c : ascii) : bool :=
  let n := nat_of_ascii c in
  (Nat.eqb n 45 || (Nat.leb 48 n && Nat.leb n 57))%bool.

Fixpoint numeric (s : string) : bool :=
  match s with
  | EmptyString => true
  | String c s' => numeric_char c && numeric s'
  end.

Fixpoint no_underscore (s : string) : bool :=
  match s with
  | EmptyString => true
  | String c s' => negb (Ascii.eqb c "_") && no_underscore s'
  end.





(** The WHERE clause of the listing statement of a call. *)
Definition listed_where (options : ListOptions) : list condition :=
  fst (build_queries (opt_categoryId options)
         (default false (opt_featured options)) (opt_searchQuery options)).

(** Whether a payload shows the article [id]. *)
Definition shows (id : Z) (p : payload) : bool :=
  match p with
  | PNews (Some a) => Z.eqb (n_id (row a)) id
  | PNews None => false
  | PList items _ => existsb (fun a => Z.eqb (n_id (row a)) id) items
  | PCategories _ => false
  end.

(** An article without its view count. *)
Definition forget_views (n : news_row) : news_row :=
  {| n_id := n_id n; n_title := n_title n; n_slug := n_slug n;
     n_content := n_content n; n_excerpt := n_excerpt n;
     n_image_url := n_image_url n; n_category_id := n_category_id n;
     n_author_id := n_author_id n; n_status := n_status n;
     n_is_featured := n_is_featured n; n_view_count := 0;
     n_created_at := n_created_at n; n_updated_at := n_updated_at n |}.

(** The number of published articles of a category. *)
Definition published_in (c : category_row) (d : database) : Z :=
  Z.of_nat (length (List.filter
    (fun n => Z.eqb (c_id c) (n_category_id n)
              && String.eqb (n_status n) "published") (news d))).

(* ===================================================================== *)
(** * A sample store, for the examples *)
(* ===================================================================== *)

Module Sample.

Definition article (id : Z) (slug : string) (cat made : Z) (st : string) : news_row :=
  {| n_id := id; n_title := "Swell " +:+ slug; n_slug := slug;
     n_content := "Long period swell"; n_excerpt := "swell";
     n_image_url := "/img.png"; n_category_id := cat; n_author_id := 1;
     n_status := st; n_is_featured := 0; n_view_count := 5;
     n_created_at := made; n_updated_at := made |}.

Definition store : database :=
  {| news := [ article 1 "pipeline" 1 100 "published";
               article 2 "teahupoo" 2 200 "published";
               article 3 "notes" 1 300 "draft" ];
     categories := [ {| c_id := 1; c_name := "Surf"; c_slug := "surf"; c_description := None |};
                     {| c_id := 2; c_name := "Ocean"; c_slug := "ocean"; c_description := None |} ];
     users := [ {| u_id := 1; u_name := "Ana" |} ];
     auto_increment := 4 |}.

Definition data : NewsData :=
  {| title := "Nazare"; slug := "nazare"; content := "Big wave season";
     excerpt := ""; imageUrl := ""; categoryId := 1; authorId := 1;
     status := "draft"; isFeatured := false |}.

Definition body : NewsRoute.NewsBody :=
  {| NewsRoute.b_title := Some "Nazare";
     NewsRoute.b_slug := Some "nazare";
     NewsRoute.b_content := Some "Big wave season";
     NewsRoute.b_excerpt := None; NewsRoute.b_imageUrl := None;
     NewsRoute.b_categoryId := Some 1;
     NewsRoute.b_status := None;
     NewsRoute.b_isFeatured := None |}.

Definition post : NewsRoute.request :=
  {| NewsRoute.method := "POST"; NewsRoute.query := ∅;
     NewsRoute.req_body := Some body |}.

Definition session : NewsRoute.Session :=
  {| NewsRoute.user := Some {| NewsRoute.user_id := 1 |} |}.

(** A service that has just started, over a store that answers. *)
Definition healthy : world :=
  {| cache := ∅; db := store; clock := fun k => 1000 * Z.of_nat k; ticks := 0;
     faults := fun _ => None; queries := 0;
     random := fun _ => QArith_base.Qmake 1 2; draws := 0 |}.

(** The same, over a store that rejects every call. *)
Definition down : world :=
  {| cache := ∅; db := store; clock := fun k => 1000 * Z.of_nat k; ticks := 0;
     faults := fun _ => Some "ECONNREFUSED"; queries := 0;
     random := fun _ => QArith_base.Qmake 1 2; draws := 0 |}.

(** The store answers the first call and rejects the ones after it. *)
Definition flaky : world :=
  {| cache := ∅; db := store; clock := fun k => 1000 * Z.of_nat k; ticks := 0;
     faults := fun k => match k with O => None | _ => Some "ETIMEDOUT" end;
     queries := 0;
     random := fun _ => QArith_base.Qmake 1 2; draws := 0 |}.

End Sample.

(** Further data for the examples. *)
Module Examples.

Definition jaws : NewsData :=
  {| title := "Jaws"; slug := "jaws"; content := "Peahi is on";
     excerpt := "peahi"; imageUrl := "/jaws.png"; categoryId := 2;
     authorId := 1; status := "published"; isFeatured := true |}.

(** The store rejects the first call and answers the ones after it. *)
Definition recovering : world :=
  {| cache := ∅; db := Sample.store; clock := fun k => 1000 * Z.of_nat k;
     ticks := 0;
     faults := fun k => match k with O => Some "ECONNRESET" | _ => None end;
     queries := 0;
     random := fun _ => QArith_base.Qmake 1 2; draws := 0 |}.

Definition admin : option NewsItemRoute.Session :=
  Some {| NewsItemRoute.user :=
            Some {| NewsItemRoute.user_id := 1; NewsItemRoute.role := Some "admin" |} |}.

Definition editor : option NewsItemRoute.Session :=
  Some {| NewsItemRoute.user :=
            Some {| NewsItemRoute.user_id := 2; NewsItemRoute.role := Some "editor" |} |}.

Definition delete (id : string) : NewsItemRoute.request :=
  {| NewsItemRoute.method := "DELETE";
     NewsItemRoute.query_id := Some (QString id);
     NewsItemRoute.req_body := None |}.

Definition get (id : string) : NewsItemRoute.request :=
  {| NewsItemRoute.method := "GET";
     NewsItemRoute.query_id := Some (QString id);
     NewsItemRoute.req_body := None |}.

Definition put (id : string) (b : NewsRoute.NewsBody) : NewsItemRoute.request :=
  {| NewsItemRoute.method := "PUT";
     NewsItemRoute.query_id := Some (QString id);
     NewsItemRoute.req_body := Some b |}.

(** A listing with no filter and no search text, and the service once the
    store has answered it: its page and its total are in the cache. *)
Definition plain : ListOptions :=
  {| opt_limit := Some 10; opt_offset := None; opt_categoryId := None;
     opt_featured := None; opt_searchQuery := None |}.

Definition listed : world := snd (getNewsList plain Sample.healthy).


Definition mockCategories : list CategoriesRoute.MockCategory :=
  [ {| CategoriesRoute.mock_id := 1; CategoriesRoute.mock_name := "Surf";
       CategoriesRoute.mock_slug := "surf";
       CategoriesRoute.mock_description := None;
       CategoriesRoute.mock_count := Some 12 |} ].

(** A store with a published article whose slug is a year. *)
Definition numbered : world :=
  {| cache := ∅;
     db := {| news := [ Sample.article 1 "2024" 1 100 "published" ];
              categories := categories Sample.store;
              users := users Sample.store;
              auto_increment := 2 |};
     clock := fun k => 1000 * Z.of_nat k; ticks := 0;
     faults := fun _ => None; queries := 0;
     random := fun _ => QArith_base.Qmake 1 2; draws := 0 |}.

(** A store with five published articles in the category of "pipeline". *)
Definition crowded : world :=
  {| cache := ∅;
     db := {| news := [ Sample.article 1 "pipeline" 1 100 "published";
                        Sample.article 5 "sunset" 1 500 "published";
                        Sample.article 6 "waimea" 1 600 "published";
                        Sample.article 7 "haleiwa" 1 700 "published";
                        Sample.article 8 "makaha" 1 800 "published";
                        Sample.article 9 "teahupoo" 2 900 "published" ];
              categories := categories Sample.store;
              users := users Sample.store;
              auto_increment := 10 |};
     clock := fun k => 1000 * Z.of_nat k; ticks := 0;
     faults := fun _ => None; queries := 0;
     random := fun _ => QArith_base.Qmake 1 2; draws := 0 |}.

End Examples.

(* ===================================================================== *)
(** * Facts about the executor and the cache *)
(* ===================================================================== *)

Section Executor.

Context {A : Type} (stmt : Z -> database -> A * database).

Lemma executeQuery_answers (w : world) :
  faults w (queries w) = None ->
  executeQuery stmt w =
    (Returns (fst (stmt (clock w (ticks w)) (db w))),
     set_db (snd (stmt (clock w (ticks w)) (db w)))
       (set_ticks (S (ticks w)) (set_queries (S (queries w)) w))).
Proof.
  intros Hok. unfold executeQuery. rewrite Hok. simpl.
  destruct (stmt (clock w (ticks w)) (db w)); reflexivity.
Qed.

Lemma executeQuery_rejects (w : world) (m : string) :
  faults w (queries w) = Some m ->
  executeQuery stmt w = (Throws (StoreError m), set_queries (S (queries w)) w).
Proof. intros Hko. unfold executeQuery. rewrite Hko. reflexivity. Qed.

End Executor.

Lemma isCacheValid_within_ttl (key : string) (w : world) :
  fst (isCacheValid key w) = Returns (within_ttl key w).
Proof.
  unfold isCacheValid, within_ttl, bind, get_cache. simpl.
  destruct (cache w !! key); reflexivity.
Qed.

Lemma isCacheValid_miss (key : string) (w : world) :
  within_ttl key w = false ->
  exists w1, isCacheValid key w = (Returns false, w1)
    /\ cache w1 = cache w /\ db w1 = db w /\ faults w1 = faults w
    /\ queries w1 = queries w /\ clock w1 = clock w
    /\ (ticks w <= ticks w1)%nat.
Proof.
  unfold isCacheValid, within_ttl, bind, get_cache. simpl.
  destruct (cache w !! key) as [e|]; intros H.
  - eexists. unfold Date_now, ret; simpl. rewrite H.
    split; [reflexivity|]. simpl. repeat split; lia.
  - exists w. unfold ret. repeat split; lia.
Qed.

Lemma isCacheValid_hit (key : string) (w : world) :
  within_ttl key w = true ->
  exists e, cache w !! key = Some e
    /\ isCacheValid key w = (Returns true, set_ticks (S (ticks w)) w).
Proof.
  unfold isCacheValid, within_ttl, bind, get_cache. simpl.
  destruct (cache w !! key) as [e|]; intros H; [|discriminate].
  exists e. unfold Date_now, ret; simpl. rewrite H. auto.
Qed.

(* ===================================================================== *)
(** * Writes *)
(* ===================================================================== *)

(** A write sends exactly one statement; these two lemmas give its outcome
    when the executor answers and when it rejects the call. *)
Lemma perform_answered (op : write) (w : world) :
  faults w (queries w) = None ->
  exists v d,
    perform op w =
      (Returns v,
       set_cache ∅ (set_db d (set_ticks (S (ticks w)) (set_queries (S (queries w)) w)))).
Proof.
  intros Hok.
  destruct op; unfold perform, createNews, updateNews, deleteNews, bind, try_catch;
    rewrite executeQuery_answers by exact Hok; simpl; eauto.
Qed.

Lemma perform_rejected (op : write) (w : world) (m : string) :
  faults w (queries w) = Some m ->
  perform op w = (Throws (StoreError m), set_queries (S (queries w)) w).
Proof.
  intros Hko.
  destruct op; unfold perform, createNews, updateNews, deleteNews, bind, try_catch;
    rewrite (executeQuery_rejects _ _ m) by exact Hko; reflexivity.
Qed.

(** A write never looks at the cache: its statement and its result are the
    same whatever the cache holds. *)
Lemma perform_ignores_cache (op : write) (w w' : world) (v : written)
    (c0 : gmap string entry) :
  perform op w = (Returns v, w') ->
  perform op (set_cache c0 w) = (Returns v, w').
Proof.
  destruct (faults w (queries w)) as [m|] eqn:F.
  - rewrite (perform_rejected _ _ m F). discriminate.
  - destruct op; unfold perform, createNews, updateNews, deleteNews, bind, try_catch;
      rewrite !executeQuery_answers by exact F; simpl; intros H; exact H.
Qed.

(* ===================================================================== *)
(** * Reads that miss the cache *)
(* ===================================================================== *)

(** The statements that only select leave the tables as they are and do not
    depend on the reading of [NOW()]. *)
Lemma sql_select_news_pure conds now d :
  sql_select_news conds now d = (fst (sql_select_news conds 0 d), d).
Proof. reflexivity. Qed.

Lemma sql_count_news_pure conds now d :
  sql_count_news conds now d = (fst (sql_count_news conds 0 d), d).
Proof. reflexivity. Qed.

Lemma sql_select_news_page_pure conds l o now d :
  sql_select_news_page conds l o now d = (fst (sql_select_news_page conds l o 0 d), d).
Proof. reflexivity. Qed.

(** The increment adds one to the view count of the rows it matches and
    leaves every other count alone. *)
Lemma view_count_after_increment (id id' now : Z) (d : database) :
  view_count_of id' (snd (sql_increment_view_count id now d)) =
    if Z.eqb id' id && bool_decide (Exists (fun n => n_id n = id) (news d))
    then view_count_of id' d + 1
    else view_count_of id' d.
Proof.
  unfold view_count_of, sql_increment_view_count; simpl.
  induction (news d) as [|n l IH]; simpl.
  - rewrite andb_false_r. reflexivity.
  - destruct (Z.eqb_spec (n_id n) id) as [E|E]; simpl.
    + destruct (Z.eqb_spec (n_id n) id') as [E'|E'].
      * assert (id' = id) as -> by congruence.
        rewrite Z.eqb_refl. simpl.
        rewrite bool_decide_eq_true_2 by (constructor; exact E). reflexivity.
      * rewrite IH.
        destruct (Z.eqb_spec id' id) as [->|]; [congruence|]. reflexivity.
    + destruct (Z.eqb_spec (n_id n) id') as [E'|E'].
      * destruct (Z.eqb_spec id' id) as [->|]; [congruence|]. reflexivity.
      * rewrite IH. destruct (Z.eqb id' id); simpl; [|reflexivity].
        destruct (bool_decide (Exists (λ n0, n_id n0 = id) l)) eqn:B.
        -- apply bool_decide_eq_true in B.
           rewrite bool_decide_eq_true_2 by (apply Exists_cons_tl; exact B).
           reflexivity.
        -- apply bool_decide_eq_false in B.
           rewrite bool_decide_eq_false_2; [reflexivity|].
           intros X. inversion X; subst; [congruence|contradiction].
Qed.

Lemma view_count_increment_bounds (id id' now : Z) (d : database) :
  view_count_of id' d <= view_count_of id' (snd (sql_increment_view_count id now d))
    <= view_count_of id' d + 1.
Proof.
  rewrite view_count_after_increment.
  destruct (_ && _); lia.
Qed.

#[local] Arguments sql_increment_view_count : simpl never.
#[local] Arguments sql_select_news : simpl never.
#[local] Arguments sql_select_news_page : simpl never.
#[local] Arguments sql_count_news : simpl never.
#[local] Arguments sql_select_categories : simpl never.
#[local] Arguments view_count_of : simpl never.

(** [incrementViewCount] returns whatever the executor does; it raises the
    count of any article by one at most. *)
Lemma incrementViewCount_returns (newsId : Z) (w : world) :
  exists w',
    incrementViewCount newsId w = (Returns tt, w')
    /\ cache w' = cache w
    /\ faults w' = faults w
    /\ clock w' = clock w
    /\ queries w' = S (queries w)
    /\ (forall id, view_count_of id (db w) <= view_count_of id (db w')
                   <= view_count_of id (db w) + 1).
Proof.
  unfold incrementViewCount, try_catch, bind.
  destruct (faults w (queries w)) as [m|] eqn:F.
  - rewrite (executeQuery_rejects _ _ m F). unfold console_error, ret.
    eexists; split; [reflexivity|]. simpl. repeat split; lia.
  - rewrite (executeQuery_answers _ _ F). unfold ret.
    eexists; split; [reflexivity|]. simpl.
    do 4 (split; [reflexivity|]).
    intros id.
    exact (view_count_increment_bounds newsId id (clock w (ticks w)) (db w)).
Qed.

#[local] Arguments within_ttl : simpl never.
#[local] Arguments published_with_slug : simpl never.

Lemma sql_select_news_by_slug (slug : string) (now : Z) (d : database) :
  fst (sql_select_news [SlugIs slug; StatusPublished] now d) = published_with_slug slug d.
Proof. reflexivity. Qed.

(** [getNewsBySlug] when the cache does not serve the key and the executor
    rejects the SELECT. *)
Lemma getNewsBySlug_rejected (slug : string) (w : world) (m : string) :
  within_ttl ("news_" +:+ slug) w = false ->
  faults w (queries w) = Some m ->
  exists w',
    getNewsBySlug slug w = (Returns (PNews None), w')
    /\ cache w' = cache w /\ db w' = db w
    /\ (queries w < queries w')%nat.
Proof.
  intros Hmiss Hko.
  destruct (isCacheValid_miss _ _ Hmiss) as (w1 & Hv & Hc & Hd & Hf & Hq & _).
  unfold getNewsBySlug, bind. rewrite Hv.
  unfold try_catch, bind.
  rewrite (executeQuery_rejects _ w1 m) by (rewrite Hf, Hq; exact Hko).
  unfold console_error, ret. eexists; split; [reflexivity|]. simpl.
  rewrite Hq. auto with lia.
Qed.

(** [getNewsBySlug] when the cache does not serve the key and the executor
    answers the SELECT: the first selected row, or null, is stored under the
    key and returned, whatever happens to the increment. *)
Lemma getNewsBySlug_fetches (slug : string) (w : world) :
  within_ttl ("news_" +:+ slug) w = false ->
  faults w (queries w) = None ->
  exists w' ts,
    getNewsBySlug slug w = (Returns (PNews (head (published_with_slug slug (db w)))), w')
    /\ cache w' = <["news_" +:+ slug :=
                     {| data := PNews (head (published_with_slug slug (db w)));
                        timestamp := ts |}]> (cache w)
    /\ faults w' = faults w
    /\ clock w' = clock w
    /\ (queries w < queries w')%nat
    /\ (forall id, view_count_of id (db w) <= view_count_of id (db w')
                   <= view_count_of id (db w) + 1).
Proof.
  intros Hmiss Hok.
  destruct (isCacheValid_miss _ _ Hmiss) as (w1 & Hv & Hc & Hd & Hf & Hq & Hk & _).
  unfold getNewsBySlug, bind. rewrite Hv.
  unfold try_catch, bind.
  rewrite (executeQuery_answers _ w1) by (rewrite Hf, Hq; exact Hok).
  rewrite sql_select_news_pure, sql_select_news_by_slug. cbn [fst snd].
  rewrite Hd.
  unfold store_in_cache, bind, Date_now, get_cache, put_cache.
  cbn [fst snd].
  set (w2 := set_cache _ _).
  destruct (head (published_with_slug slug (db w))) as [a|] eqn:Hhead.
  - destruct (incrementViewCount_returns (n_id (row a)) w2)
      as (w3 & Hinc & Hc3 & Hf3 & Hk3 & Hq3 & Hvc).
    rewrite Hinc. unfold ret.
    eexists w3, _. split; [reflexivity|].
    rewrite Hc3, Hf3, Hk3, Hq3. subst w2. simpl.
    rewrite Hc, Hf, Hk, Hq.
    do 3 (split; [reflexivity|]). split; [lia|].
    intros id. specialize (Hvc id). simpl in Hvc. exact Hvc.
  - unfold ret. eexists w2, _. split; [reflexivity|].
    subst w2. simpl. rewrite Hc, Hf, Hk, Hq.
    do 3 (split; [reflexivity|]). split; [lia|].
    intros id. lia.
Qed.

(** Every read begins the same way: a key within its time to live is served
    from the cache, and nothing but the clock is touched. *)
Lemma served_from_cache (key : string) (fetch : M payload) (w : world) :
  within_ttl key w = true ->
  exists e,
    cache w !! key = Some e
    /\ (do valid <- isCacheValid key; if valid then cached_data key else fetch) w
       = (Returns (data e), set_ticks (S (ticks w)) w).
Proof.
  intros Hhit. destruct (isCacheValid_hit _ _ Hhit) as (e & He & Hv).
  exists e. split; [exact He|].
  unfold bind at 1. rewrite Hv.
  unfold cached_data, bind, get_cache. cbn [cache set_ticks]. rewrite He.
  reflexivity.
Qed.

Lemma served_from_store (key : string) (fetch : M payload) (w : world) :
  within_ttl key w = false ->
  exists w1,
    (do valid <- isCacheValid key; if valid then cached_data key else fetch) w
      = fetch w1
    /\ cache w1 = cache w /\ db w1 = db w /\ faults w1 = faults w
    /\ queries w1 = queries w /\ clock w1 = clock w.
Proof.
  intros Hmiss.
  destruct (isCacheValid_miss _ _ Hmiss) as (w1 & Hv & Hc & Hd & Hf & Hq & Hk & _).
  exists w1. unfold bind at 1. rewrite Hv.
  split; [reflexivity|]. auto 6.
Qed.

(** In a goal about a read, take the branch of the miss [Hmiss]; [w1] names
    the world in which the fetch starts. *)
Ltac miss_the_cache Hmiss w1 :=
  match goal with
  | |- context [bind (isCacheValid ?k) ?body ?w] =>
      let Hc := fresh "Hc" in
      let Hd := fresh "Hd" in
      let Hf := fresh "Hf" in
      let Hq := fresh "Hq" in
      let Hk := fresh "Hk" in
      let Hrun := fresh "Hrun" in
      destruct (served_from_store k (body false) w Hmiss)
        as (w1 & Hrun & Hc & Hd & Hf & Hq & Hk);
      cbv beta iota in Hrun; rewrite Hrun; clear Hrun
  end.

#[local] Arguments counted : simpl never.
#[local] Arguments list_key : simpl never.
#[local] Arguments build_queries : simpl never.

Lemma getNewsList_fetches (options : ListOptions) (w : world) :
  within_ttl (list_key options) w = false ->
  faults w (queries w) = None ->
  faults w (S (queries w)) = None ->
  exists w' items ts,
    getNewsList options w = (Returns (PList items (counted options (db w))), w')
    /\ cache w' = <[list_key options :=
                     {| data := PList items (counted options (db w));
                        timestamp := ts |}]> (cache w)
    /\ db w' = db w
    /\ queries w' = S (S (queries w)).
Proof.
  intros Hmiss Hok1 Hok2.
  unfold getNewsList, list_key in *; cbv zeta.
  miss_the_cache Hmiss w1.
  unfold counted.
  destruct (build_queries _ _ _) as [query countQuery]. cbn [snd].
  unfold try_catch, bind.
  rewrite (executeQuery_answers _ w1) by (rewrite Hf, Hq; exact Hok1).
  rewrite sql_select_news_page_pure. cbn [fst snd].
  rewrite executeQuery_answers by (simpl; rewrite Hf, Hq; exact Hok2).
  rewrite sql_count_news_pure. cbn [fst snd].
  unfold store_in_cache, bind, Date_now, get_cache, put_cache, ret.
  unfold sql_count_news. simpl. rewrite Hc, Hd, Hq.
  eexists _, _, _. split; [reflexivity|]. simpl. auto.
Qed.

Lemma getNewsList_rejected (options : ListOptions) (w : world) :
  within_ttl (list_key options) w = false ->
  is_Some (faults w (queries w)) \/ is_Some (faults w (S (queries w))) ->
  exists w',
    getNewsList options w = (Returns (PList [] 0), w')
    /\ cache w' = cache w /\ db w' = db w
    /\ (queries w < queries w')%nat.
Proof.
  intros Hmiss Hko.
  unfold getNewsList, list_key in *; cbv zeta.
  miss_the_cache Hmiss w1.
  destruct (build_queries _ _ _) as [query countQuery].
  unfold try_catch, bind.
  destruct (faults w (queries w)) as [m|] eqn:F1.
  - rewrite (executeQuery_rejects _ w1 m) by (rewrite Hf, Hq; exact F1).
    unfold console_error, ret. eexists; split; [reflexivity|]. simpl.
    rewrite Hq. auto with lia.
  - destruct Hko as [[m Hm]|[m Hm]]; [discriminate|].
    rewrite (executeQuery_answers _ w1) by (rewrite Hf, Hq; exact F1).
    rewrite sql_select_news_page_pure. cbn [fst snd].
    rewrite (executeQuery_rejects _ _ m) by (simpl; rewrite Hf, Hq; exact Hm).
    unfold console_error, ret. eexists; split; [reflexivity|]. simpl.
    rewrite Hq. auto with lia.
Qed.

Lemma getCategories_rejected (w : world) (m : string) :
  within_ttl "categories" w = false ->
  faults w (queries w) = Some m ->
  exists w',
    getCategories w = (Returns (PCategories []), w')
    /\ cache w' = cache w /\ db w' = db w
    /\ (queries w < queries w')%nat.
Proof.
  intros Hmiss Hko.
  unfold getCategories; cbv zeta.
  miss_the_cache Hmiss w1.
  unfold try_catch, bind.
  rewrite (executeQuery_rejects _ w1 m) by (rewrite Hf, Hq; exact Hko).
  unfold console_error, ret. eexists; split; [reflexivity|]. simpl.
  rewrite Hq. auto with lia.
Qed.

Lemma getCategories_fetches (w : world) :
  within_ttl "categories" w = false ->
  faults w (queries w) = None ->
  exists w' ts,
    getCategories w = (Returns (PCategories (fst (sql_select_categories 0 (db w)))), w')
    /\ cache w' = <["categories" :=
                     {| data := PCategories (fst (sql_select_categories 0 (db w)));
                        timestamp := ts |}]> (cache w)
    /\ db w' = db w
    /\ (queries w < queries w')%nat.
Proof.
  intros Hmiss Hok.
  unfold getCategories; cbv zeta.
  miss_the_cache Hmiss w1.
  unfold try_catch, bind.
  rewrite (executeQuery_answers _ w1) by (rewrite Hf, Hq; exact Hok).
  unfold store_in_cache, bind, Date_now, get_cache, put_cache, ret.
  unfold sql_select_categories. simpl. rewrite Hc, Hd, Hq.
  eexists _, _. split; [reflexivity|]. simpl. auto with lia.
Qed.

(** A read that the cache does not serve sends a statement to the store. *)
Lemma miss_reaches_store (r : read) (w : world) :
  within_ttl (key_of r) w = false ->
  (queries w < queries (snd (answer r w)))%nat.
Proof.
  intros Hmiss. destruct r as [slug|options|]; simpl in *.
  - destruct (faults w (queries w)) as [m|] eqn:F.
    + destruct (getNewsBySlug_rejected slug w m Hmiss F) as (w' & -> & _ & _ & Hq).
      exact Hq.
    + destruct (getNewsBySlug_fetches slug w Hmiss F) as (w' & ts & -> & _ & _ & _ & Hq & _).
      exact Hq.
  - destruct (faults w (queries w)) as [m|] eqn:F1.
    + destruct (getNewsList_rejected options w Hmiss) as (w' & -> & _ & _ & Hq);
        [left; rewrite F1; eauto | exact Hq].
    + destruct (faults w (S (queries w))) as [m|] eqn:F2.
      * destruct (getNewsList_rejected options w Hmiss) as (w' & -> & _ & _ & Hq);
          [right; rewrite F2; eauto | exact Hq].
      * destruct (getNewsList_fetches options w Hmiss F1 F2)
          as (w' & items & ts & -> & _ & _ & Hq).
        simpl. lia.
  - destruct (faults w (queries w)) as [m|] eqn:F.
    + destruct (getCategories_rejected w m Hmiss F) as (w' & -> & _ & _ & Hq).
      exact Hq.
    + destruct (getCategories_fetches w Hmiss F) as (w' & ts & -> & _ & _ & Hq).
      exact Hq.
Qed.

Lemma empty_cache_misses (key : string) (w : world) :
  cache w = ∅ -> within_ttl key w = false.
Proof. intros E. unfold within_ttl. rewrite E, lookup_empty. reflexivity. Qed.

(** An identifier that no row has is matched by no row. *)
Lemma no_row_matched (id : Z) (rows : list news_row) :
  Forall (fun n => n_id n <> id) rows ->
  List.filter (fun n => Z.eqb (n_id n) id) rows = [].
Proof.
  induction 1 as [|n rows Hn _ IH]; simpl; [reflexivity|].
  destruct (Z.eqb_spec (n_id n) id); [contradiction|exact IH].
Qed.

(** The reads never throw, whatever the cache holds and whatever the store
    does. *)
Lemma reads_never_throw (r : read) (w : world) :
  exists p, fst (answer r w) = Returns p.
Proof.
  destruct (within_ttl (key_of r) w) eqn:Hv.
  - destruct r as [slug|options|]; simpl in *;
      [unfold getNewsBySlug|unfold getNewsList, list_key in *|unfold getCategories];
      cbv zeta;
      match goal with
      | |- context [bind (isCacheValid ?k) ?body ?w] =>
          destruct (served_from_cache k (body false) w Hv) as (e & _ & Hrun);
          cbv beta iota in Hrun; rewrite Hrun
      end; eauto.
  - destruct r as [slug|options|]; simpl in *.
    + destruct (faults w (queries w)) as [m|] eqn:F.
      * destruct (getNewsBySlug_rejected slug w m Hv F) as (w' & -> & _). eauto.
      * destruct (getNewsBySlug_fetches slug w Hv F) as (w' & ts & -> & _). eauto.
    + destruct (faults w (queries w)) as [m|] eqn:F1.
      * destruct (getNewsList_rejected options w Hv) as (w' & -> & _);
          [left; rewrite F1|]; eauto.
      * destruct (faults w (S (queries w))) as [m|] eqn:F2.
        -- destruct (getNewsList_rejected options w Hv) as (w' & -> & _);
             [right; rewrite F2|]; eauto.
        -- destruct (getNewsList_fetches options w Hv F1 F2)
             as (w' & items & ts & -> & _). eauto.
    + destruct (faults w (queries w)) as [m|] eqn:F.
      * destruct (getCategories_rejected w m Hv F) as (w' & -> & _). eauto.
      * destruct (getCategories_fetches w Hv F) as (w' & ts & -> & _). eauto.
Qed.

(** The WHERE clause of the count statement: published, and each filter
    that is given. *)
Lemma count_clause (categoryId : option Z) (featured : bool)
    (searchQuery : option string) (n : news_row) :
  where_ (snd (build_queries categoryId featured searchQuery)) n =
    String.eqb (n_status n) "published"
    && match categoryId with Some c => Z.eqb (n_category_id n) c | None => true end
    && (if featured then Z.eqb (n_is_featured n) 1 else true)
    && match searchQuery with
       | Some (String _ _ as s) =>
           like ("%" +:+ s +:+ "%") (n_title n)
           || like ("%" +:+ s +:+ "%") (n_content n)
           || like ("%" +:+ s +:+ "%") (n_excerpt n)
       | _ => true
       end.
Proof.
  unfold build_queries, where_.
  destruct categoryId as [c|], featured, searchQuery as [[|ch s]|];
    cbn [snd app forallb holds]; rewrite ?andb_true_r, ?andb_assoc; reflexivity.
Qed.

(** [getNewsBySlug] when the cache serves the key: the payload of the entry
    is returned; nothing is asked of the store and nothing changes but the
    clock. *)
Lemma getNewsBySlug_hit (slug : string) (w : world) :
  within_ttl ("news_" +:+ slug) w = true ->
  exists e,
    cache w !! ("news_" +:+ slug) = Some e
    /\ getNewsBySlug slug w = (Returns (data e), set_ticks (S (ticks w)) w).
Proof.
  intros Hhit. unfold getNewsBySlug; cbv zeta.
  match goal with
  | |- context [bind (isCacheValid ?k) ?body ?w] =>
      destruct (served_from_cache k (body false) w Hhit) as (e & He & Hrun);
      cbv beta iota in Hrun; rewrite Hrun
  end.
  exists e. auto.
Qed.

(** The rows [published_with_slug] keeps: joined rows with that slug whose
    status is ['published']. *)
Lemma published_with_slug_spec (slug : string) (d : database) (a : NewsArticle) :
  In a (published_with_slug slug d)
  <-> In a (news_join d) /\ n_slug (row a) = slug /\ n_status (row a) = "published".
Proof.
  unfold published_with_slug. rewrite filter_In. unfold where_. simpl.
  rewrite andb_true_r, andb_true_iff, !String.eqb_eq. tauto.
Qed.


(** ** Rounding to a double *)

Module NumberFacts.

Import QArith_base Qround Qpower Qfield Lqa.
Local Open Scope Q_scope.

Lemma nearest_even_le (x : Q) : inject_Z (Number.nearest_even x) <= x + (1#2).
Proof.
  unfold Number.nearest_even.
  pose proof (Qfloor_le x) as Hf.
  destruct (Qcompare_spec (x - inject_Z (Qfloor x)) (1#2)) as [E|E|E].
  - destruct (Z.even (Qfloor x)); [lra|].
    rewrite inject_Z_plus. change (inject_Z 1) with 1. lra.
  - lra.
  - rewrite inject_Z_plus. change (inject_Z 1) with 1. lra.
Qed.

Lemma nearest_even_nonneg (x : Q) : 0 <= x -> (0 <= Number.nearest_even x)%Z.
Proof.
  intros Hx. unfold Number.nearest_even.
  assert (0 <= Qfloor x)%Z as Hf.
  { change 0%Z with (Qfloor (inject_Z 0)). apply Qfloor_resp_le. exact Hx. }
  destruct (Qcompare _ _); [destruct (Z.even _)| |]; lia.
Qed.

Lemma exponent_below (q : Q) (k : Z) :
  (0 <= k)%Z -> 0 < q -> q < inject_Z (2 ^ k) -> (Number.exponent q < k)%Z.
Proof.
  intros Hk Hpos Hlt. unfold Number.exponent.
  destruct q as [n d]. cbn [Qnum Qden].
  unfold Qlt in Hpos, Hlt. cbn in Hpos, Hlt.
  assert (Z.log2 n <= k + Z.log2 (Z.pos d))%Z as Hlog.
  { rewrite <- Z.log2_mul_pow2 by lia. apply Z.log2_le_mono. lia. }
  set (e := (Z.log2 n - Z.log2 (Z.pos d))%Z) in *.
  destruct (Qle_bool (inject_Z 2 ^ e) (n # d)) eqn:B; [|lia].
  assert (e <> k) as Hne; [|lia].
  intros ->. apply Qle_bool_iff in B.
  rewrite <- Zpower_Qpower in B by exact Hk.
  unfold Qle in B. cbn in B. lia.
Qed.

Lemma ulp_positive (q : Q) : 0 < Number.ulp q.
Proof. apply Qpower_0_lt. reflexivity. Qed.

Lemma ulp_below (q : Q) (k : Z) :
  (0 <= k)%Z -> 0 < q -> q < inject_Z (2 ^ k) -> (-1074 <= k - 53)%Z ->
  Number.ulp q <= inject_Z 2 ^ (k - 53).
Proof.
  intros Hk Hpos Hlt Hsub. unfold Number.ulp.
  apply Qpower_le_compat_l; [|discriminate].
  pose proof (exponent_below q k Hk Hpos Hlt). lia.
Qed.

Lemma round_nonneg (q : Q) : 0 <= q -> 0 <= Number.round q.
Proof.
  intros Hq. unfold Number.round.
  destruct (Qcompare_spec q (inject_Z 0)) as [E|E|E].
  - apply Qle_refl.
  - exfalso. change (inject_Z 0) with 0 in E. lra.
  - apply Qmult_le_0_compat; [|apply Qlt_le_weak, ulp_positive].
    change 0 with (inject_Z 0). rewrite <- Zle_Qle.
    apply nearest_even_nonneg. apply Qle_shift_div_l; [apply ulp_positive|].
    change (inject_Z 0) with 0 in E. lra.
Qed.

Lemma round_above (q : Q) : 0 < q -> Number.round q <= q + Number.ulp q * (1#2).
Proof.
  intros Hq. unfold Number.round.
  destruct (Qcompare_spec q (inject_Z 0)) as [E|E|E];
    change (inject_Z 0) with 0 in E; [lra..|].
  pose proof (ulp_positive q) as Hu.
  pose proof (nearest_even_le (q / Number.ulp q)) as Hn.
  apply (Qmult_le_compat_r _ _ (Number.ulp q)) in Hn; [|lra].
  eapply Qle_trans; [exact Hn|].
  apply Qle_lteq. right. field. lra.
Qed.

(** The product of a draw and 1000 stays below 1000: the largest double
    below 1 is 1 - 2^-53, and the rounding of its product does not reach
    1000. *)
Lemma scaled_draw_range (r : Q) :
  0 <= r -> r <= 9007199254740991 # 9007199254740992 ->
  (0 <= Qfloor (Number.mult r (inject_Z 1000)) < 1000)%Z.
Proof.
  intros Hlo Hhi. unfold Number.mult.
  set (q := r * inject_Z 1000).
  assert (0 <= q) as Hq0 by (apply Qmult_le_0_compat; [exact Hlo|discriminate]).
  assert (q <= 1000 - (1000 # 9007199254740992)) as Hq1.
  { unfold q. change (inject_Z 1000) with 1000. lra. }
  split.
  - change 0%Z with (Qfloor (inject_Z 0)). apply Qfloor_resp_le, round_nonneg, Hq0.
  - rewrite Zlt_Qlt. eapply Qle_lt_trans; [apply Qfloor_le|].
    destruct (Qlt_le_dec 0 q) as [Hpos|Hzero].
    + pose proof (round_above q Hpos) as Hr.
      assert (q < inject_Z (2 ^ 10)) as H10.
      { change (inject_Z (2 ^ 10)) with 1024. lra. }
      pose proof (ulp_below q 10 ltac:(lia) Hpos H10 ltac:(lia)) as Hu.
      change (inject_Z 2 ^ (10 - 53)) with (1 # 8796093022208) in Hu.
      change (inject_Z 1000) with 1000. lra.
    + assert (q == 0) as E by lra.
      unfold Number.round. rewrite E. change (inject_Z 1000) with 1000.
      reflexivity.
Qed.

End NumberFacts.

(** A draw is a double in [[0, 1)], at most 1 - 2^-53: it gives an
    identifier from 100 to 1099. *)
Lemma next_identifier_range (w : world) :
  QArith_base.Qle (QArith_base.inject_Z 0) (random w (draws w)) ->
  QArith_base.Qle (random w (draws w))
    (QArith_base.Qmake 9007199254740991 9007199254740992) ->
  100 <= NewsRoute.next_identifier w <= 1099.
Proof.
  intros Hlo Hhi. unfold NewsRoute.next_identifier.
  pose proof (NumberFacts.scaled_draw_range _ Hlo Hhi). lia.
Qed.

(** The product is rounded before the floor is taken: a draw whose exact
    product with 1000 is a little below 119 gives 119, and the identifier
    219. *)
Lemma rounded_product_reaches_next_integer (w : world) :
  random w (draws w) = QArith_base.Qmake 535928355657089 4503599627370496 ->
  Qround.Qfloor (QArith_base.Qmult (random w (draws w)) (QArith_base.inject_Z 1000)) = 118
  /\ NewsRoute.next_identifier w = 219.
Proof.
  intros E. unfold NewsRoute.next_identifier. rewrite E.
  split; vm_compute; reflexivity.
Qed.

(* ===================================================================== *)
(** * The claims of the specification *)
(* ===================================================================== *)

(** C1.  A write that completes clears the whole cache: afterwards the cache
    is empty, every read -- whichever of the three, with whatever parameters,
    at whatever time -- sends its statement to the store, and what it answers
    does not depend on anything the cache held before the write. *)
Theorem write_clears_cache (op : write) (w w' : world) (v : written) :
  perform op w = (Returns v, w') ->
  cache w' = ∅
  /\ (forall r : read,
        within_ttl (key_of r) w' = false
        /\ (queries w' < queries (snd (answer r w')))%nat)
  /\ (forall (held : gmap string entry) (r : read),
        answer r (snd (perform op (set_cache held w))) = answer r w').
Proof.
  intros Hperf.
  assert (cache w' = ∅) as Hempty.
  { destruct (faults w (queries w)) as [m|] eqn:F.
    - rewrite (perform_rejected _ _ m F) in Hperf. discriminate.
    - destruct (perform_answered op w F) as (v0 & d & E).
      rewrite E in Hperf. inversion Hperf; subst. reflexivity. }
  split; [exact Hempty|]. split.
  - intros r. pose proof (empty_cache_misses (key_of r) w' Hempty) as Hmiss.
    split; [exact Hmiss|]. apply miss_reaches_store, Hmiss.
  - intros held r. rewrite (perform_ignores_cache op w w' v held Hperf).
    reflexivity.
Qed.

Lemma write_clears_cache_witness :
  exists v w',
    perform (UpdateNews 2 Sample.data) Sample.healthy = (Returns v, w')
    /\ cache w' = ∅
    /\ (queries w' < queries (snd (answer (NewsBySlug "teahupoo") w')))%nat.
Proof.
  eexists _, _. split; [reflexivity|].
  destruct (write_clears_cache (UpdateNews 2 Sample.data) Sample.healthy _ _ eq_refl)
    as (Hc & Hr & _).
  split; [exact Hc|]. exact (proj2 (Hr (NewsBySlug "teahupoo"))).
Defined.



(** C3.  A read that has to ask the store (its key is not served by the
    cache) and whose statement the store rejects returns "no data" and does
    not throw: [getNewsBySlug] returns null, [getNewsList] an empty list with
    total 0 -- whether the rejected statement is the SELECT or the COUNT --
    and [getCategories] an empty list.  No read throws, in any world. *)
Theorem rejected_read_returns_no_data (w : world) (slug : string) (options : ListOptions) :
  (within_ttl ("news_" +:+ slug) w = false ->
   is_Some (faults w (queries w)) ->
   fst (getNewsBySlug slug w) = Returns (PNews None))
  /\ (within_ttl (list_key options) w = false ->
      is_Some (faults w (queries w)) \/ is_Some (faults w (S (queries w))) ->
      fst (getNewsList options w) = Returns (PList [] 0))
  /\ (within_ttl "categories" w = false ->
      is_Some (faults w (queries w)) ->
      fst (getCategories w) = Returns (PCategories []))
  /\ (forall r : read, exists p, fst (answer r w) = Returns p).
Proof.
  split; [|split; [|split]]; [| | |intros r; apply reads_never_throw].
  - intros Hmiss [m Hm].
    destruct (getNewsBySlug_rejected slug w m Hmiss Hm) as (w' & -> & _).
    reflexivity.
  - intros Hmiss Hko.
    destruct (getNewsList_rejected options w Hmiss Hko) as (w' & -> & _).
    reflexivity.
  - intros Hmiss [m Hm].
    destruct (getCategories_rejected w m Hmiss Hm) as (w' & -> & _).
    reflexivity.
Qed.

Lemma rejected_read_returns_no_data_witness :
  fst (getNewsBySlug "pipeline" Sample.down) = Returns (PNews None)
  /\ fst (getNewsList {| opt_limit := Some 5; opt_offset := None;
                         opt_categoryId := None; opt_featured := None;
                         opt_searchQuery := None |} Sample.flaky)
     = Returns (PList [] 0)
  /\ fst (getCategories Sample.down) = Returns (PCategories []).
Proof.
  split; [|split].
  - apply (proj1 (rejected_read_returns_no_data Sample.down "pipeline"
             {| opt_limit := None; opt_offset := None; opt_categoryId := None;
                opt_featured := None; opt_searchQuery := None |})).
    + reflexivity.
    + simpl. eauto.
  - apply (proj1 (proj2 (rejected_read_returns_no_data Sample.flaky "pipeline"
             {| opt_limit := Some 5; opt_offset := None; opt_categoryId := None;
                opt_featured := None; opt_searchQuery := None |}))).
    + reflexivity.
    + right. simpl. eauto.
  - apply (proj1 (proj2 (proj2 (rejected_read_returns_no_data Sample.down "pipeline"
             {| opt_limit := None; opt_offset := None; opt_categoryId := None;
                opt_featured := None; opt_searchQuery := None |})))).
    + reflexivity.
    + simpl. eauto.
Defined.

(** C4.  When no row of [news] has the identifier and the store answers the
    statement, [updateNews] and [deleteNews] return [false]: they do not
    throw.  (They throw only when the store rejects the statement.) *)
Theorem absent_id_returns_false (id : Z) (newsData : NewsData) (w : world) :
  Forall (fun n => n_id n <> id) (news (db w)) ->
  faults w (queries w) = None ->
  fst (updateNews id newsData w) = Returns false
  /\ fst (deleteNews id w) = Returns false.
Proof.
  intros Habsent Hok.
  unfold updateNews, deleteNews, try_catch, bind.
  rewrite !executeQuery_answers by exact Hok.
  unfold sql_update_news, sql_delete_news. simpl.
  rewrite (no_row_matched id _ Habsent). split; reflexivity.
Qed.

Lemma absent_id_returns_false_witness :
  fst (updateNews 99 Sample.data Sample.healthy) = Returns false
  /\ fst (deleteNews 99 Sample.healthy) = Returns false.
Proof.
  apply (absent_id_returns_false 99 Sample.data Sample.healthy).
  - simpl. repeat constructor; discriminate.
  - reflexivity.
Defined.




(** C6.  The debug switch follows its environment variable, and mock mode is
    enabled when nothing is set; but [MOCK_MODE] is [... || true], which is
    true for every environment: with [NEXT_PUBLIC_MOCK_MODE] set to
    ['false'] mock mode is still enabled, and no setting disables it. *)
Theorem mock_mode_cannot_be_disabled :
  MockMode.MOCK_MODE {[ "NEXT_PUBLIC_MOCK_MODE" := "false" ]} = true
  /\ (forall env, MockMode.MOCK_MODE env = true)
  /\ (forall env, MockMode.DEBUG_MOCK env = true
                  <-> env !! "NEXT_PUBLIC_DEBUG_MOCK" = Some "true").
Proof.
  split; [reflexivity|]. split.
  - intros env. unfold MockMode.MOCK_MODE. apply orb_true_r.
  - intros env. unfold MockMode.DEBUG_MOCK. rewrite orb_false_r.
    apply bool_decide_eq_true.
Qed.

Section Route.

Import NewsRoute.

Variable env : gmap string string.
Variable getSession : request -> M (option Session).
Variable GET_case : request -> option Session -> M response.
Variable GET_contingency : M response.

(** C7.  A POST that carries a session with a user and a body with a title,
    a slug, a content and a category, made while the store rejects the
    insert, is answered with status 201 and [success: true], with the
    identifier synthesized from the next draw of [Math.random()] in [data].
    With mock mode off the insert has been sent -- one statement more has
    reached the store -- and its failure is not reported: the message says
    the article was created (fallback mode), while the tables and the cache
    are as they were.  In mock mode the insert is not sent at all. *)
Theorem failed_insert_is_answered_created
    (MOCK_MODE DEBUG_MOCK : bool)
    (req : request) (b : NewsBody) (s : Session) (u : User)
    (w w1 : world) (m : string) :
  method req = "POST" ->
  getSession req w = (Returns (Some s), w1) ->
  user s = Some u ->
  req_body req = Some b ->
  truthy_string (b_title b) = true ->
  truthy_string (b_slug b) = true ->
  truthy_string (b_content b) = true ->
  truthy_number (b_categoryId b) = true ->
  faults w1 (queries w1) = Some m ->
  exists w',
    handler env MOCK_MODE DEBUG_MOCK getSession GET_case GET_contingency req w =
      (Returns {| status_code := 201;
                  body := {| success := true;
                             data := Some (id_object (next_identifier w1));
                             message :=
                               Some (if MOCK_MODE
                                     then "Notícia criada com sucesso (modo mockado)"
                                     else "Notícia criada com sucesso (modo fallback)");
                             meta := None; error := None |} |},
       w')
    /\ queries w' = (if MOCK_MODE then queries w1 else S (queries w1))
    /\ draws w' = S (draws w1)
    /\ db w' = db w1
    /\ cache w' = cache w1.
Proof.
  intros Hmethod Hsession Huser Hbody Ht Hs Hc Hcat Hko.
  unfold handler, try_catch, bind at 1. rewrite Hsession, Hmethod. simpl.
  unfold POST_case. rewrite Hbody. destruct s as [su]. simpl in Huser. subst su.
  rewrite Ht, Hs, Hc, Hcat. simpl.
  destruct MOCK_MODE.
  - unfold bind, mock_identifier, bind, Math_random, send, ret, next_identifier.
    destruct DEBUG_MOCK; simpl; eexists; (split; [reflexivity|]); auto.
  - unfold try_catch, bind at 1. unfold createNews, try_catch, bind.
    rewrite (executeQuery_rejects _ w1 m Hko).
    unfold console_error, throw, mock_identifier, bind, Math_random, send, ret,
      next_identifier.
    simpl. eexists. split; [reflexivity|]. auto.
Qed.

End Route.

Lemma failed_insert_is_answered_created_witness :
  exists w',
    NewsRoute.handler ∅ false false
      (fun _ => ret (Some Sample.session))
      (fun _ _ => throw (TypeError "not a GET"))
      (throw (TypeError "not a GET"))
      Sample.post Sample.down
    = (Returns {| NewsRoute.status_code := 201;
                  NewsRoute.body :=
                    {| NewsRoute.success := true;
                       NewsRoute.data := Some (NewsRoute.id_object 600);
                       NewsRoute.message := Some "Notícia criada com sucesso (modo fallback)";
                       NewsRoute.meta := None; NewsRoute.error := None |} |},
       w')
    /\ queries w' = 1%nat
    /\ db w' = Sample.store.
Proof.
  destruct (failed_insert_is_answered_created ∅
              (fun _ => ret (Some Sample.session))
              (fun _ _ => throw (TypeError "not a GET"))
              (throw (TypeError "not a GET"))
              false false
              Sample.post Sample.body Sample.session {| NewsRoute.user_id := 1 |}
              Sample.down Sample.down "ECONNREFUSED")
    as (w' & Hrun & Hq & _ & Hd & _); try reflexivity.
  exists w'. split; [exact Hrun|]. split; [exact Hq|exact Hd].
Defined.



(** C9.  When the SELECT of [getNewsBySlug] finds the article and the store
    then rejects the UPDATE of the view count, [getNewsBySlug] returns the
    article all the same, and the count stays as it was.  No call of
    [incrementViewCount] throws. *)
Theorem increment_failure_is_swallowed (slug : string) (a : NewsArticle)
    (w : world) (m : string) :
  within_ttl ("news_" +:+ slug) w = false ->
  faults w (queries w) = None ->
  head (published_with_slug slug (db w)) = Some a ->
  faults w (S (queries w)) = Some m ->
  (exists w',
     getNewsBySlug slug w = (Returns (PNews (Some a)), w')
     /\ db w' = db w)
  /\ (forall newsId w0, fst (incrementViewCount newsId w0) = Returns tt).
Proof.
  intros Hmiss Hok Hhead Hko. split.
  - destruct (isCacheValid_miss _ _ Hmiss) as (w0 & Hv & Hc & Hd & Hf & Hq & Hk & _).
    unfold getNewsBySlug, bind. rewrite Hv.
    unfold try_catch, bind.
    rewrite (executeQuery_answers _ w0) by (rewrite Hf, Hq; exact Hok).
    rewrite sql_select_news_pure, sql_select_news_by_slug. cbn [fst snd].
    rewrite Hd, Hhead.
    unfold store_in_cache, bind, Date_now, get_cache, put_cache.
    cbn [fst snd].
    unfold incrementViewCount, try_catch, bind.
    rewrite (executeQuery_rejects _ _ m) by (simpl; rewrite Hf, Hq; exact Hko).
    unfold console_error, ret.
    eexists. split; [reflexivity|]. reflexivity.
  - intros newsId w0.
    destruct (incrementViewCount_returns newsId w0) as (w' & -> & _).
    reflexivity.
Qed.

Lemma increment_failure_is_swallowed_witness :
  exists w',
    getNewsBySlug "pipeline" Sample.flaky
      = (Returns (PNews (Some {| row := Sample.article 1 "pipeline" 1 100 "published";
                                 category_name := "Surf"; author_name := "Ana" |})), w')
    /\ db w' = db Sample.flaky.
Proof.
  apply (increment_failure_is_swallowed "pipeline" _ Sample.flaky "ETIMEDOUT");
    reflexivity.
Defined.

(** C10.  A write that the store rejects throws the store's error and leaves
    the cache as it was: every entry is still there, with its payload and
    its timestamp, and is served for as long as before. *)
Theorem failed_write_keeps_cache (op : write) (w : world) (m : string) :
  faults w (queries w) = Some m ->
  exists w',
    perform op w = (Throws (StoreError m), w')
    /\ cache w' = cache w
    /\ db w' = db w
    /\ (forall key, within_ttl key w' = within_ttl key w)
    /\ (forall key, fst (cached_data key w') = fst (cached_data key w)).
Proof.
  intros Hko. rewrite (perform_rejected op w m Hko).
  eexists; split; [reflexivity|]. simpl.
  do 3 (split; [reflexivity|]).
  intros key. unfold cached_data, bind, get_cache. simpl.
  destruct (cache w !! key); reflexivity.
Qed.

Lemma failed_write_keeps_cache_witness :
  exists w',
    perform (DeleteNews 1) (snd (getCategories Sample.flaky))
      = (Throws (StoreError "ETIMEDOUT"), w')
    /\ cache w' = cache (snd (getCategories Sample.flaky))
    /\ is_Some (cache w' !! "categories").
Proof.
  destruct (failed_write_keeps_cache (DeleteNews 1) (snd (getCategories Sample.flaky))
              "ETIMEDOUT" eq_refl) as (w' & Hp & Hc & _).
  exists w'. split; [exact Hp|]. split; [exact Hc|].
  rewrite Hc. vm_compute. eauto.
Defined.

(* ===================================================================== *)
(** * Further properties of the service *)
(* ===================================================================== *)

(** ** Sorting, paging and the join *)

Lemma insert_sorted_perm {A} (before : A -> A -> bool) (x : A) (l : list A) :
  Permutation (insert_sorted before x l) (x :: l).
Proof.
  induction l as [|y l IH]; simpl; [reflexivity|].
  destruct (before y x); [|reflexivity].
  rewrite IH. apply perm_swap.
Qed.

Lemma order_by_perm {A} (before : A -> A -> bool) (l : list A) :
  Permutation (order_by before l) l.
Proof.
  induction l as [|x l IH]; simpl; [reflexivity|].
  rewrite insert_sorted_perm. constructor. exact IH.
Qed.

Section Sorting.

Context {A : Type} (before : A -> A -> bool).

(** [before] is a strict order test: two elements are not each strictly
    before the other. *)
Hypothesis before_asym : forall x y, before x y = true -> before y x = false.

Let precedes (x y : A) : Prop := before y x = false.

Lemma insert_sorted_hd (x y : A) (l : list A) :
  precedes y x -> HdRel precedes y l -> HdRel precedes y (insert_sorted before x l).
Proof.
  intros Hyx Hl. destruct l as [|z l]; simpl; [constructor; exact Hyx|].
  destruct (before z x); constructor; [|exact Hyx].
  inversion Hl; assumption.
Qed.

Lemma insert_sorted_sorted (x : A) (l : list A) :
  Sorted precedes l -> Sorted precedes (insert_sorted before x l).
Proof.
  induction 1 as [|y l Hl IH Hhd]; simpl.
  - repeat constructor.
  - destruct (before y x) eqn:E.
    + constructor; [exact IH|].
      apply insert_sorted_hd; [apply before_asym, E|exact Hhd].
    + constructor; [constructor; assumption|]. constructor. exact E.
Qed.

Lemma order_by_sorted (l : list A) : Sorted precedes (order_by before l).
Proof.
  induction l as [|x l IH]; simpl; [constructor|].
  apply insert_sorted_sorted, IH.
Qed.

End Sorting.

Lemma Sorted_skipn {A} (R : A -> A -> Prop) (n : nat) (l : list A) :
  Sorted R l -> Sorted R (skipn n l).
Proof.
  revert l. induction n as [|n IH]; intros l Hl; [exact Hl|].
  destruct l as [|x l]; [exact Hl|]. simpl. apply IH. inversion Hl; assumption.
Qed.

Lemma Sorted_firstn {A} (R : A -> A -> Prop) (n : nat) (l : list A) :
  Sorted R l -> Sorted R (firstn n l).
Proof.
  revert l. induction n as [|n IH]; intros l Hl; [constructor|].
  destruct l as [|x l]; [constructor|]. simpl.
  inversion Hl as [|? ? Hs Hh]; subst. constructor; [apply IH, Hs|].
  destruct n; [constructor|]. destruct l; [constructor|]. simpl.
  inversion Hh; subst. constructor. assumption.
Qed.

(** The two WHERE clauses of [getNewsList] are the same clause. *)
Lemma build_queries_same (categoryId : option Z) (featured : bool)
    (searchQuery : option string) :
  fst (build_queries categoryId featured searchQuery)
  = snd (build_queries categoryId featured searchQuery).
Proof.
  unfold build_queries.
  destruct categoryId, featured, searchQuery as [[|? ?]|]; reflexivity.
Qed.

Lemma news_join_unfold (d : database) :
  news_join d = flat_map (joined_with d) (news d).
Proof. reflexivity. Qed.

Lemma joined_with_rows (d : database) (n : news_row) :
  map row (joined_with d n)
  = repeat n (length (List.filter (fun c => Z.eqb (n_category_id n) (c_id c)) (categories d))
              * length (List.filter (fun u => Z.eqb (n_author_id n) (u_id u)) (users d))).
Proof.
  unfold joined_with.
  induction (categories d) as [|c cs IHc]; simpl; [reflexivity|].
  rewrite map_app, IHc. clear IHc.
  destruct (Z.eqb (n_category_id n) (c_id c)); simpl.
  - rewrite repeat_app. f_equal.
    induction (users d) as [|u us IHu]; simpl; [reflexivity|].
    destruct (Z.eqb (n_author_id n) (u_id u)); simpl; rewrite IHu; reflexivity.
  - rewrite <- (app_nil_l (repeat n _)). f_equal.
    induction (users d) as [|u us IHu]; simpl; [reflexivity|exact IHu].
Qed.

(** Under the foreign keys the join has one row per article, in the order
    of the table. *)
Lemma news_join_rows (d : database) :
  foreign_keys_hold d = true -> map row (news_join d) = news d.
Proof.
  unfold foreign_keys_hold. rewrite news_join_unfold.
  induction (news d) as [|n ns IH]; simpl; [reflexivity|].
  rewrite andb_true_iff, andb_true_iff, !Nat.eqb_eq.
  intros [[Hc Hu] Hrest]. rewrite map_app, joined_with_rows, Hc, Hu, IH by exact Hrest.
  reflexivity.
Qed.

Lemma joined_with_row (d : database) (n : news_row) (a : NewsArticle) :
  In a (joined_with d n) -> row a = n.
Proof.
  intros Hin. assert (In (row a) (map row (joined_with d n))) as H
    by (apply in_map; exact Hin).
  rewrite joined_with_rows in H. apply repeat_spec in H. exact H.
Qed.

Lemma news_join_row (d : database) (a : NewsArticle) :
  In a (news_join d) -> In (row a) (news d).
Proof.
  rewrite news_join_unfold, in_flat_map. intros (n & Hn & Ha).
  rewrite (joined_with_row d n a Ha). exact Hn.
Qed.

Lemma filter_length_map {A B} (f : A -> B) (P : B -> bool) (l : list A) :
  length (List.filter (fun x => P (f x)) l) = length (List.filter P (map f l)).
Proof.
  induction l as [|x l IH]; simpl; [reflexivity|].
  destruct (P (f x)); simpl; rewrite IH; reflexivity.
Qed.

Lemma limit_offset_length {A} (limit offset : Z) (l : list A) :
  0 <= limit -> 0 <= offset ->
  Z.of_nat (length (limit_offset limit offset l)) =
    if offset <? Z.of_nat (length l)
    then Z.min limit (Z.of_nat (length l) - offset)
    else 0.
Proof.
  intros Hl Ho. unfold limit_offset.
  rewrite length_firstn, length_skipn.
  destruct (Z.ltb_spec offset (Z.of_nat (length l))); lia.
Qed.

Lemma limit_offset_In {A} (limit offset : Z) (l : list A) (x : A) :
  In x (limit_offset limit offset l) -> In x l.
Proof.
  unfold limit_offset. generalize (Z.to_nat limit), (Z.to_nat offset).
  intros n m Hin.
  assert (In x (skipn m l)) as Hs.
  { clear -Hin. revert Hin. generalize (skipn m l). intros k. revert n.
    induction k as [|y k IH]; intros [|n]; simpl; try tauto.
    intros [->|H]; [left; reflexivity|right; eapply IH, H]. }
  clear Hin. revert l Hs. induction m as [|m IH]; intros l Hs; [exact Hs|].
  destruct l as [|y l]; [exact Hs|]. right. apply IH, Hs.
Qed.

(** [getNewsList] when the cache does not serve the key and the store
    answers both statements, with the page it returns. *)
Lemma getNewsList_page (options : ListOptions) (w : world) :
  answered_by_store options w ->
  exists w',
    getNewsList options w =
      (Returns (PList
         (limit_offset (default 10 (opt_limit options)) (default 0 (opt_offset options))
            (order_by (fun a b => Z.ltb (n_created_at (row b)) (n_created_at (row a)))
               (List.filter (fun a => where_ (listed_where options) (row a))
                  (news_join (db w)))))
         (counted options (db w))), w')
    /\ db w' = db w.
Proof.
  intros (Hmiss & Hok1 & Hok2).
  unfold getNewsList, list_key, listed_where in *; cbv zeta.
  miss_the_cache Hmiss w1.
  unfold counted.
  destruct (build_queries _ _ _) as [query countQuery]. cbn [fst snd].
  unfold try_catch, bind.
  rewrite (executeQuery_answers _ w1) by (rewrite Hf, Hq; exact Hok1).
  rewrite sql_select_news_page_pure. cbn [fst snd].
  rewrite executeQuery_answers by (simpl; rewrite Hf, Hq; exact Hok2).
  rewrite sql_count_news_pure. cbn [fst snd].
  unfold store_in_cache, bind, Date_now, get_cache, put_cache, ret.
  unfold sql_count_news, sql_select_news_page. simpl. rewrite Hd.
  eexists. split; reflexivity.
Qed.

(** X1.  When the foreign keys of [news] hold, a call of [getNewsList] that
    the store answers, with a limit and an offset that are not negative,
    returns [min(limit, total - offset)] articles if [offset < total] and
    none otherwise, [total] being the total it returns. *)
Theorem page_size (options : ListOptions) (w : world) :
  foreign_keys_hold (db w) = true ->
  0 <= default 10 (opt_limit options) ->
  0 <= default 0 (opt_offset options) ->
  answered_by_store options w ->
  exists items total,
    fst (getNewsList options w) = Returns (PList items total)
    /\ Z.of_nat (length items) =
         if default 0 (opt_offset options) <? total
         then Z.min (default 10 (opt_limit options))
                (total - default 0 (opt_offset options))
         else 0.
Proof.
  intros Hfk Hl Ho Hans.
  destruct (getNewsList_page options w Hans) as (w' & -> & _).
  eexists _, _. split; [reflexivity|].
  rewrite limit_offset_length by assumption.
  rewrite (Permutation_length (order_by_perm _ _)).
  rewrite (filter_length_map row (where_ (listed_where options))).
  rewrite (news_join_rows _ Hfk).
  unfold counted, listed_where. rewrite build_queries_same. reflexivity.
Qed.

Lemma page_size_witness :
  exists items,
    fst (getNewsList {| opt_limit := Some 5; opt_offset := Some 1;
                        opt_categoryId := None; opt_featured := None;
                        opt_searchQuery := None |} Sample.healthy)
      = Returns (PList items 2)
    /\ length items = 1%nat.
Proof.
  destruct (page_size {| opt_limit := Some 5; opt_offset := Some 1;
                         opt_categoryId := None; opt_featured := None;
                         opt_searchQuery := None |} Sample.healthy)
    as (items & total & Hrun & Hlen).
  - reflexivity.
  - simpl. lia.
  - simpl. lia.
  - repeat split; reflexivity.
  - exists items. vm_compute in Hrun. inversion Hrun; subst. split; reflexivity.
Defined.

(** An article of a page is an article of the join that passes the WHERE
    clause of the listing. *)
Lemma page_row_listed (options : ListOptions) (d : database) (limit offset : Z)
    (a : NewsArticle) :
  In a (limit_offset limit offset
          (order_by (fun a b => Z.ltb (n_created_at (row b)) (n_created_at (row a)))
             (List.filter (fun a => where_ (listed_where options) (row a))
                (news_join d)))) ->
  In a (news_join d) /\ where_ (listed_where options) (row a) = true.
Proof.
  intros Hin. apply limit_offset_In in Hin.
  eapply Permutation_in in Hin; [|apply order_by_perm].
  apply filter_In in Hin. exact Hin.
Qed.

(** What the WHERE clause of a listing asks of a row. *)
Lemma listed_where_holds (options : ListOptions) (n : news_row) :
  where_ (listed_where options) n = true ->
  n_status n = "published"
  /\ (forall c, opt_categoryId options = Some c -> n_category_id n = c)
  /\ (opt_featured options = Some true -> n_is_featured n = 1)
  /\ (forall c s, opt_searchQuery options = Some (String c s) ->
        like ("%" +:+ String c s +:+ "%") (n_title n)
        || like ("%" +:+ String c s +:+ "%") (n_content n)
        || like ("%" +:+ String c s +:+ "%") (n_excerpt n) = true).
Proof.
  intros Hw.
  unfold listed_where in Hw. rewrite build_queries_same, count_clause in Hw.
  rewrite !andb_true_iff in Hw. destruct Hw as [[[Hp Hc] Hfe] Hs].
  split; [apply String.eqb_eq, Hp|]. split; [|split].
  - intros c E. rewrite E in Hc. apply Z.eqb_eq, Hc.
  - intros E. rewrite E in Hfe. simpl in Hfe. apply Z.eqb_eq, Hfe.
  - intros c s E. rewrite E in Hs. exact Hs.
Qed.

(** ** What a search matches *)








(** X3.  A page that [getNewsList] fetched from the store is ordered from
    the newest article to the oldest, and has no more articles than the
    limit. *)
Theorem page_is_newest_first (options : ListOptions) (w : world)
    (items : list NewsArticle) (total : Z) :
  answered_by_store options w ->
  fst (getNewsList options w) = Returns (PList items total) ->
  Sorted (fun a b => n_created_at (row b) <= n_created_at (row a)) items
  /\ (0 <= default 10 (opt_limit options) ->
      Z.of_nat (length items) <= default 10 (opt_limit options)).
Proof.
  intros Hans Hrun.
  destruct (getNewsList_page options w Hans) as (w' & Hpage & _).
  rewrite Hpage in Hrun. simpl in Hrun. inversion Hrun; subst items total; clear Hrun.
  split.
  - unfold limit_offset. apply Sorted_firstn, Sorted_skipn.
    eapply Sorted_ind with
      (P := fun l => Sorted (fun a b => n_created_at (row b) <= n_created_at (row a)) l);
      [constructor| |apply (order_by_sorted
         (fun a b => Z.ltb (n_created_at (row b)) (n_created_at (row a))))].
    + intros a l _ IH Hhd. constructor; [exact IH|].
      destruct Hhd as [|b l' Hb]; constructor.
      apply Z.ltb_ge in Hb. exact Hb.
    + intros x y Hxy. apply Z.ltb_lt in Hxy. apply Z.ltb_ge. lia.
  - intros Hl. unfold limit_offset. rewrite length_firstn. lia.
Qed.

Lemma page_is_newest_first_witness :
  exists items total,
    fst (getNewsList {| opt_limit := None; opt_offset := None;
                        opt_categoryId := None; opt_featured := None;
                        opt_searchQuery := None |} Sample.healthy)
      = Returns (PList items total)
    /\ map (fun a => n_slug (row a)) items = ["teahupoo"; "pipeline"]
    /\ Sorted (fun a b => n_created_at (row b) <= n_created_at (row a)) items.
Proof.
  eexists _, _. split; [reflexivity|]. split; [reflexivity|].
  eapply (page_is_newest_first
            {| opt_limit := None; opt_offset := None; opt_categoryId := None;
               opt_featured := None; opt_searchQuery := None |} Sample.healthy).
  - repeat split; reflexivity.
  - reflexivity.
Defined.

(** ** Writes followed by reads *)

Lemma createNews_answered (newsData : NewsData) (w : world) :
  faults w (queries w) = None ->
  createNews newsData w =
    (Returns (auto_increment (db w)),
     set_cache ∅
       (set_db (snd (sql_insert_news (title newsData) (slug newsData)
                       (content newsData) (excerpt newsData) (imageUrl newsData)
                       (categoryId newsData) (authorId newsData) (status newsData)
                       (if isFeatured newsData then 1 else 0)
                       (clock w (ticks w)) (db w)))
          (set_ticks (S (ticks w)) (set_queries (S (queries w)) w)))).
Proof.
  intros Hok. unfold createNews, try_catch, bind.
  rewrite executeQuery_answers by exact Hok. reflexivity.
Qed.

Lemma joined_with_nonempty (d : database) (n : news_row) :
  existsb (fun c => Z.eqb (n_category_id n) (c_id c)) (categories d) = true ->
  existsb (fun u => Z.eqb (n_author_id n) (u_id u)) (users d) = true ->
  joined_with d n <> [].
Proof.
  intros Hc Hu E.
  assert (length (map row (joined_with d n)) = 0%nat) as Hlen by (rewrite E; reflexivity).
  rewrite joined_with_rows, repeat_length in Hlen.
  apply existsb_exists in Hc as (c & Hcin & Hc).
  apply existsb_exists in Hu as (u & Huin & Hu).
  assert (In c (List.filter (fun c => Z.eqb (n_category_id n) (c_id c)) (categories d)))
    as H1 by (apply filter_In; auto).
  assert (In u (List.filter (fun u => Z.eqb (n_author_id n) (u_id u)) (users d)))
    as H2 by (apply filter_In; auto).
  destruct (List.filter _ (categories d)); [destruct H1|].
  destruct (List.filter _ (users d)); [destruct H2|].
  simpl in Hlen. lia.
Qed.

(** X4.  Creating and reading back.  Let [createNews] insert a published
    article whose category and author exist and whose slug no published
    article has yet.  If the store answers, the [getNewsBySlug] of that slug
    that follows returns the new article: the identifier is the one
    [createNews] returned, the columns are the fields of [newsData], and the
    view count is 0. *)
Theorem created_article_is_served (newsData : NewsData) (w w1 : world) (id : Z) :
  status newsData = "published" ->
  existsb (fun c => Z.eqb (categoryId newsData) (c_id c)) (categories (db w)) = true ->
  existsb (fun u => Z.eqb (authorId newsData) (u_id u)) (users (db w)) = true ->
  published_with_slug (slug newsData) (db w) = [] ->
  faults w (queries w) = None ->
  faults w (S (queries w)) = None ->
  createNews newsData w = (Returns id, w1) ->
  exists a,
    fst (getNewsBySlug (slug newsData) w1) = Returns (PNews (Some a))
    /\ n_id (row a) = id
    /\ n_title (row a) = title newsData
    /\ n_slug (row a) = slug newsData
    /\ n_content (row a) = content newsData
    /\ n_excerpt (row a) = excerpt newsData
    /\ n_image_url (row a) = imageUrl newsData
    /\ n_category_id (row a) = categoryId newsData
    /\ n_author_id (row a) = authorId newsData
    /\ n_is_featured (row a) = (if isFeatured newsData then 1 else 0)
    /\ n_view_count (row a) = 0.
Proof.
  intros Hst Hcat Husr Hfree Hok1 Hok2 Hcreate.
  rewrite (createNews_answered newsData w Hok1) in Hcreate.
  inversion Hcreate; subst id w1; clear Hcreate.
  match goal with |- context [getNewsBySlug _ ?x] => set (w1 := x) end.
  destruct (getNewsBySlug_fetches (slug newsData) w1) as (w2 & ts & -> & _).
  { apply empty_cache_misses. reflexivity. }
  { exact Hok2. }
  subst w1. cbn [db set_cache set_db fst].
  unfold sql_insert_news. cbn [snd].
  match goal with |- context [news (db w) ++ [?n]] => set (new := n) end.
  unfold published_with_slug in *. rewrite news_join_unfold in *. cbn [news].
  rewrite flat_map_app. cbn [flat_map]. rewrite app_nil_r.
  change (flat_map _ (news (db w))) with (flat_map (joined_with (db w)) (news (db w))).
  rewrite List.filter_app, Hfree. cbn [app].
  change (joined_with _ new) with (joined_with (db w) new).
  pose proof (joined_with_nonempty (db w) new Hcat Husr) as Hne.
  destruct (joined_with (db w) new) as [|a rest] eqn:Hj; [contradiction|].
  assert (row a = new) as Hrow
    by (apply (joined_with_row (db w)); rewrite Hj; left; reflexivity).
  cbn [List.filter]. unfold where_ at 1. cbn [forallb holds]. rewrite Hrow.
  subst new. cbn [n_slug n_status]. rewrite Hst, !String.eqb_refl. cbn [andb head].
  exists a. split; [reflexivity|]. rewrite Hrow. cbn. repeat split; reflexivity.
Qed.

Lemma created_article_is_served_witness :
  exists a,
    fst (getNewsBySlug "jaws" (snd (createNews Examples.jaws Sample.healthy)))
      = Returns (PNews (Some a))
    /\ n_id (row a) = 4 /\ n_title (row a) = "Jaws" /\ n_view_count (row a) = 0.
Proof.
  destruct (created_article_is_served Examples.jaws Sample.healthy
              (snd (createNews Examples.jaws Sample.healthy)) 4)
    as (a & Hrun & Hid & Ht & _ & _ & _ & _ & _ & _ & _ & Hv);
    [reflexivity..|].
  exists a. auto.
Defined.

Lemma deleteNews_answered (id : Z) (w : world) :
  faults w (queries w) = None ->
  deleteNews id w =
    (Returns (0 <? affectedRows (fst (sql_delete_news id (clock w (ticks w)) (db w)))),
     set_cache ∅
       (set_db (snd (sql_delete_news id (clock w (ticks w)) (db w)))
          (set_ticks (S (ticks w)) (set_queries (S (queries w)) w)))).
Proof.
  intros Hok. unfold deleteNews, try_catch, bind.
  rewrite executeQuery_answers by exact Hok. reflexivity.
Qed.

Lemma updateNews_answered (id : Z) (newsData : NewsData) (w : world) :
  faults w (queries w) = None ->
  updateNews id newsData w =
    (Returns (0 <? affectedRows (fst (sql_update_news (title newsData) (slug newsData)
                (content newsData) (excerpt newsData) (imageUrl newsData)
                (categoryId newsData) (status newsData)
                (if isFeatured newsData then 1 else 0) id
                (clock w (ticks w)) (db w)))),
     set_cache ∅
       (set_db (snd (sql_update_news (title newsData) (slug newsData)
                (content newsData) (excerpt newsData) (imageUrl newsData)
                (categoryId newsData) (status newsData)
                (if isFeatured newsData then 1 else 0) id
                (clock w (ticks w)) (db w)))
          (set_ticks (S (ticks w)) (set_queries (S (queries w)) w)))).
Proof.
  intros Hok. unfold updateNews, try_catch, bind.
  rewrite executeQuery_answers by exact Hok. reflexivity.
Qed.

(** No read over a table without the article [id] shows that article. *)
Lemma absent_article_is_not_shown (id : Z) (r : read) (w : world) (p : payload) :
  cache w = ∅ ->
  Forall (fun n => n_id n <> id) (news (db w)) ->
  fst (answer r w) = Returns p ->
  shows id p = false.
Proof.
  intros Hempty Habs Hrun.
  pose proof (empty_cache_misses (key_of r) w Hempty) as Hmiss.
  assert (forall a, In a (news_join (db w)) -> Z.eqb (n_id (row a)) id = false) as Hjoin.
  { intros a Ha. apply news_join_row in Ha.
    rewrite List.Forall_forall in Habs. apply Z.eqb_neq, Habs, Ha. }
  destruct r as [slug|options|]; simpl in *.
  - destruct (faults w (queries w)) as [m|] eqn:F.
    + destruct (getNewsBySlug_rejected slug w m Hmiss F) as (w' & E & _).
      rewrite E in Hrun. inversion Hrun. reflexivity.
    + destruct (getNewsBySlug_fetches slug w Hmiss F) as (w' & ts & E & _).
      rewrite E in Hrun. inversion Hrun; subst p.
      destruct (published_with_slug slug (db w)) as [|a l] eqn:Hp; [reflexivity|].
      simpl. apply Hjoin.
      assert (In a (published_with_slug slug (db w))) as Hin
        by (rewrite Hp; left; reflexivity).
      apply published_with_slug_spec in Hin. tauto.
  - destruct (faults w (queries w)) as [m|] eqn:F1.
    + destruct (getNewsList_rejected options w Hmiss) as (w' & E & _);
        [left; rewrite F1; eauto|].
      rewrite E in Hrun. inversion Hrun. reflexivity.
    + destruct (faults w (S (queries w))) as [m|] eqn:F2.
      * destruct (getNewsList_rejected options w Hmiss) as (w' & E & _);
          [right; rewrite F2; eauto|].
        rewrite E in Hrun. inversion Hrun. reflexivity.
      * destruct (getNewsList_page options w (conj Hmiss (conj F1 F2))) as (w' & E & _).
        rewrite E in Hrun. inversion Hrun; subst p. simpl.
        apply not_true_is_false. intros Hex.
        apply existsb_exists in Hex as (a & Hin & Ha).
        apply limit_offset_In in Hin.
        eapply Permutation_in in Hin; [|apply order_by_perm].
        apply filter_In in Hin as [Hin _].
        rewrite (Hjoin a Hin) in Ha. discriminate.
  - destruct (faults w (queries w)) as [m|] eqn:F.
    + destruct (getCategories_rejected w m Hmiss F) as (w' & E & _).
      rewrite E in Hrun. inversion Hrun. reflexivity.
    + destruct (getCategories_fetches w Hmiss F) as (w' & ts & E & _).
      rewrite E in Hrun. inversion Hrun. reflexivity.
Qed.

(** X5.  Deleting and reading back.  After a [deleteNews id] that returned,
    the read that follows -- by slug, as a listing with any options, or of
    the categories -- does not show the article [id], whether the store
    answers that read or not. *)
Theorem deleted_article_is_gone (id : Z) (w w1 : world) (found : bool)
    (r : read) (p : payload) :
  deleteNews id w = (Returns found, w1) ->
  fst (answer r w1) = Returns p ->
  shows id p = false.
Proof.
  intros Hdel Hrun.
  destruct (faults w (queries w)) as [m|] eqn:F.
  { unfold deleteNews, try_catch, bind in Hdel.
    rewrite (executeQuery_rejects _ _ m F) in Hdel. discriminate. }
  rewrite (deleteNews_answered id w F) in Hdel. inversion Hdel; subst found w1.
  eapply absent_article_is_not_shown; [| |exact Hrun].
  - reflexivity.
  - simpl. apply List.Forall_forall. intros n Hn. apply filter_In in Hn as [_ Hn].
    apply negb_true_iff, Z.eqb_neq in Hn. exact Hn.
Qed.

Lemma deleted_article_is_gone_witness :
  fst (deleteNews 1 Sample.healthy) = Returns true
  /\ shows 1 (PNews None) = false
  /\ fst (getNewsBySlug "pipeline" (snd (deleteNews 1 Sample.healthy)))
     = Returns (PNews None).
Proof.
  split; [reflexivity|]. split; [|reflexivity].
  apply (deleted_article_is_gone 1 Sample.healthy
           (snd (deleteNews 1 Sample.healthy)) true (NewsBySlug "pipeline"));
    reflexivity.
Defined.

(** Some row is affected exactly when some row has the identifier. *)
Lemma affected_rows_positive (id : Z) (l : list news_row) :
  (0 <? Z.of_nat (length (List.filter (fun n => Z.eqb (n_id n) id) l)))
  = existsb (fun n => Z.eqb (n_id n) id) l.
Proof.
  induction l as [|n l IH]; [reflexivity|]. simpl.
  destruct (Z.eqb (n_id n) id); simpl; [|exact IH].
  apply Z.ltb_lt. lia.
Qed.

(** X6.  When the store answers, [updateNews] and [deleteNews] return [true]
    exactly when some row of [news] has the identifier. *)
Theorem write_reports_match (id : Z) (newsData : NewsData) (w : world) :
  faults w (queries w) = None ->
  fst (updateNews id newsData w)
    = Returns (existsb (fun n => Z.eqb (n_id n) id) (news (db w)))
  /\ fst (deleteNews id w)
    = Returns (existsb (fun n => Z.eqb (n_id n) id) (news (db w))).
Proof.
  intros Hok.
  rewrite (updateNews_answered id newsData w Hok), (deleteNews_answered id w Hok).
  unfold sql_update_news, sql_delete_news. cbn [fst affectedRows].
  rewrite affected_rows_positive. split; reflexivity.
Qed.

Lemma write_reports_match_witness :
  fst (updateNews 2 Sample.data Sample.healthy) = Returns true
  /\ fst (deleteNews 7 Sample.healthy) = Returns false.
Proof.
  destruct (write_reports_match 2 Sample.data Sample.healthy eq_refl) as [Hu _].
  destruct (write_reports_match 7 Sample.data Sample.healthy eq_refl) as [_ Hd].
  split; [exact Hu|exact Hd].
Defined.

(** X7.  An update replaces the title, slug, content, excerpt, image,
    category, status and featured flag of the rows it matches and nothing
    else: no article changes its identifier, author, view count or creation
    time, no row appears or disappears, and [authorId] of [newsData] plays
    no part -- two updates that differ in it only do the same. *)
Theorem update_keeps_identity (id : Z) (newsData : NewsData) (author' : Z)
    (w w1 : world) (found : bool) :
  updateNews id newsData w = (Returns found, w1) ->
  map (fun n => (n_id n, n_author_id n, n_view_count n, n_created_at n)) (news (db w1))
  = map (fun n => (n_id n, n_author_id n, n_view_count n, n_created_at n)) (news (db w))
  /\ updateNews id
       {| title := title newsData; slug := slug newsData;
          content := content newsData; excerpt := excerpt newsData;
          imageUrl := imageUrl newsData; categoryId := categoryId newsData;
          authorId := author'; status := status newsData;
          isFeatured := isFeatured newsData |} w
     = (Returns found, w1).
Proof.
  intros Hup. split.
  - destruct (faults w (queries w)) as [m|] eqn:F.
    { unfold updateNews, try_catch, bind in Hup.
      rewrite (executeQuery_rejects _ _ m F) in Hup. discriminate. }
    rewrite (updateNews_answered id newsData w F) in Hup.
    inversion Hup; subst found w1. cbn [db set_cache set_db].
    unfold sql_update_news. cbn [snd news].
    rewrite map_map. apply map_ext. intros n.
    destruct (Z.eqb (n_id n) id); reflexivity.
  - exact Hup.
Qed.

Lemma update_keeps_identity_witness :
  view_count_of 2 (db (snd (updateNews 2 Sample.data Sample.healthy))) = 5
  /\ map n_author_id (news (db (snd (updateNews 2 Sample.data Sample.healthy))))
     = [1; 1; 1].
Proof.
  destruct (update_keeps_identity 2 Sample.data 9 Sample.healthy
              (snd (updateNews 2 Sample.data Sample.healthy)) true eq_refl)
    as [Hkeep _].
  split; reflexivity.
Defined.

(** ** What reads change *)

(** A read leaves the cache as it is or writes the entry of its own key. *)
Lemma answer_cache (r : read) (w : world) :
  cache (snd (answer r w)) = cache w
  \/ exists e, cache (snd (answer r w)) = <[key_of r := e]> (cache w).
Proof.
  destruct (within_ttl (key_of r) w) eqn:Hv.
  - left. destruct r as [slug|options|]; simpl in *;
      [unfold getNewsBySlug|unfold getNewsList, list_key in *|unfold getCategories];
      cbv zeta;
      match goal with
      | |- context [bind (isCacheValid ?k) ?body ?w] =>
          destruct (served_from_cache k (body false) w Hv) as (e & _ & Hrun);
          cbv beta iota in Hrun; rewrite Hrun
      end; reflexivity.
  - destruct r as [slug|options|]; simpl in *.
    + destruct (faults w (queries w)) as [m|] eqn:F.
      * destruct (getNewsBySlug_rejected slug w m Hv F) as (w' & -> & Hc & _). auto.
      * destruct (getNewsBySlug_fetches slug w Hv F) as (w' & ts & -> & Hc & _). eauto.
    + destruct (faults w (queries w)) as [m|] eqn:F1.
      * destruct (getNewsList_rejected options w Hv) as (w' & -> & Hc & _);
          [left; rewrite F1; eauto|]. auto.
      * destruct (faults w (S (queries w))) as [m|] eqn:F2.
        -- destruct (getNewsList_rejected options w Hv) as (w' & -> & Hc & _);
             [right; rewrite F2; eauto|]. auto.
        -- destruct (getNewsList_fetches options w Hv F1 F2)
             as (w' & items & ts & -> & Hc & _). eauto.
    + destruct (faults w (queries w)) as [m|] eqn:F.
      * destruct (getCategories_rejected w m Hv F) as (w' & -> & Hc & _). auto.
      * destruct (getCategories_fetches w Hv F) as (w' & ts & -> & Hc & _). eauto.
Qed.

(** X8.  A read touches no cache entry but the one of its own key: whatever
    is cached under any other key is still there afterwards, unchanged. *)
Theorem read_writes_own_key_only (r : read) (w : world) (key : string) :
  key <> key_of r ->
  cache (snd (answer r w)) !! key = cache w !! key.
Proof.
  intros Hne. destruct (answer_cache r w) as [->|[e ->]]; [reflexivity|].
  apply lookup_insert_ne. congruence.
Qed.

Lemma read_writes_own_key_only_witness :
  cache (snd (answer (NewsBySlug "pipeline") (snd (getCategories Sample.healthy))))
    !! "categories"
  = cache (snd (getCategories Sample.healthy)) !! "categories"
  /\ is_Some (cache (snd (getCategories Sample.healthy)) !! "categories").
Proof.
  split.
  - apply (read_writes_own_key_only (NewsBySlug "pipeline")
             (snd (getCategories Sample.healthy)) "categories").
    discriminate.
  - vm_compute. eauto.
Defined.

(** What a call of [getNewsBySlug] does to the store: nothing, or the
    increment of one view count. *)
Lemma getNewsBySlug_store (slug : string) (w : world) :
  db (snd (getNewsBySlug slug w)) = db w
  \/ exists id now,
       db (snd (getNewsBySlug slug w)) = snd (sql_increment_view_count id now (db w)).
Proof.
  destruct (within_ttl ("news_" +:+ slug) w) eqn:Hv.
  - destruct (getNewsBySlug_hit slug w Hv) as (e & _ & ->). left. reflexivity.
  - destruct (isCacheValid_miss _ _ Hv) as (w1 & Hval & Hc & Hd & Hf & Hq & Hk & _).
    unfold getNewsBySlug, bind. rewrite Hval.
    unfold try_catch, bind.
    destruct (faults w1 (queries w1)) as [m|] eqn:F.
    + rewrite (executeQuery_rejects _ w1 m F). left. simpl. exact Hd.
    + rewrite (executeQuery_answers _ w1 F).
      rewrite sql_select_news_pure. cbn [fst snd].
      unfold store_in_cache, bind, Date_now, get_cache, put_cache. cbn [fst snd].
      match goal with |- context [head ?l] => destruct (head l) as [a|] end.
      * unfold incrementViewCount, try_catch, bind.
        match goal with |- context [executeQuery ?s ?x] =>
          destruct (faults x (queries x)) as [m|] eqn:F2;
          [rewrite (executeQuery_rejects s x m F2)|rewrite (executeQuery_answers s x F2)]
        end.
        -- left. simpl. exact Hd.
        -- right. exists (n_id (row a)), 0. simpl. rewrite Hd. reflexivity.
      * left. simpl. exact Hd.
Qed.

(** X9.  Reads do not modify the store, but for view counts: [getNewsList]
    and [getCategories] leave every table as it is, in any world, and
    [getNewsBySlug] leaves every row in place with all its columns except
    the view count. *)
Theorem reads_keep_the_store (r : read) (w : world) :
  map forget_views (news (db (snd (answer r w)))) = map forget_views (news (db w))
  /\ categories (db (snd (answer r w))) = categories (db w)
  /\ users (db (snd (answer r w))) = users (db w)
  /\ auto_increment (db (snd (answer r w))) = auto_increment (db w)
  /\ (match r with NewsBySlug _ => True | _ => db (snd (answer r w)) = db w end).
Proof.
  assert (db (snd (answer r w)) = db w ->
          map forget_views (news (db (snd (answer r w)))) = map forget_views (news (db w))
          /\ categories (db (snd (answer r w))) = categories (db w)
          /\ users (db (snd (answer r w))) = users (db w)
          /\ auto_increment (db (snd (answer r w))) = auto_increment (db w))
    as Hsame by (intros ->; auto).
  destruct r as [slug|options|].
  - simpl. destruct (getNewsBySlug_store slug w) as [E|(id & now & E)].
    + destruct (Hsame E) as (H1 & H2 & H3 & H4). auto.
    + simpl in E. rewrite E. unfold sql_increment_view_count. cbn [snd news categories users auto_increment].
      repeat split; try reflexivity.
      rewrite map_map. apply map_ext. intros n.
      destruct (Z.eqb (n_id n) id); reflexivity.
  - assert (db (snd (answer (NewsList options) w)) = db w) as E.
    { simpl. destruct (within_ttl (list_key options) w) eqn:Hv.
      - unfold getNewsList, list_key in *; cbv zeta.
        match goal with
        | |- context [bind (isCacheValid ?k) ?body ?w] =>
            destruct (served_from_cache k (body false) w Hv) as (e & _ & Hrun);
            cbv beta iota in Hrun; rewrite Hrun
        end. reflexivity.
      - destruct (faults w (queries w)) as [m|] eqn:F1.
        + destruct (getNewsList_rejected options w Hv) as (w' & -> & _ & Hd & _);
            [left; rewrite F1; eauto|]. exact Hd.
        + destruct (faults w (S (queries w))) as [m|] eqn:F2.
          * destruct (getNewsList_rejected options w Hv) as (w' & -> & _ & Hd & _);
              [right; rewrite F2; eauto|]. exact Hd.
          * destruct (getNewsList_fetches options w Hv F1 F2)
              as (w' & items & ts & -> & _ & Hd & _). exact Hd. }
    destruct (Hsame E) as (H1 & H2 & H3 & H4). auto.
  - assert (db (snd (answer Categories w)) = db w) as E.
    { simpl. destruct (within_ttl "categories" w) eqn:Hv.
      - unfold getCategories; cbv zeta.
        match goal with
        | |- context [bind (isCacheValid ?k) ?body ?w] =>
            destruct (served_from_cache k (body false) w Hv) as (e & _ & Hrun);
            cbv beta iota in Hrun; rewrite Hrun
        end. reflexivity.
      - destruct (faults w (queries w)) as [m|] eqn:F.
        + destruct (getCategories_rejected w m Hv F) as (w' & -> & _ & Hd & _). exact Hd.
        + destruct (getCategories_fetches w Hv F) as (w' & ts & -> & _ & Hd & _). exact Hd. }
    destruct (Hsame E) as (H1 & H2 & H3 & H4). auto.
Qed.

Lemma getNewsBySlug_rejected_world (slug : string) (w : world) (m : string) :
  within_ttl ("news_" +:+ slug) w = false ->
  faults w (queries w) = Some m ->
  exists w1,
    getNewsBySlug slug w = (Returns (PNews None), set_queries (S (queries w1)) w1)
    /\ cache w1 = cache w /\ db w1 = db w /\ faults w1 = faults w
    /\ queries w1 = queries w.
Proof.
  intros Hmiss Hko.
  destruct (isCacheValid_miss _ _ Hmiss) as (w1 & Hv & Hc & Hd & Hf & Hq & _).
  unfold getNewsBySlug, bind. rewrite Hv.
  unfold try_catch, bind.
  rewrite (executeQuery_rejects _ w1 m) by (rewrite Hf, Hq; exact Hko).
  unfold console_error, ret. exists w1. auto.
Qed.

(** X10.  A failure is not cached.  When the store rejects the statement of
    a read, the cache is left exactly as it was; so after a rejected
    [getNewsBySlug] on a key without entry, the next call asks the store
    again and, if answered, returns the article. *)
Theorem failure_is_not_cached (r : read) (w : world) (slug : string) (m : string) :
  (within_ttl (key_of r) w = false ->
   faults w (queries w) = Some m ->
   cache (snd (answer r w)) = cache w)
  /\ (cache w !! ("news_" +:+ slug) = None ->
      faults w (queries w) = Some m ->
      faults w (S (queries w)) = None ->
      fst (getNewsBySlug slug w) = Returns (PNews None)
      /\ fst (getNewsBySlug slug (snd (getNewsBySlug slug w)))
         = Returns (PNews (head (published_with_slug slug (db w))))).
Proof.
  split.
  - intros Hv F. destruct r as [slug'|options|]; simpl in *.
    + destruct (getNewsBySlug_rejected slug' w m Hv F) as (w' & -> & Hc & _). exact Hc.
    + destruct (getNewsList_rejected options w Hv) as (w' & -> & Hc & _);
        [left; rewrite F; eauto|]. exact Hc.
    + destruct (getCategories_rejected w m Hv F) as (w' & -> & Hc & _). exact Hc.
  - intros Hnone F1 F2.
    assert (within_ttl ("news_" +:+ slug) w = false) as Hv
      by (unfold within_ttl; rewrite Hnone; reflexivity).
    destruct (getNewsBySlug_rejected_world slug w m Hv F1)
      as (w1 & -> & Hc & Hd & Hf & Hq).
    cbn [fst snd]. split; [reflexivity|].
    destruct (getNewsBySlug_fetches slug (set_queries (S (queries w1)) w1))
      as (w' & ts & -> & _).
    + unfold within_ttl. cbn [cache set_queries]. rewrite Hc, Hnone. reflexivity.
    + cbn [faults queries set_queries]. rewrite Hf, Hq. exact F2.
    + cbn [fst db set_queries]. rewrite Hd. reflexivity.
Qed.

Lemma failure_is_not_cached_witness :
  fst (getNewsBySlug "pipeline" Examples.recovering) = Returns (PNews None)
  /\ exists a,
       fst (getNewsBySlug "pipeline" (snd (getNewsBySlug "pipeline" Examples.recovering)))
       = Returns (PNews (Some a)).
Proof.
  destruct (proj2 (failure_is_not_cached Categories Examples.recovering
                     "pipeline" "ECONNRESET")) as [H1 H2]; try reflexivity.
  split; [exact H1|]. eexists. rewrite H2. reflexivity.
Defined.

(** ** The categories and their counts *)

Lemma categories_left_join_unfold (d : database) :
  categories_left_join d = flat_map (rows_of d) (categories d).
Proof. reflexivity. Qed.

Lemma rows_of_fst (d : database) (c : category_row) (r : category_row * option news_row) :
  In r (rows_of d c) -> fst r = c.
Proof.
  unfold rows_of. destruct (List.filter _ (news d)) as [|n ns].
  - intros [<-|[]]. reflexivity.
  - intros Hin. apply in_map_iff in Hin as (x & <- & _). reflexivity.
Qed.

Lemma rows_of_nonempty (d : database) (c : category_row) : rows_of d c <> [].
Proof. unfold rows_of. destruct (List.filter _ (news d)); discriminate. Qed.

Lemma filter_twice {A} (P : A -> bool) (l : list A) :
  List.filter P (List.filter P l) = List.filter P l.
Proof.
  induction l as [|x l IH]; simpl; [reflexivity|].
  destruct (P x) eqn:E; simpl; rewrite ?E, IH; reflexivity.
Qed.

Lemma group_heads_block (c : category_row)
    (block rest : list (category_row * option news_row)) :
  block <> [] ->
  (forall r, In r block -> fst r = c) ->
  group_heads (block ++ rest)
  = c :: List.filter (fun c' => negb (Z.eqb (c_id c') (c_id c))) (group_heads rest).
Proof.
  induction block as [|[c0 o] block IH]; intros Hne Hall; [contradiction|].
  assert (c0 = c) as -> by (apply (Hall (c0, o)); left; reflexivity).
  simpl. f_equal. destruct block as [|r block]; [reflexivity|].
  rewrite IH; [|discriminate|intros r' Hr'; apply Hall; right; exact Hr'].
  simpl. rewrite Z.eqb_refl. simpl. apply filter_twice.
Qed.

Lemma group_heads_of_join (d : database) (cs : list category_row) :
  List.NoDup (map c_id cs) ->
  group_heads (flat_map (rows_of d) cs) = cs.
Proof.
  induction cs as [|c cs IH]; intros Hnd; [reflexivity|].
  simpl in *. apply List.NoDup_cons_iff in Hnd as [Hnotin Hnd].
  rewrite (group_heads_block c); [|apply rows_of_nonempty|apply rows_of_fst].
  rewrite IH by exact Hnd. f_equal.
  clear IH Hnd. induction cs as [|c' cs IH]; [reflexivity|].
  simpl in *. destruct (Z.eqb_spec (c_id c') (c_id c)) as [E|E]; simpl.
  - exfalso. apply Hnotin. left. exact E.
  - f_equal. apply IH. intros H. apply Hnotin. right. exact H.
Qed.

Lemma count_n_id_app (id : Z) (l1 l2 : list (category_row * option news_row)) :
  count_n_id id (l1 ++ l2) = count_n_id id l1 + count_n_id id l2.
Proof. unfold count_n_id. rewrite List.filter_app, length_app. lia. Qed.

Lemma count_n_id_rows_of (d : database) (c : category_row) (id : Z) :
  count_n_id id (rows_of d c) = if Z.eqb (c_id c) id then published_in c d else 0.
Proof.
  unfold count_n_id, rows_of, published_in.
  destruct (List.filter _ (news d)) as [|n ns].
  - simpl. rewrite andb_false_r. destruct (Z.eqb (c_id c) id); reflexivity.
  - generalize (n :: ns). intros l.
    destruct (Z.eqb (c_id c) id) eqn:E.
    + f_equal. induction l as [|x l IH]; [reflexivity|].
      simpl. rewrite E. simpl. rewrite IH. reflexivity.
    + induction l as [|x l IH]; [reflexivity|].
      simpl. rewrite E. simpl. exact IH.
Qed.

Lemma count_n_id_of_join (d : database) (cs : list category_row) (c : category_row) :
  List.NoDup (map c_id cs) -> In c cs ->
  count_n_id (c_id c) (flat_map (rows_of d) cs) = published_in c d.
Proof.
  induction cs as [|c' cs IH]; intros Hnd Hin; [destruct Hin|].
  simpl in *. apply List.NoDup_cons_iff in Hnd as [Hnotin Hnd].
  rewrite count_n_id_app, count_n_id_rows_of.
  destruct Hin as [->|Hin].
  - rewrite Z.eqb_refl.
    assert (count_n_id (c_id c) (flat_map (rows_of d) cs) = 0) as ->; [|lia].
    clear IH Hnd. induction cs as [|c'' cs IH]; [reflexivity|].
    simpl in *. rewrite count_n_id_app, count_n_id_rows_of.
    destruct (Z.eqb_spec (c_id c'') (c_id c)) as [E|E];
      [exfalso; apply Hnotin; left; exact E|].
    rewrite IH; [reflexivity|]. intros H. apply Hnotin. right. exact H.
  - destruct (Z.eqb_spec (c_id c') (c_id c)) as [E|E].
    + exfalso. apply Hnotin. rewrite E. apply in_map. exact Hin.
    + rewrite IH by assumption. lia.
Qed.

Lemma ltb_asym (x y : string) : String.ltb x y = true -> String.ltb y x = false.
Proof.
  unfold String.ltb. rewrite (String.compare_antisym y x).
  destruct (String.compare x y); simpl; congruence.
Qed.

Lemma not_ltb_leb (x y : string) : String.ltb y x = false -> String.leb x y = true.
Proof.
  unfold String.ltb, String.leb. rewrite (String.compare_antisym y x).
  destruct (String.compare x y); simpl; congruence.
Qed.

(** X11.  When the identifiers of [categories] are distinct, a call of
    [getCategories] that the store answers returns every category exactly
    once, each with the number of its published articles -- 0 for a
    category that has none -- in the order of their names. *)
Theorem categories_are_counted (w : world) :
  List.NoDup (map c_id (categories (db w))) ->
  within_ttl "categories" w = false ->
  faults w (queries w) = None ->
  exists cats,
    fst (getCategories w) = Returns (PCategories cats)
    /\ Permutation cats
         (map (fun c => {| category := c; news_count := published_in c (db w) |})
            (categories (db w)))
    /\ Sorted (fun a b => String.leb (c_name (category a)) (c_name (category b)) = true)
         cats.
Proof.
  intros Hnd Hmiss Hok.
  destruct (getCategories_fetches w Hmiss Hok) as (w' & ts & -> & _).
  eexists. split; [reflexivity|].
  unfold sql_select_categories. cbn [fst]. split.
  - rewrite order_by_perm.
    rewrite categories_left_join_unfold, group_heads_of_join by exact Hnd.
    rewrite (map_ext_in _
      (fun c => {| category := c; news_count := published_in c (db w) |}));
      [reflexivity|].
    intros c Hc. f_equal. apply count_n_id_of_join; assumption.
  - eapply Sorted_ind with
      (P := fun l => Sorted (fun a b => String.leb (c_name (category a))
                                          (c_name (category b)) = true) l);
      [constructor| |apply (order_by_sorted
         (fun a b => String.ltb (c_name (category a)) (c_name (category b))))].
    + intros a l _ IH Hhd. constructor; [exact IH|].
      destruct Hhd as [|b l' Hb]; constructor. apply not_ltb_leb, Hb.
    + intros x y. apply ltb_asym.
Qed.

Lemma categories_are_counted_witness :
  exists cats,
    fst (getCategories Sample.healthy) = Returns (PCategories cats)
    /\ map (fun x => (c_name (category x), news_count x)) cats
       = [("Ocean", 1); ("Surf", 1)].
Proof.
  destruct (categories_are_counted Sample.healthy) as (cats & Hrun & _).
  - simpl. repeat constructor; simpl; intuition discriminate.
  - reflexivity.
  - reflexivity.
  - exists cats. split; [exact Hrun|].
    vm_compute in Hrun. inversion Hrun. reflexivity.
Defined.

(** ** Cache keys *)

Lemma numeric_pretty_N_go (x : N) (s : string) :
  numeric s = true -> numeric (pretty_N_go x s) = true.
Proof.
  revert s. induction (N.lt_wf_0 x) as [x _ IH]; intros s Hs.
  assert (x = 0 \/ 0 < x)%N as [->|Hpos] by lia.
  - rewrite pretty_N_go_0. exact Hs.
  - rewrite pretty_N_go_step by exact Hpos. apply IH.
    + apply N.div_lt; [exact Hpos|reflexivity].
    + simpl. rewrite Hs, andb_true_r.
      unfold pretty_N_char. repeat case_match; reflexivity.
Qed.

Lemma numeric_pretty_Z (z : Z) : numeric (pretty z) = true.
Proof.
  destruct z as [|p|p]; [reflexivity| |].
  - change (pretty (Z.pos p)) with (pretty_N_go (N.pos p) "").
    apply numeric_pretty_N_go. reflexivity.
  - change (pretty (Z.neg p)) with (String "-" (pretty_N_go (N.pos p) "")).
    simpl. apply numeric_pretty_N_go. reflexivity.
Qed.

Lemma numeric_no_underscore (s : string) : numeric s = true -> no_underscore s = true.
Proof.
  induction s as [|c s IH]; simpl; [reflexivity|].
  intros H. apply andb_true_iff in H as [Hc Hs]. rewrite (IH Hs), andb_true_r.
  destruct (Ascii.eqb_spec c "_") as [->|]; [discriminate Hc|reflexivity].
Qed.

(** Two texts without underscore, each followed by an underscore and a
    rest, are equal only part by part. *)
Lemma split_at_underscore (a b r1 r2 : string) :
  no_underscore a = true -> no_underscore b = true ->
  a +:+ String "_" r1 = b +:+ String "_" r2 ->
  a = b /\ r1 = r2.
Proof.
  revert b. induction a as [|c a IH]; intros [|d b] Ha Hb E; simpl in *.
  - inversion E. auto.
  - inversion E; subst d. simpl in Hb. discriminate.
  - inversion E; subst c. simpl in Ha. discriminate.
  - apply andb_true_iff in Ha as [_ Ha]. apply andb_true_iff in Hb as [_ Hb].
    inversion E; subst d. destruct (IH b Ha Hb) as [-> ->]; auto.
Qed.

Lemma template_number_inj (x y : option Z) :
  template_number x = template_number y -> x = y.
Proof.
  destruct x as [x|], y as [y|]; simpl; intros E.
  - f_equal. apply (inj pretty). exact E.
  - pose proof (numeric_pretty_Z x) as H. rewrite E in H. discriminate.
  - pose proof (numeric_pretty_Z y) as H. rewrite <- E in H. discriminate.
  - reflexivity.
Qed.

Lemma template_number_clean (x : option Z) : no_underscore (template_number x) = true.
Proof.
  destruct x as [x|]; [|reflexivity].
  apply numeric_no_underscore, numeric_pretty_Z.
Qed.

(** X12.  Two calls of [getNewsList] use the same cache key only when they
    agree on limit, offset, category and featured flag (defaults applied),
    and on the search text as the key prints it -- where a search text that
    is left out and the text ['undefined'] print alike.  In particular two
    pages of one listing never share an entry. *)
Theorem list_keys_are_distinct
    (limit1 offset1 limit2 offset2 : Z) (categoryId1 categoryId2 : option Z)
    (featured1 featured2 : bool) (searchQuery1 searchQuery2 : option string) :
  news_list_key limit1 offset1 categoryId1 featured1 searchQuery1
  = news_list_key limit2 offset2 categoryId2 featured2 searchQuery2
  <-> limit1 = limit2 /\ offset1 = offset2 /\ categoryId1 = categoryId2
      /\ featured1 = featured2
      /\ (searchQuery1 = searchQuery2
          \/ (searchQuery1 = None /\ searchQuery2 = Some "undefined")
          \/ (searchQuery1 = Some "undefined" /\ searchQuery2 = None)).
Proof.
  split.
  - unfold news_list_key. intros E.
    change ("news_list_" +:+ ?x) with (String "n" (String "e" (String "w" (String "s"
      (String "_" (String "l" (String "i" (String "s" (String "t" (String "_" x))))))))))
      in E.
    simpl in E. injection E as E.
    apply split_at_underscore in E as [El E];
      [|apply numeric_no_underscore, numeric_pretty_Z..].
    apply split_at_underscore in E as [Eo E];
      [|apply numeric_no_underscore, numeric_pretty_Z..].
    apply split_at_underscore in E as [Ec E]; [|apply template_number_clean..].
    apply split_at_underscore in E as [Ef E];
      [|destruct featured1; reflexivity|destruct featured2; reflexivity].
    apply (inj pretty) in El. apply (inj pretty) in Eo.
    apply template_number_inj in Ec.
    repeat (split; [first [assumption | destruct featured1, featured2; simpl in Ef; congruence]|]).
    destruct searchQuery1 as [s1|], searchQuery2 as [s2|]; simpl in E; subst; auto.
  - intros (-> & -> & -> & -> & [->|[[-> ->]|[-> ->]]]); reflexivity.
Qed.

(** X13.  The key confuses a search for the text ['undefined'] with no
    search at all: after a listing without search text that the store
    answered, the same listing with the search text ['undefined'], made
    while the entry is within its time to live, is served that entry -- the
    unfiltered page and its total -- and the store is not asked. *)
Theorem undefined_search_is_served_unfiltered
    (limit offset categoryId : option Z) (featured : option bool)
    (w w1 : world) (r1 : outcome payload) :
  let plain := {| opt_limit := limit; opt_offset := offset;
                  opt_categoryId := categoryId; opt_featured := featured;
                  opt_searchQuery := None |} in
  let odd := {| opt_limit := limit; opt_offset := offset;
                opt_categoryId := categoryId; opt_featured := featured;
                opt_searchQuery := Some "undefined" |} in
  answered_by_store plain w ->
  getNewsList plain w = (r1, w1) ->
  within_ttl (list_key plain) w1 = true ->
  exists items,
    r1 = Returns (PList items (counted plain (db w)))
    /\ fst (getNewsList odd w1) = r1
    /\ queries (snd (getNewsList odd w1)) = queries w1.
Proof.
  intros plain odd (Hmiss & F1 & F2) Hrun Hhit.
  destruct (getNewsList_fetches plain w Hmiss F1 F2)
    as (w' & items & ts & E & Hc & _).
  rewrite E in Hrun. inversion Hrun; subst r1 w1; clear Hrun.
  exists items. split; [reflexivity|].
  assert (list_key odd = list_key plain) as Hkey by reflexivity.
  unfold getNewsList, list_key in *; cbv zeta.
  match goal with
  | |- context [bind (isCacheValid ?k) ?body ?w] =>
      destruct (served_from_cache k (body false) w Hhit) as (e & He & Hserved);
      cbv beta iota in Hserved
  end.
  cbn [opt_limit opt_offset opt_categoryId opt_featured opt_searchQuery odd plain] in *.
  change (template_string (Some "undefined")) with (template_string None).
  unfold news_list_key in *. cbn [template_string] in *.
  rewrite Hserved. cbn [fst snd].
  rewrite Hc, lookup_insert_eq in He. inversion He; subst e.
  split; reflexivity.
Qed.

Lemma undefined_search_is_served_unfiltered_witness :
  exists items,
    fst (getNewsList {| opt_limit := None; opt_offset := None;
                        opt_categoryId := None; opt_featured := None;
                        opt_searchQuery := Some "undefined" |}
           (snd (getNewsList {| opt_limit := None; opt_offset := None;
                                opt_categoryId := None; opt_featured := None;
                                opt_searchQuery := None |} Sample.healthy)))
      = Returns (PList items 2)
    /\ counted {| opt_limit := None; opt_offset := None;
                  opt_categoryId := None; opt_featured := None;
                  opt_searchQuery := Some "undefined" |} Sample.store = 0.
Proof.
  destruct (undefined_search_is_served_unfiltered None None None None
              Sample.healthy
              (snd (getNewsList {| opt_limit := None; opt_offset := None;
                                   opt_categoryId := None; opt_featured := None;
                                   opt_searchQuery := None |} Sample.healthy))
              (fst (getNewsList {| opt_limit := None; opt_offset := None;
                                   opt_categoryId := None; opt_featured := None;
                                   opt_searchQuery := None |} Sample.healthy)))
    as (items & H1 & H2 & _).
  - repeat split; reflexivity.
  - reflexivity.
  - reflexivity.
  - exists items. split; [|reflexivity]. rewrite H2. exact H1.
Defined.

(* ===================================================================== *)
(** * Properties of the other routes *)
(* ===================================================================== *)

(** ** [/api/news/slug/[slug]] *)

(** X14.  On [GET /api/news/slug/[slug]] an outage of the store cannot be
    told from an unknown slug: when the cache does not serve the slug and
    the store rejects the SELECT, or answers it with no row, the answer is
    the same 404 "Notícia não encontrada", not a 500. *)
Theorem slug_route_outage_is_not_found (c : ascii) (s : string) (w : world) :
  within_ttl ("news_" +:+ String c s) w = false ->
  is_Some (faults w (queries w)) \/ published_with_slug (String c s) (db w) = [] ->
  fst (SlugRoute.handler {| SlugRoute.method := "GET";
                            SlugRoute.query_slug := Some (QString (String c s)) |} w)
  = Returns {| SlugRoute.status_code := 404;
               SlugRoute.body :=
                 {| SlugRoute.success := false; SlugRoute.data := None;
                    SlugRoute.relatedNews := None;
                    SlugRoute.message := Some "Notícia não encontrada" |} |}.
Proof.
  intros Hmiss Hcase.
  unfold SlugRoute.handler. cbn [SlugRoute.method SlugRoute.query_slug].
  change (String.eqb "GET" "GET") with true. cbn [negb].
  unfold try_catch, bind at 1.
  destruct (faults w (queries w)) as [m|] eqn:F.
  - destruct (getNewsBySlug_rejected (String c s) w m Hmiss F) as (w' & -> & _).
    reflexivity.
  - destruct Hcase as [[m Hm]|Hnone]; [discriminate|].
    destruct (getNewsBySlug_fetches (String c s) w Hmiss F) as (w' & ts & -> & _).
    rewrite Hnone. reflexivity.
Qed.

Lemma slug_route_outage_is_not_found_witness :
  SlugRoute.status_code <$>
    (match fst (SlugRoute.handler {| SlugRoute.method := "GET";
                  SlugRoute.query_slug := Some (QString "pipeline") |} Sample.down)
     with Returns r => Some r | Throws _ => None end) = Some 404.
Proof.
  rewrite (slug_route_outage_is_not_found "p" "ipeline" Sample.down).
  - reflexivity.
  - reflexivity.
  - left. simpl. eauto.
Defined.

Lemma firstn_In {A} (n : nat) (l : list A) (x : A) : In x (firstn n l) -> In x l.
Proof.
  revert l. induction n as [|n IH]; intros [|y l]; simpl; try tauto.
  intros [->|H]; [left; reflexivity|right; apply IH, H].
Qed.

(** X15.  A [GET /api/news/slug/[slug]] that finds the article [a], with a
    store that answers and a cache that holds nothing for the listing of
    its category, answers 200 with [a] in [data] and at most three related
    articles: each is published, belongs to the category of [a], and is not
    [a] itself. *)
Theorem slug_route_related (c : ascii) (s : string) (a : NewsArticle) (w : world) :
  within_ttl ("news_" +:+ String c s) w = false ->
  (forall k, faults w k = None) ->
  head (published_with_slug (String c s) (db w)) = Some a ->
  cache w !! news_list_key 4 0 (Some (n_category_id (row a))) false None = None ->
  "news_" +:+ String c s <> news_list_key 4 0 (Some (n_category_id (row a))) false None ->
  exists related w',
    SlugRoute.handler {| SlugRoute.method := "GET";
                         SlugRoute.query_slug := Some (QString (String c s)) |} w
    = (Returns {| SlugRoute.status_code := 200;
                  SlugRoute.body :=
                    {| SlugRoute.success := true;
                       SlugRoute.data := Some (PNews (Some a));
                       SlugRoute.relatedNews := Some related;
                       SlugRoute.message := None |} |}, w')
    /\ (length related <= 3)%nat
    /\ (forall b, In b related ->
          n_id (row b) <> n_id (row a)
          /\ n_category_id (row b) = n_category_id (row a)
          /\ n_status (row b) = "published").
Proof.
  intros Hmiss Hok Hhead Hnone Hne.
  unfold SlugRoute.handler. cbn [SlugRoute.method SlugRoute.query_slug].
  change (String.eqb "GET" "GET") with true. cbn [negb].
  unfold try_catch, bind at 1.
  destruct (getNewsBySlug_fetches (String c s) w Hmiss (Hok _))
    as (w1 & ts & -> & Hc & Hf & _).
  rewrite Hhead. cbn [is_null category_id_of].
  set (options := {| opt_limit := Some 4; opt_offset := None;
                     opt_categoryId := Some (n_category_id (row a));
                     opt_featured := None; opt_searchQuery := None |}).
  assert (answered_by_store options w1) as Hans.
  { split; [|split; rewrite Hf; apply Hok].
    unfold within_ttl, list_key. cbn. rewrite Hc, lookup_insert_ne by exact Hne.
    cbn in Hnone. rewrite Hnone. reflexivity. }
  destruct (getNewsList_page options w1 Hans) as (w2 & Hpage & _).
  unfold bind at 1. rewrite Hpage.
  unfold SlugRoute.related_of, bind, ret, SlugRoute.send, ret.
  eexists _, _. split; [reflexivity|]. split.
  - rewrite length_firstn. lia.
  - intros b Hb. apply firstn_In in Hb. apply filter_In in Hb as [Hb Hother].
    unfold SlugRoute.other_than in Hother. cbn [id_of] in Hother.
    apply negb_true_iff, Z.eqb_neq in Hother. split; [exact Hother|].
    apply page_row_listed in Hb as [_ Hw].
    apply listed_where_holds in Hw as (Hp & Hcat & _).
    split; [apply Hcat; reflexivity|exact Hp].
Qed.

Lemma slug_route_related_witness :
  exists related w',
    SlugRoute.handler {| SlugRoute.method := "GET";
                         SlugRoute.query_slug := Some (QString "pipeline") |}
      Examples.crowded
    = (Returns {| SlugRoute.status_code := 200;
                  SlugRoute.body :=
                    {| SlugRoute.success := true;
                       SlugRoute.data :=
                         Some (PNews (Some {| row := Sample.article 1 "pipeline" 1 100 "published";
                                              category_name := "Surf"; author_name := "Ana" |}));
                       SlugRoute.relatedNews := Some related;
                       SlugRoute.message := None |} |}, w')
    /\ map (fun b => n_id (row b)) related = [8; 7; 6].
Proof.
  destruct (slug_route_related "p" "ipeline"
              {| row := Sample.article 1 "pipeline" 1 100 "published";
                 category_name := "Surf"; author_name := "Ana" |}
              Examples.crowded)
    as (related & w' & Hrun & _).
  - reflexivity.
  - reflexivity.
  - reflexivity.
  - reflexivity.
  - discriminate.
  - exists related, w'. split; [exact Hrun|].
    vm_compute in Hrun. inversion Hrun. reflexivity.
Defined.

(** ** [/api/categories] *)

(** X16.  With mock mode off, [GET /api/categories] answers 200 with
    [success: true] and exactly what [getCategories] returned, in every
    world: the fallback to the mock categories in the inner [catch] is
    never taken, because [getCategories] does not throw.  So when the store
    rejects the statement the answer is a success with an empty list. *)
Theorem categories_route_passes_service_through
    (env : gmap string string) (DEBUG_MOCK : bool)
    (mockCategories : list CategoriesRoute.MockCategory) (w : world) :
  exists p w',
    getCategories w = (Returns p, w')
    /\ CategoriesRoute.handler env false DEBUG_MOCK mockCategories "GET" w
       = (Returns {| CategoriesRoute.status_code := 200;
                     CategoriesRoute.body :=
                       {| CategoriesRoute.success := true;
                          CategoriesRoute.data := Some (CategoriesRoute.FromService p);
                          CategoriesRoute.message := None;
                          CategoriesRoute.error := None |} |}, w')
    /\ (within_ttl "categories" w = false ->
        is_Some (faults w (queries w)) ->
        p = PCategories []).
Proof.
  destruct (reads_never_throw Categories w) as (p & Hp). simpl in Hp.
  destruct (getCategories w) as [o w'] eqn:E. simpl in Hp. subst o.
  exists p, w'. split; [reflexivity|]. split.
  - unfold CategoriesRoute.handler, try_catch, bind. simpl. rewrite E. reflexivity.
  - intros Hmiss [m Hm].
    destruct (getCategories_rejected w m Hmiss Hm) as (w'' & E' & _).
    rewrite E in E'. inversion E'. reflexivity.
Qed.

Lemma categories_route_passes_service_through_witness :
  fst (CategoriesRoute.handler ∅ false false Examples.mockCategories "GET" Sample.down)
  = Returns {| CategoriesRoute.status_code := 200;
               CategoriesRoute.body :=
                 {| CategoriesRoute.success := true;
                    CategoriesRoute.data :=
                      Some (CategoriesRoute.FromService (PCategories []));
                    CategoriesRoute.message := None;
                    CategoriesRoute.error := None |} |}.
Proof.
  destruct (categories_route_passes_service_through ∅ false
              Examples.mockCategories Sample.down) as (p & w' & _ & -> & Hp).
  rewrite Hp; [reflexivity|reflexivity|]. simpl. eauto.
Defined.

(** X17.  In the process as it is built, [/api/categories] never reads the
    store: whatever the environment variables say, the switch computed by
    [mock-mode] is on, and a GET answers the reshaped mock categories -- one
    per element of [mockCategories], a missing description as the empty
    text and a missing count as 0 -- leaving cache, store and counters as
    they were. *)
Theorem categories_route_always_mocked
    (env : gmap string string)
    (mockCategories : list CategoriesRoute.MockCategory) (w : world) :
  CategoriesRoute.handler_of_process env mockCategories "GET" w
  = (Returns {| CategoriesRoute.status_code := 200;
                CategoriesRoute.body :=
                  {| CategoriesRoute.success := true;
                     CategoriesRoute.data :=
                       Some (CategoriesRoute.Formatted
                               (map CategoriesRoute.format mockCategories));
                     CategoriesRoute.message := None;
                     CategoriesRoute.error := None |} |}, w)
  /\ length (map CategoriesRoute.format mockCategories) = length mockCategories
  /\ (forall cat, In cat mockCategories ->
        CategoriesRoute.mock_description cat = None ->
        CategoriesRoute.mock_count cat = None ->
        CategoriesRoute.description (CategoriesRoute.format cat) = ""
        /\ CategoriesRoute.news_count (CategoriesRoute.format cat) = 0).
Proof.
  split; [|split].
  - unfold CategoriesRoute.handler_of_process, CategoriesRoute.handler.
    unfold MockMode.MOCK_MODE. rewrite orb_true_r.
    unfold try_catch, bind. simpl.
    destruct (MockMode.DEBUG_MOCK env); reflexivity.
  - apply length_map.
  - intros cat _ Hd Hc. unfold CategoriesRoute.format. simpl.
    rewrite Hd, Hc. split; reflexivity.
Qed.

(** ** [/api/news], as the process runs it *)

Section Process.

Import NewsRoute.

Variable env : gmap string string.
Variable getSession : request -> M (option Session).
Variable GET_case : request -> option Session -> M response.
Variable GET_contingency : M response.

(** X18.  In the process as it is built, a POST to [/api/news] never
    reaches the store: whatever the environment, the session and the body,
    the handler sends no statement and leaves tables and cache as
    [getSession] left them; it answers 401, 400 or 201. *)
Theorem post_never_reaches_store (req : request) (w w1 : world)
    (session : outcome (option Session)) :
  method req = "POST" ->
  getSession req w = (session, w1) ->
  exists r w',
    handler_of_process env getSession GET_case GET_contingency req w = (Returns r, w')
    /\ db w' = db w1 /\ cache w' = cache w1 /\ queries w' = queries w1
    /\ (status_code r = 401 \/ status_code r = 400 \/ status_code r = 201).
Proof.
  intros Hm Hs.
  unfold handler_of_process, handler, MockMode.MOCK_MODE.
  rewrite orb_true_r, Hm.
  change (String.eqb "POST" "GET") with false.
  change (String.eqb "POST" "POST") with true. cbv iota.
  unfold try_catch, bind at 1. rewrite Hs.
  destruct session as [session|e].
  - unfold POST_case.
    destruct (req_body req) as [b|].
    + destruct session as [[[u|]]|];
        try (eexists _, _; split; [reflexivity|]; simpl; auto 10).
      destruct (negb (truthy_string (b_title b)) || negb (truthy_string (b_slug b))
                || negb (truthy_string (b_content b))
                || negb (truthy_number (b_categoryId b))).
      * eexists _, _; split; [reflexivity|]; simpl; auto 10.
      * destruct (MockMode.DEBUG_MOCK env);
          eexists _, _; (split; [reflexivity|]); simpl; auto 10.
    + eexists _, _; split; [reflexivity|]; simpl; auto 10.
  - eexists _, _; split; [reflexivity|]; simpl; auto 10.
Qed.

(** X19.  In the process as it is built, a POST to [/api/news] that makes
    the handler throw is answered as a success: when [getSession] throws,
    or when the body is null -- which is found out before the session is
    looked at -- the answer is 201 with [success: true] and a synthesized
    identifier, session or not. *)
Theorem crashed_post_is_answered_created (req : request) (w w1 : world)
    (session : outcome (option Session)) :
  method req = "POST" ->
  getSession req w = (session, w1) ->
  (exists e, session = Throws e) \/ req_body req = None ->
  exists w',
    handler_of_process env getSession GET_case GET_contingency req w
    = (Returns {| status_code := 201;
                  body := {| success := true;
                             data := Some (id_object (next_identifier w1));
                             message := Some "Notícia criada com sucesso (modo contingência)";
                             meta := None; error := None |} |}, w').
Proof.
  intros Hm Hs Hcrash.
  unfold handler_of_process, handler, MockMode.MOCK_MODE.
  rewrite orb_true_r, Hm.
  change (String.eqb "POST" "GET") with false.
  change (String.eqb "POST" "POST") with true. cbv iota.
  unfold try_catch, bind at 1. rewrite Hs.
  destruct session as [session|e].
  - destruct Hcrash as [[e He]|Hb]; [discriminate|].
    unfold POST_case. rewrite Hb. eexists. reflexivity.
  - eexists. reflexivity.
Qed.

End Process.

Lemma post_never_reaches_store_witness :
  exists r w',
    NewsRoute.handler_of_process {[ "NEXT_PUBLIC_MOCK_MODE" := "false" ]}
      (fun _ => ret (Some Sample.session))
      (fun _ _ => throw (TypeError "not a GET")) (throw (TypeError "not a GET"))
      Sample.post Sample.healthy = (Returns r, w')
    /\ db w' = Sample.store /\ NewsRoute.status_code r = 201.
Proof.
  destruct (post_never_reaches_store {[ "NEXT_PUBLIC_MOCK_MODE" := "false" ]}
              (fun _ => ret (Some Sample.session))
              (fun _ _ => throw (TypeError "not a GET")) (throw (TypeError "not a GET"))
              Sample.post Sample.healthy Sample.healthy (Returns (Some Sample.session)))
    as (r & w' & Hrun & Hd & _); [reflexivity..|].
  exists r, w'. split; [exact Hrun|]. split; [exact Hd|].
  vm_compute in Hrun. inversion Hrun. reflexivity.
Defined.

Lemma crashed_post_is_answered_created_witness :
  exists w',
    NewsRoute.handler_of_process ∅ (fun _ => ret None)
      (fun _ _ => throw (TypeError "not a GET")) (throw (TypeError "not a GET"))
      {| NewsRoute.method := "POST"; NewsRoute.query := ∅;
         NewsRoute.req_body := None |} Sample.healthy
    = (Returns {| NewsRoute.status_code := 201;
                  NewsRoute.body :=
                    {| NewsRoute.success := true;
                       NewsRoute.data := Some (NewsRoute.id_object 600);
                       NewsRoute.message :=
                         Some "Notícia criada com sucesso (modo contingência)";
                       NewsRoute.meta := None; NewsRoute.error := None |} |}, w').
Proof.
  destruct (crashed_post_is_answered_created ∅ (fun _ => ret None)
              (fun _ _ => throw (TypeError "not a GET")) (throw (TypeError "not a GET"))
              {| NewsRoute.method := "POST"; NewsRoute.query := ∅;
                 NewsRoute.req_body := None |}
              Sample.healthy Sample.healthy (Returns None))
    as (w' & Hrun); [reflexivity|reflexivity|right; reflexivity|].
  exists w'. exact Hrun.
Defined.

(** ** [/api/news/[id]] *)

Section ItemRoute.

Import NewsItemRoute.

Variable env : gmap string string.
Variable getSession : request -> M (option Session).

(** X20.  The gate of [/api/news/[id]].  A DELETE whose session has no
    administrator, and a PUT whose session has no user, are answered 401
    before the identifier or the body is looked at, and nothing has been
    asked of the service: the world is as [getSession] left it. *)
Theorem item_route_gate (req : request) (c : ascii) (s : string)
    (session : option Session) (w w1 : world) :
  query_id req = Some (QString (String c s)) ->
  getSession req w = (Returns session, w1) ->
  (method req = "DELETE" -> is_admin session = false ->
   exists text,
     handler env getSession req w
     = (Returns {| status_code := 401;
                   body := {| success := false; data := None;
                              message := Some text; error := None |} |}, w1))
  /\ (method req = "PUT" -> has_user session = false ->
      exists text,
        handler env getSession req w
        = (Returns {| status_code := 401;
                      body := {| success := false; data := None;
                                 message := Some text; error := None |} |}, w1)).
Proof.
  intros Hid Hs. split; intros Hm Hno.
  - unfold handler, try_catch. rewrite Hid. unfold bind at 1. rewrite Hs, Hm.
    change (String.eqb "DELETE" "GET") with false.
    change (String.eqb "DELETE" "PUT") with false.
    change (String.eqb "DELETE" "DELETE") with true. cbv iota.
    unfold DELETE_case. destruct session as [[[u|]]|]; simpl in Hno |- *;
      try (eexists; reflexivity).
    apply negb_false_iff in Hno. rewrite Hno. eexists; reflexivity.
  - unfold handler, try_catch. rewrite Hid. unfold bind at 1. rewrite Hs, Hm.
    change (String.eqb "PUT" "GET") with false.
    change (String.eqb "PUT" "PUT") with true. cbv iota.
    unfold PUT_case. destruct session as [[[u|]]|]; simpl in Hno |- *;
      try discriminate; eexists; reflexivity.
Qed.

(** X21.  Write failures surface on [/api/news/[id]].  When an
    administrator deletes by a numeric identifier and the store rejects the
    statement, the answer is 500 with [success: false] and the message of
    the store (a fixed text if that message is empty); the tables and the
    cache are left as they were. *)
Theorem item_route_reports_store_failure (req : request) (c : ascii) (s : string)
    (session : option Session) (w w1 : world) (m : string) :
  query_id req = Some (QString (String c s)) ->
  isNumeric (String c s) = true ->
  method req = "DELETE" ->
  getSession req w = (Returns session, w1) ->
  is_admin session = true ->
  faults w1 (queries w1) = Some m ->
  exists failure w',
    handler env getSession req w
    = (Returns {| status_code := 500;
                  body := {| success := false; data := None;
                             message := Some (NewsRoute.or_string (Some m)
                                                "Erro interno do servidor");
                             error := failure |} |}, w')
    /\ db w' = db w1 /\ cache w' = cache w1.
Proof.
  intros Hid Hnum Hm Hs Hadm F.
  unfold handler, try_catch. rewrite Hid. unfold bind at 1. rewrite Hs, Hm.
  change (String.eqb "DELETE" "GET") with false.
  change (String.eqb "DELETE" "PUT") with false.
  change (String.eqb "DELETE" "DELETE") with true. cbv iota.
  unfold DELETE_case. destruct session as [[[u|]]|]; try discriminate.
  simpl in Hadm. apply negb_true_iff in Hadm. rewrite Hadm, Hnum. cbn [negb].
  unfold bind at 1. unfold deleteNews, try_catch, bind at 1.
  rewrite (executeQuery_rejects _ w1 m F).
  unfold console_error, ret, bind, throw, send, ret.
  eexists _, _. split; [reflexivity|]. split; reflexivity.
Qed.

(** X22.  Deleting through the route.  When an administrator deletes by a
    numeric identifier and the store answers, the answer is 200 if some row
    has that identifier and 404 if none has; either way no row has it
    afterwards, and the cache is empty. *)
Theorem item_route_delete (req : request) (c : ascii) (s : string)
    (session : option Session) (w w1 : world) :
  query_id req = Some (QString (String c s)) ->
  isNumeric (String c s) = true ->
  parseInt (String c s) < 2 ^ 53 ->
  method req = "DELETE" ->
  getSession req w = (Returns session, w1) ->
  is_admin session = true ->
  faults w1 (queries w1) = None ->
  exists r w',
    handler env getSession req w = (Returns r, w')
    /\ status_code r =
         (if existsb (fun n => Z.eqb (n_id n) (parseInt (String c s))) (news (db w1))
          then 200 else 404)
    /\ success (body r)
       = existsb (fun n => Z.eqb (n_id n) (parseInt (String c s))) (news (db w1))
    /\ Forall (fun n => n_id n <> parseInt (String c s)) (news (db w'))
    /\ cache w' = ∅.
Proof.
  intros Hid Hnum _ Hm Hs Hadm F.
  unfold handler, try_catch. rewrite Hid. unfold bind at 1. rewrite Hs, Hm.
  change (String.eqb "DELETE" "GET") with false.
  change (String.eqb "DELETE" "PUT") with false.
  change (String.eqb "DELETE" "DELETE") with true. cbv iota.
  unfold DELETE_case. destruct session as [[[u|]]|]; try discriminate.
  simpl in Hadm. apply negb_true_iff in Hadm. rewrite Hadm, Hnum. cbn [negb].
  unfold bind at 1.
  rewrite (deleteNews_answered _ w1 F).
  unfold sql_delete_news at 1. cbn [fst affectedRows].
  rewrite affected_rows_positive.
  remember (existsb (fun n => Z.eqb (n_id n) (parseInt (String c s))) (news (db w1)))
    as found.
  assert (Forall (fun n => n_id n <> parseInt (String c s))
            (List.filter (fun n => negb (Z.eqb (n_id n) (parseInt (String c s))))
               (news (db w1)))) as Hgone.
  { apply List.Forall_forall. intros n Hn. apply filter_In in Hn as [_ Hn].
    apply negb_true_iff, Z.eqb_neq in Hn. exact Hn. }
  destruct found; cbn [negb];
    eexists _, _; (split; [reflexivity|]); simpl; auto.
Qed.

(** X23.  An article whose slug is made of digits only cannot be fetched
    through [/api/news/[id]]: a GET with such an identifier is answered 404
    without the service being asked, whatever the store holds. *)
Theorem item_route_numeric_get_is_not_found (req : request) (c : ascii) (s : string)
    (session : option Session) (w w1 : world) :
  query_id req = Some (QString (String c s)) ->
  isNumeric (String c s) = true ->
  method req = "GET" ->
  getSession req w = (Returns session, w1) ->
  exists text,
    handler env getSession req w
    = (Returns {| status_code := 404;
                  body := {| success := false; data := None;
                             message := Some text; error := None |} |}, w1).
Proof.
  intros Hid Hnum Hm Hs.
  unfold handler, try_catch. rewrite Hid. unfold bind at 1. rewrite Hs, Hm.
  change (String.eqb "GET" "GET") with true. cbv iota.
  unfold GET_case. rewrite Hnum. eexists. reflexivity.
Qed.

End ItemRoute.

Lemma item_route_gate_witness :
  exists text,
    NewsItemRoute.handler ∅ (fun _ => ret Examples.editor) (Examples.delete "1")
      Sample.healthy
    = (Returns {| NewsItemRoute.status_code := 401;
                  NewsItemRoute.body :=
                    {| NewsItemRoute.success := false; NewsItemRoute.data := None;
                       NewsItemRoute.message := Some text;
                       NewsItemRoute.error := None |} |}, Sample.healthy).
Proof.
  apply (proj1 (item_route_gate ∅ (fun _ => ret Examples.editor)
                  (Examples.delete "1") "1" "" Examples.editor
                  Sample.healthy Sample.healthy eq_refl eq_refl));
    reflexivity.
Defined.

Lemma item_route_reports_store_failure_witness :
  exists failure w',
    NewsItemRoute.handler ∅ (fun _ => ret Examples.admin) (Examples.delete "1")
      Sample.down
    = (Returns {| NewsItemRoute.status_code := 500;
                  NewsItemRoute.body :=
                    {| NewsItemRoute.success := false; NewsItemRoute.data := None;
                       NewsItemRoute.message := Some "ECONNREFUSED";
                       NewsItemRoute.error := failure |} |}, w')
    /\ db w' = Sample.store.
Proof.
  destruct (item_route_reports_store_failure ∅ (fun _ => ret Examples.admin)
              (Examples.delete "1") "1" "" Examples.admin
              Sample.down Sample.down "ECONNREFUSED")
    as (failure & w' & Hrun & Hd & _); [reflexivity..|].
  exists failure, w'. split; [exact Hrun|exact Hd].
Defined.

Lemma item_route_delete_witness :
  exists r w',
    NewsItemRoute.handler ∅ (fun _ => ret Examples.admin) (Examples.delete "2")
      Sample.healthy = (Returns r, w')
    /\ NewsItemRoute.status_code r = 200
    /\ map n_id (news (db w')) = [1; 3].
Proof.
  destruct (item_route_delete ∅ (fun _ => ret Examples.admin)
              (Examples.delete "2") "2" "" Examples.admin
              Sample.healthy Sample.healthy)
    as (r & w' & Hrun & Hst & _); [reflexivity..|].
  exists r, w'. split; [exact Hrun|]. split; [exact Hst|].
  vm_compute in Hrun. inversion Hrun. reflexivity.
Defined.

Lemma item_route_numeric_get_is_not_found_witness :
  exists text,
    NewsItemRoute.handler ∅ (fun _ => ret None) (Examples.get "2024")
      Examples.numbered
    = (Returns {| NewsItemRoute.status_code := 404;
                  NewsItemRoute.body :=
                    {| NewsItemRoute.success := false; NewsItemRoute.data := None;
                       NewsItemRoute.message := Some text;
                       NewsItemRoute.error := None |} |}, Examples.numbered)
    /\ published_with_slug "2024" (db Examples.numbered) <> [].
Proof.
  destruct (item_route_numeric_get_is_not_found ∅ (fun _ => ret None)
              (Examples.get "2024") "2" "024" None
              Examples.numbered Examples.numbered)
    as (text & Hrun); [reflexivity..|].
  exists text. split; [exact Hrun|]. discriminate.
Defined.

(** ** Identifiers in the path *)

Lemma append_assoc (a b c : string) : (a +:+ b) +:+ c = a +:+ (b +:+ c).
Proof.
  induction a as [|x a IH]; [reflexivity|].
  change (String x ((a +:+ b) +:+ c) = String x (a +:+ (b +:+ c))).
  f_equal. exact IH.
Qed.

Lemma pretty_N_go_app (x : N) (s : string) :
  pretty_N_go x s = pretty_N_go x "" +:+ s.
Proof.
  revert s. induction (N.lt_wf_0 x) as [x _ IH]; intros s.
  assert (x = 0 \/ 0 < x)%N as [->|Hpos] by lia.
  - rewrite !pretty_N_go_0. reflexivity.
  - rewrite (pretty_N_go_step x s), (pretty_N_go_step x "") by exact Hpos.
    assert (x `div` 10 < x)%N as Hlt by (apply N.div_lt; [exact Hpos|reflexivity]).
    rewrite (IH _ Hlt (String _ s)), (IH _ Hlt (String _ "")).
    rewrite append_assoc. reflexivity.
Qed.

Lemma digits_value_app (acc : Z) (a b : string) :
  NewsItemRoute.digits_value acc (a +:+ b)
  = NewsItemRoute.digits_value (NewsItemRoute.digits_value acc a) b.
Proof.
  revert acc. induction a as [|x a IH]; intros acc; simpl; [reflexivity|].
  apply IH.
Qed.

Lemma all_digits_app (a b : string) :
  NewsItemRoute.all_digits (a +:+ b)
  = NewsItemRoute.all_digits a && NewsItemRoute.all_digits b.
Proof.
  induction a as [|x a IH]; simpl; [reflexivity|].
  rewrite IH, andb_assoc. reflexivity.
Qed.

Lemma pretty_N_char_digit (d : N) :
  (d < 10)%N ->
  NewsItemRoute.is_digit (pretty_N_char d) = true
  /\ Z.of_nat (nat_of_ascii (pretty_N_char d)) - 48 = Z.of_N d.
Proof.
  intros Hd.
  assert (d = 0 \/ d = 1 \/ d = 2 \/ d = 3 \/ d = 4 \/ d = 5 \/ d = 6 \/ d = 7
          \/ d = 8 \/ d = 9)%N as H by lia.
  repeat (destruct H as [->|H]; [split; reflexivity|]). subst d. split; reflexivity.
Qed.

Lemma pretty_N_go_digits (x : N) :
  NewsItemRoute.all_digits (pretty_N_go x "") = true
  /\ NewsItemRoute.digits_value 0 (pretty_N_go x "") = Z.of_N x.
Proof.
  induction (N.lt_wf_0 x) as [x _ IH].
  assert (x = 0 \/ 0 < x)%N as [->|Hpos] by lia.
  - rewrite pretty_N_go_0. split; reflexivity.
  - rewrite pretty_N_go_step, pretty_N_go_app by exact Hpos.
    assert (x `div` 10 < x)%N as Hlt by (apply N.div_lt; [exact Hpos|reflexivity]).
    destruct (IH _ Hlt) as [Hall Hval].
    destruct (pretty_N_char_digit (x `mod` 10)) as [Hd Hv];
      [apply N.mod_lt; discriminate|].
    rewrite all_digits_app, digits_value_app, Hall, Hval. simpl.
    rewrite Hd, Hv. split; [reflexivity|].
    rewrite (N.div_mod x 10) at 3 by discriminate. lia.
Qed.

(** X24.  The identifier in a path survives the round trip: a non-negative
    integer below 2^53, printed as a template literal prints it, passes the
    test [/^\d+$/] of the route and is parsed back by [parseInt] to the same
    integer. *)
Theorem printed_id_is_parsed_back (id : Z) :
  0 <= id < 2 ^ 53 ->
  NewsItemRoute.isNumeric (template_number (Some id)) = true
  /\ NewsItemRoute.parseInt (template_number (Some id)) = id.
Proof.
  intros [Hlo _]. cbn [template_number].
  destruct id as [|p|p]; [split; reflexivity| |lia].
  change (pretty (Z.pos p)) with (pretty_N_go (N.pos p) "").
  destruct (pretty_N_go_digits (N.pos p)) as [Hall Hval].
  unfold NewsItemRoute.parseInt. rewrite Hval. split; [|reflexivity].
  unfold NewsItemRoute.isNumeric. rewrite Hall.
  destruct (pretty_N_go (N.pos p) ""); [discriminate Hval|reflexivity].
Qed.

Lemma printed_id_is_parsed_back_witness :
  NewsItemRoute.isNumeric (template_number (Some 2024)) = true
  /\ NewsItemRoute.parseInt (template_number (Some 2024)) = 2024.
Proof. apply (printed_id_is_parsed_back 2024). lia. Defined.

(** ** Updating and reading through [/api/news/[id]] *)

(** No read over an empty cache shows an article that is not published. *)
Lemma unpublished_article_is_not_shown (id : Z) (r : read) (w : world) (p : payload) :
  cache w = ∅ ->
  Forall (fun n => n_id n = id -> n_status n = "draft") (news (db w)) ->
  fst (answer r w) = Returns p ->
  shows id p = false.
Proof.
  intros Hempty Hdraft Hrun.
  pose proof (empty_cache_misses (key_of r) w Hempty) as Hmiss.
  assert (forall a, In a (news_join (db w)) -> n_status (row a) = "published" ->
                    Z.eqb (n_id (row a)) id = false) as Hjoin.
  { intros a Ha Hp. apply news_join_row in Ha.
    rewrite List.Forall_forall in Hdraft. apply Z.eqb_neq. intros E.
    rewrite (Hdraft _ Ha E) in Hp. discriminate. }
  destruct r as [slug|options|]; simpl in *.
  - destruct (faults w (queries w)) as [m|] eqn:F.
    + destruct (getNewsBySlug_rejected slug w m Hmiss F) as (w' & E & _).
      rewrite E in Hrun. inversion Hrun. reflexivity.
    + destruct (getNewsBySlug_fetches slug w Hmiss F) as (w' & ts & E & _).
      rewrite E in Hrun. inversion Hrun; subst p.
      destruct (published_with_slug slug (db w)) as [|a l] eqn:Hp; [reflexivity|].
      simpl.
      assert (In a (published_with_slug slug (db w))) as Hin
        by (rewrite Hp; left; reflexivity).
      apply published_with_slug_spec in Hin as (Hin & _ & Hpub).
      apply Hjoin; assumption.
  - destruct (faults w (queries w)) as [m|] eqn:F1.
    + destruct (getNewsList_rejected options w Hmiss) as (w' & E & _);
        [left; rewrite F1; eauto|].
      rewrite E in Hrun. inversion Hrun. reflexivity.
    + destruct (faults w (S (queries w))) as [m|] eqn:F2.
      * destruct (getNewsList_rejected options w Hmiss) as (w' & E & _);
          [right; rewrite F2; eauto|].
        rewrite E in Hrun. inversion Hrun. reflexivity.
      * destruct (getNewsList_page options w (conj Hmiss (conj F1 F2))) as (w' & E & _).
        rewrite E in Hrun. inversion Hrun; subst p. simpl.
        apply not_true_is_false. intros Hex.
        apply existsb_exists in Hex as (a & Hin & Ha).
        apply page_row_listed in Hin as [Hin Hw].
        apply listed_where_holds in Hw as (Hpub & _).
        rewrite (Hjoin a Hin Hpub) in Ha. discriminate.
  - destruct (faults w (queries w)) as [m|] eqn:F.
    + destruct (getCategories_rejected w m Hmiss F) as (w' & E & _).
      rewrite E in Hrun. inversion Hrun. reflexivity.
    + destruct (getCategories_fetches w Hmiss F) as (w' & ts & E & _).
      rewrite E in Hrun. inversion Hrun. reflexivity.
Qed.

Section ItemRouteUpdate.

Import NewsItemRoute.

Variable env : gmap string string.
Variable getSession : request -> M (option Session).

(** X25.  An update that leaves the status out unpublishes.  When a signed-in
    user -- administrator or not, author or not -- PUTs a complete body
    without [status] (or with an empty one) to a numeric identifier and the
    store answers, the answer is 200 if some row has that identifier and 404
    if none has; afterwards every row with that identifier is a draft, and
    no read shows the article any more. *)
Theorem put_without_status_unpublishes (req : request) (c : ascii) (s : string)
    (b : NewsRoute.NewsBody) (session : option Session) (w w1 : world) :
  query_id req = Some (QString (String c s)) ->
  isNumeric (String c s) = true ->
  parseInt (String c s) < 2 ^ 53 ->
  method req = "PUT" ->
  getSession req w = (Returns session, w1) ->
  has_user session = true ->
  req_body req = Some b ->
  NewsRoute.truthy_string (NewsRoute.b_title b) = true ->
  NewsRoute.truthy_string (NewsRoute.b_slug b) = true ->
  NewsRoute.truthy_string (NewsRoute.b_content b) = true ->
  NewsRoute.truthy_number (NewsRoute.b_categoryId b) = true ->
  NewsRoute.truthy_string (NewsRoute.b_status b) = false ->
  faults w1 (queries w1) = None ->
  exists r w',
    handler env getSession req w = (Returns r, w')
    /\ status_code r =
         (if existsb (fun n => Z.eqb (n_id n) (parseInt (String c s))) (news (db w1))
          then 200 else 404)
    /\ Forall (fun n => n_id n = parseInt (String c s) -> n_status n = "draft")
         (news (db w'))
    /\ (forall q p, fst (answer q w') = Returns p ->
          shows (parseInt (String c s)) p = false).
Proof.
  intros Hid Hnum _ Hm Hs Huser Hb Ht Hsl Hc Hcat Hst F.
  remember (parseInt (String c s)) as id eqn:Eid.
  unfold handler, try_catch. rewrite Hid. unfold bind at 1. rewrite Hs, Hm.
  change (String.eqb "PUT" "GET") with false.
  change (String.eqb "PUT" "PUT") with true. cbv iota.
  unfold PUT_case. destruct session as [[[u|]]|]; try discriminate.
  rewrite Hnum, Hb, Ht, Hsl, Hc, Hcat. cbn [negb orb]. rewrite <- Eid.
  unfold bind at 1. rewrite (updateNews_answered _ _ w1 F).
  unfold sql_update_news at 1. cbn [fst affectedRows].
  rewrite affected_rows_positive.
  assert (NewsRoute.or_string (NewsRoute.b_status b) "draft" = "draft") as Hdraft.
  { destruct (NewsRoute.b_status b) as [[|x t]|]; [reflexivity|discriminate|reflexivity]. }
  cbn [status]. rewrite Hdraft.
  match goal with
  | |- context [set_cache ∅ ?x] => set (w2 := set_cache ∅ x)
  end.
  assert (Forall (fun n => n_id n = id -> n_status n = "draft")
            (news (db w2))) as Hrows.
  { subst w2. cbn. apply List.Forall_forall. intros n Hn.
    apply in_map_iff in Hn as (n0 & <- & _).
    destruct (Z.eqb_spec (n_id n0) id) as [E|E]; cbn; intros H;
      [reflexivity|contradiction]. }
  assert (forall q p, fst (answer q w2) = Returns p -> shows id p = false) as Hread.
  { intros q p. apply unpublished_article_is_not_shown; [reflexivity|exact Hrows]. }
  destruct (existsb _ (news (db w1))); cbn [negb];
    eexists _, w2; (split; [reflexivity|]); auto.
Qed.

(** X26.  Reading through [/api/news/[id]].  A GET whose identifier is not
    numeric needs no session and never answers 500: the route asks
    [getNewsBySlug] once and answers 200 with the article it returns, or 404
    when it returns null -- 404 too, then, when the store is down. *)
Theorem item_route_get_follows_service (req : request) (c : ascii) (s : string)
    (session : option Session) (w w1 : world) :
  query_id req = Some (QString (String c s)) ->
  isNumeric (String c s) = false ->
  method req = "GET" ->
  getSession req w = (Returns session, w1) ->
  exists p r,
    fst (getNewsBySlug (String c s) w1) = Returns p
    /\ handler env getSession req w = (Returns r, snd (getNewsBySlug (String c s) w1))
    /\ status_code r = (if is_null p then 404 else 200)
    /\ success (body r) = negb (is_null p)
    /\ data (body r) = (if is_null p then None else Some p)
    /\ (within_ttl ("news_" +:+ String c s) w1 = false ->
        is_Some (faults w1 (queries w1)) -> status_code r = 404).
Proof.
  intros Hid Hnum Hm Hs.
  destruct (reads_never_throw (NewsBySlug (String c s)) w1) as (p & Hp).
  cbn [answer] in Hp.
  assert (within_ttl ("news_" +:+ String c s) w1 = false ->
          is_Some (faults w1 (queries w1)) -> is_null p = true) as Hdown.
  { intros Hmiss [m F].
    destruct (getNewsBySlug_rejected (String c s) w1 m Hmiss F) as (w' & E & _).
    rewrite E in Hp. inversion Hp. reflexivity. }
  unfold handler, try_catch. rewrite Hid. unfold bind at 1. rewrite Hs, Hm.
  change (String.eqb "GET" "GET") with true. cbv iota.
  unfold GET_case. rewrite Hnum. unfold bind.
  destruct (getNewsBySlug (String c s) w1) as [o w2]. cbn [fst snd] in *. subst o.
  exists p. destruct (is_null p) eqn:Hnull;
    (eexists; split; [reflexivity|]; split; [reflexivity|]);
    cbn; repeat split; auto; intros Hmiss Hf;
    specialize (Hdown Hmiss Hf); congruence.
Qed.

End ItemRouteUpdate.

Lemma put_without_status_unpublishes_witness :
  exists r w',
    NewsItemRoute.handler ∅ (fun _ => ret Examples.editor)
      (Examples.put "2" Sample.body) Sample.healthy = (Returns r, w')
    /\ NewsItemRoute.status_code r = 200
    /\ fst (getNewsBySlug "nazare" w') = Returns (PNews None).
Proof.
  destruct (put_without_status_unpublishes ∅ (fun _ => ret Examples.editor)
              (Examples.put "2" Sample.body) "2" "" Sample.body Examples.editor
              Sample.healthy Sample.healthy)
    as (r & w' & Hrun & Hst & _); [reflexivity..|].
  exists r, w'. split; [exact Hrun|]. split; [exact Hst|].
  vm_compute in Hrun. inversion Hrun. reflexivity.
Defined.

Lemma item_route_get_follows_service_witness :
  exists p r,
    NewsItemRoute.handler ∅ (fun _ => ret None) (Examples.get "pipeline")
      Sample.down = (Returns r, snd (getNewsBySlug "pipeline" Sample.down))
    /\ NewsItemRoute.status_code r = 404
    /\ p = PNews None.
Proof.
  destruct (item_route_get_follows_service ∅ (fun _ => ret None)
              (Examples.get "pipeline") "p" "ipeline" None
              Sample.down Sample.down)
    as (p & r & Hp & Hrun & _ & _ & _ & Hdown); [reflexivity..|].
  exists p, r. split; [exact Hrun|]. split.
  - apply Hdown; [reflexivity|]. exists "ECONNREFUSED". reflexivity.
  - vm_compute in Hp. inversion Hp. reflexivity.
Defined.
